(** * Inventory tracker: the request handlers of [routes.py]

    A shallow embedding of the Flask handlers of [src/routes.py] over an
    explicit relational store, and the properties of the stock ledger, the
    catalog, the listing, the dashboard statistics and the CSV adapter.

    Conventions.
    - Python [int] is [Z]; storage limits of the database and the
      interpreter's limit on the length of decimal literals are not
      modelled.
    - Python [str] is [string]; a character is a code point below 256, so
      the order on code points is the order SQLite's BINARY collation
      gives the UTF-8 encodings.
    - Python [float] is an interface ([PyFloat]): the handlers only convert
      text to floats, print floats and let the database compare them.
    - The database is an interface ([Database]) where SQL leaves the
      result open: the order of the rows with equal keys of an ordered
      query, with and without a LIMIT.
    - The attributes of the class [Product] that are not columns are an
      interface ([ProductAttributes]): [models.py] and the libraries that
      declare them are not part of the sources.
    - [request.form] and [request.args] are finite maps from field names to
      the submitted text; a CSV row is the dictionary [csv.DictReader]
      yields. Of the text layer of the [csv] module (quoting, line ends)
      only the limit on the length of a field is modelled: a table is a
      list of rows of cells. *)

From Stdlib Require Import ZArith Lia Ascii String List Sorting.Sorted Sorting.Permutation.
From Stdlib Require Import Numbers.DecimalString Numbers.DecimalPos Numbers.DecimalZ.
From stdpp Require Import base option list gmap strings.

Open Scope string_scope.
Open Scope list_scope.
Open Scope Z_scope.

(** ** Python built-ins used by the handlers *)

Module Py.

(** [str.isspace] on the code points below 256. *)
Definition isspace (c : ascii) : bool :=
  let n := nat_of_ascii c in
  (((9 <=? n) && (n <=? 13)) || ((28 <=? n) && (n <=? 32))
   || (n =? 133) || (n =? 160))%nat.

Fixpoint lstrip (s : string) : string :=
  match s with
  | EmptyString => EmptyString
  | String c r => if isspace c then lstrip r else s
  end.

Fixpoint rstrip (s : string) : string :=
  match s with
  | EmptyString => EmptyString
  | String c r =>
      match rstrip r with
      | EmptyString => if isspace c then EmptyString else String c EmptyString
      | r' => String c r'
      end
  end.

(** [s.strip()] *)
Definition strip (s : string) : string := rstrip (lstrip s).

(** Truth value of a string: [not s] holds of the empty string only. *)
Definition truthy (s : string) : bool :=
  match s with EmptyString => false | _ => true end.

Definition digit_val (c : ascii) : option Z :=
  let n := nat_of_ascii c in
  if ((48 <=? n) && (n <=? 57))%nat then Some (Z.of_nat n - 48) else None.

(** The digits of a decimal literal, [digit (["_"] digit)*], read left to
    right onto an accumulator. [after_digit] says whether the previous
    character was a digit, which is where an underscore may stand. *)
Fixpoint int_digits (after_digit : bool) (acc : Z) (s : string) : option Z :=
  match s with
  | EmptyString => if after_digit then Some acc else None
  | String c r =>
      match digit_val c with
      | Some d => int_digits true (10 * acc + d) r
      | None =>
          if (after_digit && Ascii.eqb c "_")%bool then
            match r with
            | EmptyString => None
            | String c' _ =>
                match digit_val c' with
                | Some _ => int_digits false acc r
                | None => None
                end
            end
          else None
      end
  end.

(** The white space [int] and [float] pass over around a numeral, on the
    code points below 256: that of [str.isspace] without the separators
    U+001C to U+001F. *)
Definition int_space (c : ascii) : bool :=
  let n := nat_of_ascii c in
  (((9 <=? n) && (n <=? 13)) || (n =? 32) || (n =? 133) || (n =? 160))%nat.

Fixpoint int_lstrip (s : string) : string :=
  match s with
  | EmptyString => EmptyString
  | String c r => if int_space c then int_lstrip r else s
  end.

Fixpoint int_rstrip (s : string) : string :=
  match s with
  | EmptyString => EmptyString
  | String c r =>
      match int_rstrip r with
      | EmptyString => if int_space c then EmptyString else String c EmptyString
      | r' => String c r'
      end
  end.

(** [int(s)] for a string [s]: white space, a sign, the digits, white
    space. [None] stands for [ValueError]. *)
Definition int (s : string) : option Z :=
  match int_rstrip (int_lstrip s) with
  | String "-" r => Z.opp <$> int_digits false 0 r
  | String "+" r => int_digits false 0 r
  | r => int_digits false 0 r
  end.

(** [str(z)] for an integer [z]. *)
Definition str_of_int (z : Z) : string :=
  NilZero.string_of_int (Z.to_int z).

(** [s.endswith(suffix)] *)
Definition endswith (s suffix : string) : bool :=
  let n := String.length s in
  let m := String.length suffix in
  if (m <=? n)%nat then String.eqb (substring (n - m) m s) suffix else false.

End Py.

Example py_strip_ex : Py.strip "  A1 	" = "A1". Proof. reflexivity. Qed.
Example py_int_ex1 : Py.int " -1_000 " = Some (-1000). Proof. reflexivity. Qed.
Example py_int_ex2 : Py.int "1__0" = None. Proof. reflexivity. Qed.
Example py_int_ex3 : Py.int "" = None. Proof. reflexivity. Qed.
Example py_int_ex4 : Py.int "007" = Some 7. Proof. reflexivity. Qed.
Example py_int_ex5 :
  Py.int (String (ascii_of_nat 28) "9") = None /\
  Py.strip (String (ascii_of_nat 28) "9") = "9" /\
  Py.int (String (ascii_of_nat 160) "9") = Some 9 /\
  Py.int ("9" +:+ String (ascii_of_nat 31) "") = None /\
  Py.int "+ 5" = None /\ Py.int "+5" = Some 5.
Proof. repeat split; reflexivity. Qed.
Example py_str_ex : Py.str_of_int (-42) = "-42" /\ Py.str_of_int 0 = "0".
Proof. split; reflexivity. Qed.

(** ** Requests and rows

    [request.form] and [request.args] map field names to the submitted
    text. A row of [csv.DictReader] maps the names of the header to cells; a
    cell missing from a short record is [None]. *)
Abbreviation form := (gmap string string).
Abbreviation args := (gmap string string).
Abbreviation row := (gmap string (option string)).

(** ** Interface of Python floats *)

(** What the handlers need of [float]: [float(s)] on text ([None] is
    [ValueError]), [float(z)] on an integer, the text [str] prints, and
    the order the database sorts a REAL column by. *)
Class PyFloat := {
  float : Type;
  float_of_string : string -> option float;
  float_of_int : Z -> float;
  float_repr : float -> string;
  float_leb : float -> float -> bool
}.

(** ** Interface of the database

    SQL fixes the order of the rows of an ordered query up to the rows
    with equal keys, and it does not say that the rows a query with a
    LIMIT returns begin the rows the query without it returns. The
    handlers are modelled over every engine that keeps to this. [le] is
    the order asked for; the rows come out in it when it is a total
    preorder, as the orders of the columns are. *)
Class Database := {
  (** [query.order_by(...).all()] *)
  order_by : forall {A : Type}, (A -> A -> bool) -> list A -> list A;
  (** [query.order_by(...).limit(n).all()] *)
  order_by_limit : forall {A : Type}, (A -> A -> bool) -> nat -> list A -> list A;
  order_by_perm : forall {A : Type} (le : A -> A -> bool) (l : list A),
    Permutation l (order_by le l);
  order_by_sorted : forall {A : Type} (le : A -> A -> bool) (l : list A),
    (forall a b, le a b = true \/ le b a = true) ->
    (forall a b c, le a b = true -> le b c = true -> le a c = true) ->
    Sorted (fun a b => le a b = true) (order_by le l);
  order_by_limit_take : forall {A : Type} (le : A -> A -> bool) (n : nat) (l : list A),
    exists l', Permutation l l' /\
      ((forall a b, le a b = true \/ le b a = true) ->
       (forall a b c, le a b = true -> le b c = true -> le a c = true) ->
       Sorted (fun a b => le a b = true) l') /\
      order_by_limit le n l = take n l'
}.

(** ** Interface of the class [Product] *)

(** Modelled from the spec: the columns of [Product] are the fields of the
    spec's data model. What else the class has as attributes is decided by
    the absent [models.py] and by the libraries it builds on;
    [other_attribute] holds of the names of those attributes. Three of
    them are known: [query], which [routes.py] uses, and [__doc__] and
    [__init__], which every class has. *)
Class ProductAttributes := {
  other_attribute : string -> bool;
  other_attribute_query : other_attribute "query" = true;
  other_attribute_doc : other_attribute "__doc__" = true;
  other_attribute_init : other_attribute "__init__" = true
}.

(** ** Data model *)

Section Inventory.
Context `{PyFloat} {DB : Database} {PA : ProductAttributes}.

(** A [datetime] is a count of microseconds since 1970-01-01T00:00:00,
    in UTC and without time zone, as [datetime.utcnow()] gives it. *)
Definition datetime := Z.

(** Modelled from the spec: the tables of the absent [models.py], with the
    fields of the spec's data model, which are the ones the constructor
    calls and attribute accesses of [routes.py] name. Name and SKU are
    mandatory, the description and the references are optional. *)
Record Product := mkProduct {
  p_id : Z;
  p_name : string;
  p_sku : string;
  p_description : option string;
  p_purchase_price : float;
  p_selling_price : float;
  p_quantity : Z;
  p_reorder_level : Z;
  p_category_id : option Z;
  p_supplier_id : option Z;
  p_created_at : datetime
}.

Record Category := mkCategory {
  c_id : Z;
  c_name : string;
  c_description : option string
}.

Record Supplier := mkSupplier {
  s_id : Z;
  s_name : string;
  s_contact_name : option string;
  s_email : option string;
  s_phone : option string;
  s_address : option string
}.

Record Transaction := mkTransaction {
  t_id : Z;
  t_product_id : Z;
  t_type : string;
  t_quantity : Z;
  t_notes : option string;
  t_user_id : option Z;
  t_created_at : datetime
}.

Record User := mkUser {
  u_id : Z;
  u_username : string;
  u_role : string
}.

(** Modelled from the spec: [User.is_admin] of the absent [models.py];
    the role "admin" is the one that grants the privileged operations. *)
Definition is_admin (u : User) : bool := String.eqb (u_role u) "admin".

(** The committed tables, each in row order. *)
Record Store := mkStore {
  all_products : list Product;
  all_categories : list Category;
  all_suppliers : list Supplier;
  all_transactions : list Transaction
}.

Definition empty_store : Store := mkStore [] [] [] [].

(** Primary keys are handed out as one more than the largest key of the
    table. *)
Definition next_id {A} (key : A -> Z) (rows : list A) : Z :=
  1 + fold_right (fun r m => Z.max (key r) m) 0 rows.

(** [Model.query.get(id)] *)
Definition get {A} (key : A -> Z) (rows : list A) (id : Z) : option A :=
  find (fun r => key r =? id) rows.

(** [Model.query.filter_by(field=v).first()] on a text column. *)
Definition first_by {A} (field : A -> string) (rows : list A) (v : string) : option A :=
  find (fun r => String.eqb (field r) v) rows.

(** Writing back the row of a changed object. *)
Definition update_row {A} (key : A -> Z) (r' : A) (rows : list A) : list A :=
  map (fun r => if key r =? key r' then r' else r) rows.

Definition with_products (st : Store) (ps : list Product) : Store :=
  mkStore ps (all_categories st) (all_suppliers st) (all_transactions st).
Definition with_categories (st : Store) (cs : list Category) : Store :=
  mkStore (all_products st) cs (all_suppliers st) (all_transactions st).
Definition with_suppliers (st : Store) (ss : list Supplier) : Store :=
  mkStore (all_products st) (all_categories st) ss (all_transactions st).

Definition set_quantity (p : Product) (q : Z) : Product :=
  mkProduct (p_id p) (p_name p) (p_sku p) (p_description p) (p_purchase_price p)
    (p_selling_price p) q (p_reorder_level p) (p_category_id p) (p_supplier_id p)
    (p_created_at p).

(** ** Requests and responses *)

Inductive method := GET | POST.

(** [int(request.form.get(k, d))]: the default [d] is an integer. *)
Definition form_int (f : form) (k : string) (d : Z) : option Z :=
  match f !! k with
  | None => Some d
  | Some s => Py.int s
  end.

(** [float(request.form.get(k, d))] *)
Definition form_float (f : form) (k : string) (d : Z) : option float :=
  match f !! k with
  | None => Some (float_of_int d)
  | Some s => float_of_string s
  end.

(** [request.form.get(k) or None], bound to an INTEGER column: the text
    is taken to be the decimal numeral of the key. *)
Definition form_key (f : form) (k : string) : option (option Z) :=
  match f !! k with
  | None => Some None
  | Some s => if Py.truthy s then Some <$> Py.int s else Some None
  end.

Definition flash := (string * string)%type.

Inductive response :=
| Redirect (endpoint : string)
| Render (template : string) (product : option Product)
| NotFound
| ServerError.

Record result := mkResult {
  r_store : Store;
  r_flashes : list flash;
  r_response : response
}.

(** Modelled from the spec: the end of a request, set up in the absent
    [app.py]. A request is one unit of work: what the handler has committed
    stays, what it has not is dropped with the session. *)
Definition end_of_request (committed : Store) (flashes : list flash)
    (resp : response) : result :=
  mkResult committed flashes resp.

(** [get_or_404] found nothing. *)
Definition abort404 (st : Store) : result := mkResult st [] NotFound.
(** An exception left the handler before any commit. *)
Definition raised (st : Store) : result := end_of_request st [] ServerError.

(** The messages the spec names. *)
Definition InvalidQuantity : flash := ("Quantity must be greater than 0.", "error").
Definition InsufficientStock : flash := ("Cannot sell more than available stock.", "error").
Definition DuplicateSKU : flash := ("A product with this SKU already exists.", "error").
Definition DuplicateCategoryName : flash := ("A category with this name already exists.", "error").

(** [str(x)] of an optional text: [None] prints as "None". *)
Definition str_of_opt (o : option string) : string := default "None" o.

(** ** Ledger: [update_stock] *)

Definition update_stock (st : Store) (current_user : User) (now : datetime)
    (id : Z) (m : method) (f : form) : result :=
  match get p_id (all_products st) id with
  | None => abort404 st
  | Some product =>
      let form_page := Render "stock_form.html" (Some product) in
      match m with
      | GET => mkResult st [] form_page
      | POST =>
          let action := f !! "action" in
          match form_int f "quantity" 0 with
          | None => raised st
          | Some quantity =>
              let notes := default "" (f !! "notes") in
              if quantity <=? 0 then mkResult st [InvalidQuantity] form_page
              else if bool_decide (action = Some "sale") && (p_quantity product <? quantity)
              then mkResult st [InsufficientStock] form_page
              else
                let '(new_quantity, transaction_type) :=
                  if bool_decide (action = Some "purchase")
                  then (p_quantity product + quantity, "purchase")
                  else (p_quantity product - quantity, "sale") in
                let transaction :=
                  mkTransaction (next_id t_id (all_transactions st)) (p_id product)
                    transaction_type quantity (Some notes) (Some (u_id current_user)) now in
                let st' :=
                  mkStore (update_row p_id (set_quantity product new_quantity) (all_products st))
                    (all_categories st) (all_suppliers st) (all_transactions st ++ [transaction]) in
                mkResult st'
                  [("Stock " +:+ str_of_opt action +:+ " recorded successfully!", "success")]
                  (Redirect "products")
          end
      end
  end.

(** ** Catalog: [add_product] *)

(** The conversions run in the order of the source; any of them raising
    ends the request with nothing written. A missing name or SKU is a NULL
    the table refuses when the session commits. *)
Definition add_product (st : Store) (current_user : User) (now : datetime)
    (m : method) (f : form) : result :=
  let form_page := Render "product_form.html" None in
  match m with
  | GET => mkResult st [] form_page
  | POST =>
      let name := f !! "name" in
      let sku := f !! "sku" in
      let description := f !! "description" in
      match form_float f "purchase_price" 0, form_float f "selling_price" 0,
            form_int f "quantity" 0, form_int f "reorder_level" 10 with
      | Some purchase_price, Some selling_price, Some quantity, Some reorder_level =>
          match sku ≫= first_by p_sku (all_products st) with
          | Some existing => mkResult st [DuplicateSKU] form_page
          | None =>
              match name, sku, form_key f "category_id", form_key f "supplier_id" with
              | Some name, Some sku, Some category_id, Some supplier_id =>
                  let product :=
                    mkProduct (next_id p_id (all_products st)) name sku description
                      purchase_price selling_price quantity reorder_level
                      category_id supplier_id now in
                  let initial :=
                    if 0 <? quantity then
                      [mkTransaction (next_id t_id (all_transactions st)) (p_id product)
                         "purchase" quantity (Some "Initial stock")
                         (Some (u_id current_user)) now]
                    else [] in
                  mkResult
                    (mkStore (all_products st ++ [product]) (all_categories st) (all_suppliers st)
                       (all_transactions st ++ initial))
                    [("Product added successfully!", "success")]
                    (Redirect "products")
              | _, _, _, _ => raised st
              end
          end
      | _, _, _, _ => raised st
      end
  end.

(** ** Observations on a store *)

(** The quantity of product [id], when it exists. *)
Definition stock (st : Store) (id : Z) : option Z :=
  p_quantity <$> get p_id (all_products st) id.

(** The Transaction rows that reference product [id]. *)
Definition rows_of (st : Store) (id : Z) : list Transaction :=
  filter (fun t => t_product_id t = id) (all_transactions st).

(** No product has a negative quantity. *)
Definition nonneg (st : Store) : Prop :=
  Forall (fun p => 0 <= p_quantity p) (all_products st).

(** ** Sequences of stock movements *)

Record stock_request := mkStockRequest {
  sr_user : User;
  sr_now : datetime;
  sr_form : form
}.

(** One POST to [/products/<id>/stock]. *)
Definition record_movement (id : Z) (st : Store) (r : stock_request) : Store :=
  r_store (update_stock st (sr_user r) (sr_now r) id POST (sr_form r)).

Definition record_movements (id : Z) (st : Store) (rs : list stock_request) : Store :=
  fold_left (record_movement id) rs st.

(** The movement a request asks for: its action and its quantity. *)
Definition movement_of (r : stock_request) : option (string * Z) :=
  match sr_form r !! "action", form_int (sr_form r) "quantity" 0 with
  | Some a, Some q => Some (a, q)
  | _, _ => None
  end.

(** The call succeeds on [st]: the type is purchase or sale, the quantity is
    positive and a sale does not exceed the stock at that moment. *)
Definition succeeds (id : Z) (st : Store) (r : stock_request) : Prop :=
  exists a q cur, movement_of r = Some (a, q) /\ stock st id = Some cur /\
    (a = "purchase" \/ a = "sale") /\ 0 < q /\ (a = "sale" -> q <= cur).

Fixpoint all_succeed (id : Z) (st : Store) (rs : list stock_request) : Prop :=
  match rs with
  | [] => True
  | r :: rs' => succeeds id st r /\ all_succeed id (record_movement id st r) rs'
  end.

(** The sum of the quantities of the requests of one type. *)
Definition total_of (ty : string) (rs : list stock_request) : Z :=
  fold_right Z.add 0
    (map (fun r => match movement_of r with
                   | Some (a, q) => if String.eqb a ty then q else 0
                   | None => 0
                   end) rs).

(** ** Catalog: [edit_product]

    The handler works on the session's copy of the row: the object it
    hands to the template keeps the changes made so far, and nothing
    reaches the tables before the commit. [Render] carries that object,
    [r_store] the committed tables. The form is taken to post its name and
    SKU fields; without one of them the row would hold a NULL the table
    refuses. *)

Definition set_name (p : Product) (name : string) : Product :=
  mkProduct (p_id p) name (p_sku p) (p_description p) (p_purchase_price p)
    (p_selling_price p) (p_quantity p) (p_reorder_level p) (p_category_id p)
    (p_supplier_id p) (p_created_at p).

(** [int(v) if v else None] on [request.form.get(k)]. *)
Definition form_ref (f : form) (k : string) : option (option Z) :=
  match f !! k with
  | None => Some None
  | Some s => if Py.truthy s then Some <$> Py.int s else Some None
  end.

Definition edit_product (st : Store) (id : Z) (m : method) (f : form) : result :=
  match get p_id (all_products st) id with
  | None => abort404 st
  | Some product =>
      match m with
      | GET => mkResult st [] (Render "product_form.html" (Some product))
      | POST =>
          match f !! "name", f !! "sku" with
          | Some name, Some new_sku =>
              (* product.name = request.form.get('name') *)
              let product := set_name product name in
              match (if bool_decide (new_sku <> p_sku product)
                     then first_by p_sku (all_products st) new_sku else None) with
              | Some existing =>
                  (* returns without a commit: the renamed object is rendered *)
                  end_of_request st [DuplicateSKU]
                    (Render "product_form.html" (Some product))
              | None =>
                  match form_float f "purchase_price" 0, form_float f "selling_price" 0,
                        form_int f "reorder_level" 10,
                        form_ref f "category_id", form_ref f "supplier_id" with
                  | Some purchase_price, Some selling_price, Some reorder_level,
                    Some category_id, Some supplier_id =>
                      let product :=
                        mkProduct (p_id product) (p_name product) new_sku
                          (f !! "description") purchase_price selling_price
                          (p_quantity product) reorder_level category_id supplier_id
                          (p_created_at product) in
                      mkResult (with_products st (update_row p_id product (all_products st)))
                        [("Product updated successfully!", "success")]
                        (Redirect "products")
                  | _, _, _, _, _ => raised st
                  end
              end
          | _, _ => raised st
          end
      end
  end.

(** ** Categories and suppliers *)

Definition add_category (st : Store) (f : form) : result :=
  match f !! "name" with
  | None => raised st
  | Some name =>
      match first_by c_name (all_categories st) name with
      | Some existing => mkResult st [DuplicateCategoryName] (Redirect "categories")
      | None =>
          let category :=
            mkCategory (next_id c_id (all_categories st)) name (f !! "description") in
          mkResult (with_categories st (all_categories st ++ [category]))
            [("Category added successfully!", "success")] (Redirect "categories")
      end
  end.

Definition edit_category (st : Store) (id : Z) (f : form) : result :=
  match get c_id (all_categories st) id with
  | None => abort404 st
  | Some category =>
      match f !! "name" with
      | None => raised st
      | Some name =>
          match (if bool_decide (name <> c_name category)
                 then first_by c_name (all_categories st) name else None) with
          | Some existing => mkResult st [DuplicateCategoryName] (Redirect "categories")
          | None =>
              let category := mkCategory (c_id category) name (f !! "description") in
              mkResult (with_categories st (update_row c_id category (all_categories st)))
                [("Category updated successfully!", "success")] (Redirect "categories")
          end
      end
  end.

Definition add_supplier (st : Store) (m : method) (f : form) : result :=
  match m with
  | GET => mkResult st [] (Render "supplier_form.html" None)
  | POST =>
      match f !! "name" with
      | None => raised st
      | Some name =>
          let supplier :=
            mkSupplier (next_id s_id (all_suppliers st)) name (f !! "contact_name")
              (f !! "email") (f !! "phone") (f !! "address") in
          mkResult (with_suppliers st (all_suppliers st ++ [supplier]))
            [("Supplier added successfully!", "success")] (Redirect "suppliers")
      end
  end.

Definition edit_supplier (st : Store) (id : Z) (m : method) (f : form) : result :=
  match get s_id (all_suppliers st) id with
  | None => abort404 st
  | Some supplier =>
      match m with
      | GET => mkResult st [] (Render "supplier_form.html" None)
      | POST =>
          match f !! "name" with
          | None => raised st
          | Some name =>
              let supplier :=
                mkSupplier (s_id supplier) name (f !! "contact_name")
                  (f !! "email") (f !! "phone") (f !! "address") in
              mkResult (with_suppliers st (update_row s_id supplier (all_suppliers st)))
                [("Supplier updated successfully!", "success")] (Redirect "suppliers")
          end
      end
  end.

(** ** Queries *)

(** ASCII lower case, the case folding of SQLite's [lower] and [LIKE]. *)
Definition lower (c : ascii) : ascii :=
  let n := nat_of_ascii c in
  if ((65 <=? n) && (n <=? 90))%nat then ascii_of_nat (n + 32) else c.

(** [s LIKE pat] without regard to case: [%] stands for any run of
    characters and [_] for any one character. *)
Fixpoint like (pat s : string) : bool :=
  match pat with
  | EmptyString => match s with EmptyString => true | _ => false end
  | String "%" pat' =>
      (fix any (s : string) : bool :=
         like pat' s || match s with
                        | EmptyString => false
                        | String _ s' => any s'
                        end) s
  | String "_" pat' =>
      match s with
      | EmptyString => false
      | String _ s' => like pat' s'
      end
  | String c pat' =>
      match s with
      | EmptyString => false
      | String d s' => Ascii.eqb (lower c) (lower d) && like pat' s'
      end
  end.

(** [column.ilike(f'%{search}%')] *)
Definition ilike_contains (text search : string) : bool :=
  like ("%" +:+ search +:+ "%") text.

(** The values of a column, and the order [ORDER BY] puts them in: NULL
    first, then numbers, then text by code point. *)
Inductive sqlval :=
| SqlNull
| SqlInt (z : Z)
| SqlReal (x : float)
| SqlText (s : string).

Definition sql_leb (a b : sqlval) : bool :=
  match a, b with
  | SqlNull, _ => true
  | _, SqlNull => false
  | SqlInt x, SqlInt y => x <=? y
  | SqlInt x, SqlReal y => float_leb (float_of_int x) y
  | SqlReal x, SqlInt y => float_leb x (float_of_int y)
  | SqlReal x, SqlReal y => float_leb x y
  | (SqlInt _ | SqlReal _), SqlText _ => true
  | SqlText _, (SqlInt _ | SqlReal _) => false
  | SqlText x, SqlText y => String.leb x y
  end.

Definition sql_opt {A} (inj : A -> sqlval) (o : option A) : sqlval :=
  match o with Some x => inj x | None => SqlNull end.

(** Modelled from the spec: the column attributes of [Product], declared
    in the absent [models.py], are the fields of the spec's data model. *)
Definition product_column (field : string) : option (Product -> sqlval) :=
  if String.eqb field "id" then Some (fun p => SqlInt (p_id p))
  else if String.eqb field "name" then Some (fun p => SqlText (p_name p))
  else if String.eqb field "sku" then Some (fun p => SqlText (p_sku p))
  else if String.eqb field "description" then Some (fun p => sql_opt SqlText (p_description p))
  else if String.eqb field "purchase_price" then Some (fun p => SqlReal (p_purchase_price p))
  else if String.eqb field "selling_price" then Some (fun p => SqlReal (p_selling_price p))
  else if String.eqb field "quantity" then Some (fun p => SqlInt (p_quantity p))
  else if String.eqb field "reorder_level" then Some (fun p => SqlInt (p_reorder_level p))
  else if String.eqb field "category_id" then Some (fun p => sql_opt SqlInt (p_category_id p))
  else if String.eqb field "supplier_id" then Some (fun p => sql_opt SqlInt (p_supplier_id p))
  else if String.eqb field "created_at" then Some (fun p => SqlInt (p_created_at p))
  else None.

(** [getattr(Product, sort_by, Product.name)], as far as the handler
    can order by it: a column, the name where the class has no attribute
    of that name, and [None] for an attribute that is not a column, on
    which [.asc()] and [.desc()] raise. *)
Definition sort_column (sort_by : string) : option (Product -> sqlval) :=
  match product_column sort_by with
  | Some column => Some column
  | None =>
      if other_attribute sort_by then None
      else Some (fun p => SqlText (p_name p))
  end.

Definition asc {A} (key : A -> sqlval) (a b : A) : bool := sql_leb (key a) (key b).
Definition desc {A} (key : A -> sqlval) (a b : A) : bool := sql_leb (key b) (key a).


(** [request.args.get(k, type=int)]: a value that does not convert is as
    good as absent. *)
Definition args_int (a : args) (k : string) : option Z := a !! k ≫= Py.int.

(** The product list of the [products] page; [None] is the exception of
    ordering by an attribute that is not a column. *)
Definition products (st : Store) (a : args) : option (list Product) :=
  let search := default "" (a !! "search") in
  let category_id := args_int a "category" in
  let sort_by := default "name" (a !! "sort") in
  let order := default "asc" (a !! "order") in
  let query := all_products st in
  let query :=
    if Py.truthy search
    then List.filter (fun p => ilike_contains (p_name p) search
                               || ilike_contains (p_sku p) search) query
    else query in
  let query :=
    match category_id with
    | Some c => if c =? 0 then query
                else List.filter (fun p => bool_decide (p_category_id p = Some c)) query
    | None => query
    end in
  sort_column ← sort_column sort_by;
  Some (if String.eqb order "desc"
        then order_by (desc sort_column) query
        else order_by (asc sort_column) query).

(** ** Dates *)

(** [timedelta(days=1)] in microseconds. *)
Definition one_day : Z := 86400000000.

(** [timedelta(days=n)] *)
Definition timedelta_days (n : Z) : Z := n * one_day.

(** The day a [datetime] falls on, counted from 1970-01-01. *)
Definition day_number (t : datetime) : Z := t / one_day.

(** Year, month and day of a day number in the proleptic Gregorian
    calendar. *)
Definition civil (days : Z) : Z * Z * Z :=
  let z := days + 719468 in
  let era := z / 146097 in
  let doe := z - era * 146097 in
  let yoe := (doe - doe / 1460 + doe / 36524 - doe / 146096) / 365 in
  let doy := doe - (365 * yoe + yoe / 4 - yoe / 100) in
  let mp := (5 * doy + 2) / 153 in
  let d := doy - (153 * mp + 2) / 5 + 1 in
  let m := if mp <? 10 then mp + 3 else mp - 9 in
  let y := yoe + era * 400 + (if m <=? 2 then 1 else 0) in
  (y, m, d).

(** A number in at least [width] digits, zero-padded ([%02d], [%04d]). *)
Definition zero_pad (width : nat) (z : Z) : string :=
  let s := Py.str_of_int z in
  String.concat "" (replicate (width - String.length s) "0") +:+ s.

Definition month_abbr (m : Z) : string :=
  nth (Z.to_nat (m - 1))
    ["Jan"; "Feb"; "Mar"; "Apr"; "May"; "Jun"; "Jul"; "Aug"; "Sep"; "Oct"; "Nov"; "Dec"] "".

(** [t.strftime('%Y-%m-%d')], also the text of SQL's [date(t)]; years
    from 1000 to 9999. *)
Definition strftime_Ymd (t : datetime) : string :=
  let '(y, m, d) := civil (day_number t) in
  zero_pad 4 y +:+ "-" +:+ zero_pad 2 m +:+ "-" +:+ zero_pad 2 d.

(** [t.strftime('%b %d')] *)
Definition strftime_bd (t : datetime) : string :=
  let '(y, m, d) := civil (day_number t) in
  month_abbr m +:+ " " +:+ zero_pad 2 d.

(** [t.strftime('%Y-%m-%d %H:%M:%S')] *)
Definition strftime_YmdHMS (t : datetime) : string :=
  let secs := (t mod one_day) / 1000000 in
  strftime_Ymd t +:+ " " +:+ zero_pad 2 (secs / 3600) +:+ ":"
    +:+ zero_pad 2 (secs mod 3600 / 60) +:+ ":" +:+ zero_pad 2 (secs mod 60).

(** ** Dashboard statistics *)

(** The grouped query and the dictionary built from its rows: for the
    transactions of type [ty] created at or after [start_date], the sum of
    the quantities per [date(created_at)]. *)
Definition totals_by_date (ty : string) (start_date : datetime)
    (ts : list Transaction) : gmap string Z :=
  foldl (fun acc t =>
           if String.eqb (t_type t) ty && (start_date <=? t_created_at t)
           then <[strftime_Ymd (t_created_at t) :=
                    default 0 (acc !! strftime_Ymd (t_created_at t)) + t_quantity t]> acc
           else acc)
        ∅ ts.

Record stats := mkStats {
  labels : list string;
  purchases : list Z;
  sales : list Z
}.

(** [now] is [datetime.utcnow()] at the time of the call. *)
Definition dashboard_stats (st : Store) (now : datetime) : stats :=
  let days := 30%nat in
  let end_date := now in
  let start_date := end_date - timedelta_days (Z.of_nat days) in
  let purchase_dict := totals_by_date "purchase" start_date (all_transactions st) in
  let sale_dict := totals_by_date "sale" start_date (all_transactions st) in
  let dates := (fun i => start_date + timedelta_days (Z.of_nat i)) <$> seq 0 days in
  mkStats
    (strftime_bd <$> dates)
    ((fun date => default 0 (purchase_dict !! strftime_Ymd date)) <$> dates)
    ((fun date => default 0 (sale_dict !! strftime_Ymd date)) <$> dates).

(** ** CSV export and import *)

(** A table is the list of records the [csv] module writes and reads back:
    each record a list of cells. *)
Definition table := list (list string).

(** [x.name if x else ''] through a foreign key. *)
Definition name_of {A} (key : A -> Z) (name : A -> string) (rows : list A)
    (ref : option Z) : string :=
  default "" (name <$> (ref ≫= get key rows)).

Definition products_header : list string :=
  ["ID"; "Name"; "SKU"; "Description"; "Category"; "Supplier";
   "Purchase Price"; "Selling Price"; "Quantity"; "Reorder Level"; "Created At"].

Definition product_record (st : Store) (p : Product) : list string :=
  [Py.str_of_int (p_id p);
   p_name p;
   p_sku p;
   default "" (p_description p);
   name_of c_id c_name (all_categories st) (p_category_id p);
   name_of s_id s_name (all_suppliers st) (p_supplier_id p);
   float_repr (p_purchase_price p);
   float_repr (p_selling_price p);
   Py.str_of_int (p_quantity p);
   Py.str_of_int (p_reorder_level p);
   strftime_YmdHMS (p_created_at p)].

(** The body of the response of [export_products]. *)
Definition export_products (st : Store) : table :=
  products_header
    :: (product_record st <$> order_by (asc (fun p => SqlText (p_name p))) (all_products st)).

(** A value of a row of [csv.DictReader], or a default of [row.get]. *)
Inductive pyval :=
| PyNone
| PyStr (s : string)
| PyInt (z : Z).

(** [dict(zip(fieldnames, record))], the missing cells filled with
    [None]. *)
Fixpoint zip_row (fieldnames : list string) (record : list string) (d : row) : row :=
  match fieldnames with
  | [] => d
  | k :: ks =>
      match record with
      | [] => zip_row ks [] (<[k := None]> d)
      | c :: cs => zip_row ks cs (<[k := Some c]> d)
      end
  end.

(** [csv.DictReader]: the first record names the fields, empty records
    are passed over. *)
Definition DictReader (t : table) : list row :=
  match t with
  | [] => []
  | fieldnames :: records =>
      (fun record => zip_row fieldnames record ∅)
        <$> List.filter (fun record => negb (bool_decide (record = []))) records
  end.

Definition cell_val (c : option string) : pyval :=
  match c with Some s => PyStr s | None => PyNone end.

(** [row.get(k1, row.get(k2, d))] *)
Definition row_get (r : row) (k1 k2 : string) (d : pyval) : pyval :=
  match r !! k1 with
  | Some c => cell_val c
  | None => match r !! k2 with
            | Some c => cell_val c
            | None => d
            end
  end.

(** The exceptions a row can raise. *)
Inductive row_error :=
| AttributeError_strip
| ValueError_float (s : string)
| ValueError_int (s : string).

(** [str(e)]; the quoting of [repr] is exact for text without quotes,
    backslashes and control characters. *)
Definition str_of_error (e : row_error) : string :=
  match e with
  | AttributeError_strip => "'NoneType' object has no attribute 'strip'"
  | ValueError_float s => "could not convert string to float: '" +:+ s +:+ "'"
  | ValueError_int s => "invalid literal for int() with base 10: '" +:+ s +:+ "'"
  end.

(** [v.strip()] *)
Definition val_strip (v : pyval) : row_error + string :=
  match v with
  | PyStr s => inr (Py.strip s)
  | _ => inl AttributeError_strip
  end.

(** [float(v or d)] *)
Definition val_float (v : pyval) (d : Z) : row_error + float :=
  match v with
  | PyNone => inr (float_of_int d)
  | PyStr s =>
      if Py.truthy s
      then match float_of_string s with Some x => inr x | None => inl (ValueError_float s) end
      else inr (float_of_int d)
  | PyInt z => inr (float_of_int (if z =? 0 then d else z))
  end.

(** [int(v or d)] *)
Definition val_int (v : pyval) (d : Z) : row_error + Z :=
  match v with
  | PyNone => inr d
  | PyStr s =>
      if Py.truthy s
      then match Py.int s with Some z => inr z | None => inl (ValueError_int s) end
      else inr d
  | PyInt z => inr (if z =? 0 then d else z)
  end.

(** A cell kept as it is: text, or NULL for [None]. *)
Definition val_text (v : pyval) : option string :=
  match v with
  | PyStr s => Some s
  | PyNone => None
  | PyInt z => Some (Py.str_of_int z)
  end.

(** The state of the import loop: the session's tables and the three
    locals. *)
Record import_state := mkImport {
  i_store : Store;
  imported : Z;
  skipped : Z;
  errors : list string
}.

Definition skip (s : import_state) : import_state :=
  mkImport (i_store s) (imported s) (skipped s + 1) (errors s).

Definition skip_with (s : import_state) (msg : string) : import_state :=
  mkImport (i_store s) (imported s) (skipped s + 1) (errors s ++ [msg]).

(** The [except] clause: the tables keep what the row added before it
    raised. *)
Definition except (s : import_state) (st : Store) (e : row_error) : import_state :=
  mkImport st (imported s) (skipped s + 1) (errors s ++ [str_of_error e]).

(** Looking a category up by name, adding it when there is none. *)
Definition upsert_category (st : Store) (category_name : string) : Store * option Z :=
  if Py.truthy category_name then
    match first_by c_name (all_categories st) category_name with
    | Some category => (st, Some (c_id category))
    | None =>
        let category := mkCategory (next_id c_id (all_categories st)) category_name None in
        (with_categories st (all_categories st ++ [category]), Some (c_id category))
    end
  else (st, None).

Definition upsert_supplier (st : Store) (supplier_name : string) : Store * option Z :=
  if Py.truthy supplier_name then
    match first_by s_name (all_suppliers st) supplier_name with
    | Some supplier => (st, Some (s_id supplier))
    | None =>
        let supplier :=
          mkSupplier (next_id s_id (all_suppliers st)) supplier_name None None None None in
        (with_suppliers st (all_suppliers st ++ [supplier]), Some (s_id supplier))
    end
  else (st, None).

(** The body of the loop over the rows. *)
Definition import_row (now : datetime) (s : import_state) (r : row) : import_state :=
  let st := i_store s in
  match val_strip (row_get r "SKU" "sku" (PyStr "")) with
  | inl e => except s st e
  | inr sku =>
      if negb (Py.truthy sku) then skip s
      else
        match first_by p_sku (all_products st) sku with
        | Some existing => skip_with s ("SKU '" +:+ sku +:+ "' already exists")
        | None =>
            match val_strip (row_get r "Name" "name" (PyStr "")) with
            | inl e => except s st e
            | inr name =>
                if negb (Py.truthy name) then skip s
                else
                  match val_strip (row_get r "Category" "category" (PyStr "")) with
                  | inl e => except s st e
                  | inr category_name =>
                      let '(st, category) := upsert_category st category_name in
                      match val_strip (row_get r "Supplier" "supplier" (PyStr "")) with
                      | inl e => except s st e
                      | inr supplier_name =>
                          let '(st, supplier) := upsert_supplier st supplier_name in
                          let description :=
                            val_text (row_get r "Description" "description" (PyStr "")) in
                          match val_float (row_get r "Purchase Price" "purchase_price" (PyInt 0)) 0 with
                          | inl e => except s st e
                          | inr purchase_price =>
                          match val_float (row_get r "Selling Price" "selling_price" (PyInt 0)) 0 with
                          | inl e => except s st e
                          | inr selling_price =>
                          match val_int (row_get r "Quantity" "quantity" (PyInt 0)) 0 with
                          | inl e => except s st e
                          | inr quantity =>
                          match val_int (row_get r "Reorder Level" "reorder_level" (PyInt 10)) 10 with
                          | inl e => except s st e
                          | inr reorder_level =>
                              let product :=
                                mkProduct (next_id p_id (all_products st)) name sku description
                                  purchase_price selling_price quantity reorder_level
                                  category supplier now in
                              mkImport (with_products st (all_products st ++ [product]))
                                (imported s + 1) (skipped s) (errors s)
                          end end end end
                      end
                  end
            end
        end
  end.

(** An uploaded file: its name and, when it decodes, the records its
    text holds. *)
Record upload := mkUpload {
  filename : string;
  records : option table
}.

(** [csv.field_size_limit()]: the reader raises on a field longer than
    this. *)
Definition field_size_limit : Z := 131072.

(** No field of the table is over the limit. *)
Definition within_field_limit (t : table) : bool :=
  forallb (forallb (fun cell => Z.of_nat (String.length cell) <=? field_size_limit)) t.

Definition AdminRequired : flash := ("Admin access required.", "error").
Definition NoFileSelected : flash := ("No file selected.", "error").
Definition NotCsv : flash := ("Please upload a CSV file.", "error").
(** The text of the exception that follows the colon is left out. *)
Definition ImportFailed : flash := ("Error importing file: ", "error").

(** What [import_products] leaves: the response and the locals of the
    loop at its end. *)
Record import_result := mkImportResult {
  ir_result : result;
  ir_loop : option import_state
}.

Definition import_products (st : Store) (current_user : User) (now : datetime)
    (m : method) (file : option upload) : import_result :=
  if negb (is_admin current_user)
  then mkImportResult (mkResult st [AdminRequired] (Redirect "dashboard")) None
  else
    match m with
    | GET => mkImportResult (mkResult st [] (Render "import_products.html" None)) None
    | POST =>
        match file with
        | None => mkImportResult (mkResult st [NoFileSelected] (Redirect "import_products")) None
        | Some file =>
            if String.eqb (filename file) ""
            then mkImportResult (mkResult st [NoFileSelected] (Redirect "import_products")) None
            else if negb (Py.endswith (filename file) ".csv")
            then mkImportResult (mkResult st [NotCsv] (Redirect "import_products")) None
            else
              match records file with
              | None =>
                  (* the stream does not decode: rollback *)
                  mkImportResult (mkResult st [ImportFailed] (Redirect "products")) None
              | Some t =>
                  if negb (within_field_limit t) then
                    (* the reader raises when it comes to the field, outside
                       the [try] of the rows: rollback of what the rows before
                       it added *)
                    mkImportResult (mkResult st [ImportFailed] (Redirect "products")) None
                  else
                  let s := foldl (import_row now) (mkImport st 0 0 []) (DictReader t) in
                  mkImportResult
                    (mkResult (i_store s)
                       ((if 0 <? imported s
                         then [("Successfully imported " +:+ Py.str_of_int (imported s)
                                  +:+ " products.", "success")]
                         else [])
                        ++ (if 0 <? skipped s
                            then [("Skipped " +:+ Py.str_of_int (skipped s)
                                     +:+ " rows (duplicates or invalid data).", "warning")]
                            else []))
                       (Redirect "products"))
                    (Some s)
              end
        end
    end.

(** ** Notions the properties are stated with *)

(** A text without white space. *)
Fixpoint no_space (s : string) : bool :=
  match s with
  | EmptyString => true
  | String c r => negb (Py.isspace c) && no_space r
  end.

(** The store an accepted movement leaves. *)
Definition moved (st : Store) (u : User) (now : datetime) (p : Product)
    (ty : string) (delta q : Z) (notes : string) : Store :=
  mkStore (update_row p_id (set_quantity p (p_quantity p + delta)) (all_products st))
    (all_categories st) (all_suppliers st)
    (all_transactions st ++
       [mkTransaction (next_id t_id (all_transactions st)) (p_id p) ty q (Some notes)
          (Some (u_id u)) now]).


(** What the loop reads from a row. *)
Definition row_sku (r : row) : row_error + string :=
  val_strip (row_get r "SKU" "sku" (PyStr "")).
Definition row_name (r : row) : row_error + string :=
  val_strip (row_get r "Name" "name" (PyStr "")).
Definition row_category (r : row) : row_error + string :=
  val_strip (row_get r "Category" "category" (PyStr "")).
Definition row_supplier (r : row) : row_error + string :=
  val_strip (row_get r "Supplier" "supplier" (PyStr "")).

(** The numbers of the row convert. *)
Definition row_numbers (r : row) (purchase_price selling_price : float)
    (quantity reorder_level : Z) : Prop :=
  val_float (row_get r "Purchase Price" "purchase_price" (PyInt 0)) 0 = inr purchase_price /\
  val_float (row_get r "Selling Price" "selling_price" (PyInt 0)) 0 = inr selling_price /\
  val_int (row_get r "Quantity" "quantity" (PyInt 0)) 0 = inr quantity /\
  val_int (row_get r "Reorder Level" "reorder_level" (PyInt 10)) 10 = inr reorder_level.

(** The product the loop builds from a valid row. *)
Definition imported_product (now : datetime) (st : Store) (r : row)
    (sku name category_name supplier_name : string)
    (purchase_price selling_price : float) (quantity reorder_level : Z) : Product :=
  let st1 := (upsert_category st category_name).1 in
  mkProduct (next_id p_id (all_products st)) name sku
    (val_text (row_get r "Description" "description" (PyStr "")))
    purchase_price selling_price quantity reorder_level
    (upsert_category st category_name).2 (upsert_supplier st1 supplier_name).2 now.

(** What the round trip is asked to keep of a product. *)
Definition catalog_view (ps : list Product) : list (string * Z * float * float) :=
  (fun p => (p_sku p, p_quantity p, p_purchase_price p, p_selling_price p)) <$> ps.

(** The row [csv.DictReader] yields for the exported record of [p]. *)
Definition exported_row (st : Store) (p : Product) : row :=
  zip_row products_header (product_record st p) ∅.

(** The prices of the product print to a text that is not empty and
    reads back as the same price, as the floats of Python other than NaN
    do. *)
Definition prices_read_back (p : Product) : Prop :=
  (Py.truthy (float_repr (p_purchase_price p)) = true /\
   float_of_string (float_repr (p_purchase_price p)) = Some (p_purchase_price p)) /\
  (Py.truthy (float_repr (p_selling_price p)) = true /\
   float_of_string (float_repr (p_selling_price p)) = Some (p_selling_price p)).

(** A product the import takes back as it is: the SKU has no surrounding
    whitespace and is not blank, and the name is not blank. *)
Definition importable (p : Product) : Prop :=
  Py.strip (p_sku p) = p_sku p /\ p_sku p <> "" /\ Py.strip (p_name p) <> "".


(** ** Deleting products, categories and suppliers *)

Definition OnlyAdminsProducts : flash := ("Only admins can delete products.", "error").
Definition OnlyAdminsCategories : flash := ("Only admins can delete categories.", "error").
Definition OnlyAdminsSuppliers : flash := ("Only admins can delete suppliers.", "error").
Definition CategoryHasProducts : flash :=
  ("Cannot delete category with associated products.", "error").
Definition SupplierHasProducts : flash :=
  ("Cannot delete supplier with associated products.", "error").

(** [db.session.delete(obj)]: the row of that key goes. *)
Definition delete_row {A} (key : A -> Z) (id : Z) (rows : list A) : list A :=
  List.filter (fun r => negb (key r =? id)) rows.

Definition delete_product (st : Store) (current_user : User) (id : Z) : result :=
  if negb (is_admin current_user)
  then mkResult st [OnlyAdminsProducts] (Redirect "products")
  else
    match get p_id (all_products st) id with
    | None => abort404 st
    | Some product =>
        (* Transaction.query.filter_by(product_id=id).delete() *)
        let ts := List.filter (fun t => negb (t_product_id t =? id)) (all_transactions st) in
        mkResult
          (mkStore (delete_row p_id (p_id product) (all_products st))
             (all_categories st) (all_suppliers st) ts)
          [("Product deleted successfully!", "success")] (Redirect "products")
    end.

(** Modelled from the spec: the relationships [Category.products] and
    [Supplier.products] of the absent [models.py], the products that
    reference the category or the supplier. *)
Definition category_products (st : Store) (category : Category) : list Product :=
  List.filter (fun p => bool_decide (p_category_id p = Some (c_id category))) (all_products st).
Definition supplier_products (st : Store) (supplier : Supplier) : list Product :=
  List.filter (fun p => bool_decide (p_supplier_id p = Some (s_id supplier))) (all_products st).

Definition delete_category (st : Store) (current_user : User) (id : Z) : result :=
  if negb (is_admin current_user)
  then mkResult st [OnlyAdminsCategories] (Redirect "categories")
  else
    match get c_id (all_categories st) id with
    | None => abort404 st
    | Some category =>
        if (0 <? length (category_products st category))%nat
        then mkResult st [CategoryHasProducts] (Redirect "categories")
        else
          mkResult (with_categories st (delete_row c_id (c_id category) (all_categories st)))
            [("Category deleted successfully!", "success")] (Redirect "categories")
    end.

Definition delete_supplier (st : Store) (current_user : User) (id : Z) : result :=
  if negb (is_admin current_user)
  then mkResult st [OnlyAdminsSuppliers] (Redirect "suppliers")
  else
    match get s_id (all_suppliers st) id with
    | None => abort404 st
    | Some supplier =>
        if (0 <? length (supplier_products st supplier))%nat
        then mkResult st [SupplierHasProducts] (Redirect "suppliers")
        else
          mkResult (with_suppliers st (delete_row s_id (s_id supplier) (all_suppliers st)))
            [("Supplier deleted successfully!", "success")] (Redirect "suppliers")
    end.

(** ** The dashboard and the low-stock page *)

(** [Product.quantity <= Product.reorder_level] *)
Definition is_low (p : Product) : bool := p_quantity p <=? p_reorder_level p.

Definition by_quantity (p : Product) : sqlval := SqlInt (p_quantity p).

(** The product list of the [low_stock] page. *)
Definition low_stock (st : Store) : list Product :=
  order_by (asc by_quantity) (List.filter is_low (all_products st)).

Record dashboard_view := mkDashboard {
  total_products : nat;
  total_stock : Z;
  low_stock_count : nat;
  out_of_stock_count : nat;
  low_stock_products : list Product;
  recent_transactions : list Transaction
}.

(** The values [dashboard] hands to its template. The sum over no row is
    NULL, which [or 0] turns into 0. *)
Definition dashboard (st : Store) : dashboard_view :=
  mkDashboard
    (length (all_products st))
    (fold_right Z.add 0 (p_quantity <$> all_products st))
    (length (List.filter is_low (all_products st)))
    (length (List.filter (fun p => p_quantity p =? 0) (all_products st)))
    (order_by_limit (asc by_quantity) 5 (List.filter is_low (all_products st)))
    (order_by_limit (desc (fun t => SqlInt (t_created_at t))) 10 (all_transactions st)).

(** The signed quantity of a ledger row: a purchase adds, a sale takes
    off. *)
Definition signed (t : Transaction) : Z :=
  if String.eqb (t_type t) "purchase" then t_quantity t else - t_quantity t.

(** What the rows of product [id] add up to. *)
Definition ledger_sum (st : Store) (id : Z) : Z :=
  fold_right Z.add 0 (signed <$> rows_of st id).

(** ** Sequences of requests *)

(** A request to one of the handlers that write, with what the handler
    reads of it. *)
Inductive request :=
| AddProduct (current_user : User) (now : datetime) (m : method) (f : form)
| EditProduct (id : Z) (m : method) (f : form)
| DeleteProduct (current_user : User) (id : Z)
| UpdateStock (current_user : User) (now : datetime) (id : Z) (m : method) (f : form)
| AddCategory (f : form)
| EditCategory (id : Z) (f : form)
| DeleteCategory (current_user : User) (id : Z)
| AddSupplier (m : method) (f : form)
| EditSupplier (id : Z) (m : method) (f : form)
| DeleteSupplier (current_user : User) (id : Z)
| ImportProducts (current_user : User) (now : datetime) (m : method) (file : option upload).

(** The tables after the request is served. *)
Definition serve (st : Store) (rq : request) : Store :=
  match rq with
  | AddProduct u now m f => r_store (add_product st u now m f)
  | EditProduct id m f => r_store (edit_product st id m f)
  | DeleteProduct u id => r_store (delete_product st u id)
  | UpdateStock u now id m f => r_store (update_stock st u now id m f)
  | AddCategory f => r_store (add_category st f)
  | EditCategory id f => r_store (edit_category st id f)
  | DeleteCategory u id => r_store (delete_category st u id)
  | AddSupplier m f => r_store (add_supplier st m f)
  | EditSupplier id m f => r_store (edit_supplier st id m f)
  | DeleteSupplier u id => r_store (delete_supplier st u id)
  | ImportProducts u now m file => r_store (ir_result (import_products st u now m file))
  end.

Definition serve_all (st : Store) (rqs : list request) : Store := foldl serve st rqs.

(** The requests that go through the ledger: no import, and no product
    created with a negative initial quantity. *)
Definition through_ledger (rq : request) : bool :=
  match rq with
  | ImportProducts _ _ _ _ => false
  | AddProduct _ _ _ f =>
      match form_int f "quantity" 0 with
      | Some q => 0 <=? q
      | None => true
      end
  | _ => true
  end.

(** The catalog keeps its keys apart: product ids, SKUs, category ids and
    category names are pairwise distinct. *)
Definition catalog_distinct (ps : list Product) (cs : list Category) : Prop :=
  NoDup (p_id <$> ps) /\ NoDup (p_sku <$> ps) /\
  NoDup (c_id <$> cs) /\ NoDup (c_name <$> cs).

(** The ledger accounts for the stock: product ids are distinct, every
    Transaction row references a product, and the quantity of every
    product is what its rows add up to. *)
Definition ledger_accounts (ps : list Product) (ts : list Transaction) : Prop :=
  NoDup (p_id <$> ps) /\
  Forall (fun t => In (t_product_id t) (p_id <$> ps)) ts /\
  Forall (fun p => p_quantity p
                   = fold_right Z.add 0
                       (signed <$> filter (fun t => t_product_id t = p_id p) ts)) ps.

(** The list can be ordered by what the sort parameter names: a column,
    or no attribute of the class, for which the name stands in. *)
Definition sortable (a : args) : bool :=
  let sort_by := default "name" (a !! "sort") in
  match product_column sort_by with
  | Some _ => true
  | None => negb (other_attribute sort_by)
  end.

(** A text in lower case, letter by letter. *)
Fixpoint lower_string (s : string) : string :=
  match s with
  | EmptyString => EmptyString
  | String c r => String (lower c) (lower_string r)
  end.

(** Products in ascending order of quantity. *)
Definition quantity_le (p q : Product) : Prop := p_quantity p <= p_quantity q.

(** The store [st'] holds what [st] holds and maybe more rows after them:
    no table lost or changed a row, and the ledger is the same. *)
Definition grown_from (st st' : Store) : Prop :=
  all_products st `prefix_of` all_products st' /\
  all_categories st `prefix_of` all_categories st' /\
  all_suppliers st `prefix_of` all_suppliers st' /\
  all_transactions st' = all_transactions st.

(** A row that is not a product afterwards: it does not change the
    products and is not counted as imported. *)
Definition row_adds_nothing (now : datetime) (s : import_state) (r : row) : Prop :=
  all_products (i_store (import_row now s r)) = all_products (i_store s) /\
  imported (import_row now s r) = imported s.

(** ** Reading dates: [datetime.strptime(s, '%Y-%m-%d')] *)

(** A digit within [lo..hi]. *)
Definition digit_in (lo hi : Z) (c : ascii) : option Z :=
  match Py.digit_val c with
  | Some d => if (lo <=? d) && (d <=? hi) then Some d else None
  | None => None
  end.

(** The month, [1[0-2]|0[1-9]|[1-9]], and the hyphen after it; the
    alternatives are tried in this order. *)
Definition read_month (s : string) : option (Z * string) :=
  match s with
  | String c1 (String c2 r) =>
      let two :=
        match r with
        | String c3 r' =>
            if Ascii.eqb c3 "-" then
              match (if Ascii.eqb c1 "1" then (fun d => 10 + d) <$> digit_in 0 2 c2
                     else if Ascii.eqb c1 "0" then digit_in 1 9 c2 else None) with
              | Some m => Some (m, r')
              | None => None
              end
            else None
        | EmptyString => None
        end in
      match two with
      | Some res => Some res
      | None =>
          if Ascii.eqb c2 "-" then (fun m => (m, r)) <$> digit_in 1 9 c1 else None
      end
  | _ => None
  end.

(** The day, [3[01]|[12]\d|0[1-9]|[1-9]| [1-9]]: the first alternative
    that matches, and the text left after it. *)
Definition read_day (s : string) : option (Z * string) :=
  match s with
  | EmptyString => None
  | String c1 r =>
      let two :=
        match r with
        | String c2 r' =>
            if Ascii.eqb c1 "3" then (fun d => (30 + d, r')) <$> digit_in 0 1 c2
            else if Ascii.eqb c1 "1" || Ascii.eqb c1 "2" then
              match digit_in 1 2 c1, Py.digit_val c2 with
              | Some t, Some d => Some (10 * t + d, r')
              | _, _ => None
              end
            else if Ascii.eqb c1 "0" then (fun d => (d, r')) <$> digit_in 1 9 c2
            else None
        | EmptyString => None
        end in
      match two with
      | Some res => Some res
      | None =>
          match digit_in 1 9 c1 with
          | Some d => Some (d, r)
          | None =>
              match r with
              | String c2 r' =>
                  if Ascii.eqb c1 " " then (fun d => (d, r')) <$> digit_in 1 9 c2 else None
              | EmptyString => None
              end
          end
      end
  end.

Definition is_leap (y : Z) : bool :=
  (y mod 4 =? 0) && (negb (y mod 100 =? 0) || (y mod 400 =? 0)).

Definition days_in_month (y m : Z) : Z :=
  if m =? 2 then (if is_leap y then 29 else 28)
  else if (m =? 4) || (m =? 6) || (m =? 9) || (m =? 11) then 30 else 31.

(** The day number of a date of the proleptic Gregorian calendar. *)
Definition days_from_civil (y m d : Z) : Z :=
  let y := if m <=? 2 then y - 1 else y in
  let era := y / 400 in
  let yoe := y - era * 400 in
  let doy := (153 * (if 2 <? m then m - 3 else m + 9) + 2) / 5 + d - 1 in
  let doe := yoe * 365 + yoe / 4 - yoe / 100 + doy in
  era * 146097 + doe - 719468.

(** [datetime.strptime(s, '%Y-%m-%d')]: four digits, a hyphen, the month,
    a hyphen, the day and nothing after it; [None] is [ValueError], also
    for the year 0 and for a day the month does not have. The result is
    the midnight that begins the day. *)
Definition strptime_Ymd (s : string) : option datetime :=
  match s with
  | String y1 (String y2 (String y3 (String y4 (String c5 r)))) =>
      match Py.digit_val y1, Py.digit_val y2, Py.digit_val y3, Py.digit_val y4 with
      | Some a, Some b, Some c, Some d =>
          let y := 1000 * a + 100 * b + 10 * c + d in
          if Ascii.eqb c5 "-" then
            match read_month r with
            | Some (m, r) =>
                match read_day r with
                | Some (d, EmptyString) =>
                    if (1 <=? y) && (d <=? days_in_month y m)
                    then Some (days_from_civil y m d * one_day)
                    else None
                | _ => None
                end
            | None => None
            end
          else None
      | _, _, _, _ => None
      end
  | _ => None
  end.

(** ** The transaction list *)

(** [datetime.max], the last microsecond of the year 9999. *)
Definition datetime_max : datetime := (days_from_civil 9999 12 31 + 1) * one_day - 1.

(** [t + timedelta(days=n)]; [None] is the [OverflowError] past
    [datetime.max]. *)
Definition add_days (t : datetime) (n : Z) : option datetime :=
  let r := t + timedelta_days n in
  if r <=? datetime_max then Some r else None.

(** The list of the [transactions] page. A date that does not read is
    passed over, as the [except ValueError: pass] of the source has it;
    [None] is the [OverflowError] of the day added to [date_to], which the
    handler does not catch. *)
Definition transactions (st : Store) (a : args) : option (list Transaction) :=
  let filter_type := default "all" (a !! "type") in
  let date_from := default "" (a !! "date_from") in
  let date_to := default "" (a !! "date_to") in
  let product_id := args_int a "product_id" in
  let query := all_transactions st in
  let query :=
    if String.eqb filter_type "purchase"
    then List.filter (fun t => String.eqb (t_type t) "purchase") query
    else if String.eqb filter_type "sale"
    then List.filter (fun t => String.eqb (t_type t) "sale") query
    else query in
  let query :=
    if Py.truthy date_from then
      match strptime_Ymd date_from with
      | Some from_date => List.filter (fun t => from_date <=? t_created_at t) query
      | None => query
      end
    else query in
  query ←
    (if Py.truthy date_to then
       match strptime_Ymd date_to with
       | Some d =>
           to_date ← add_days d 1;
           Some (List.filter (fun t => t_created_at t <? to_date) query)
       | None => Some query
       end
     else Some query);
  let query :=
    match product_id with
    | Some id => if id =? 0 then query
                 else List.filter (fun t => t_product_id t =? id) query
    | None => query
    end in
  Some (order_by (desc (fun t => SqlInt (t_created_at t))) query).

(** Transactions from the newest to the oldest. *)
Definition newest_first (x y : Transaction) : Prop := t_created_at y <= t_created_at x.

(** The year of a [datetime]. *)
Definition year_of (t : datetime) : Z := (civil (day_number t)).1.1.

(** ** Checking a range of numbers *)

(** [f] holds of the [n] numbers from [lo] on. *)
Fixpoint all_from (f : Z -> bool) (lo : Z) (n : positive) : bool :=
  match n with
  | xH => f lo
  | xO q => all_from f lo q && all_from f (lo + Zpos q) q
  | xI q => f lo && all_from f (lo + 1) q && all_from f (lo + 1 + Zpos q) q
  end.

(** The year reads back from its four digits. *)
Definition year_text_ok (y : Z) : bool :=
  match zero_pad 4 y with
  | String c1 (String c2 (String c3 (String c4 EmptyString))) =>
      match Py.digit_val c1, Py.digit_val c2, Py.digit_val c3, Py.digit_val c4 with
      | Some a, Some b, Some c, Some d => 1000 * a + 100 * b + 10 * c + d =? y
      | _, _, _, _ => false
      end
  | _ => false
  end.

(** The month reads back from its two digits. *)
Definition month_text_ok (m : Z) : bool :=
  match zero_pad 2 m with
  | String c1 (String c2 EmptyString) =>
      match (if Ascii.eqb c1 "1" then (fun d => 10 + d) <$> digit_in 0 2 c2
             else if Ascii.eqb c1 "0" then digit_in 1 9 c2 else None) with
      | Some m' => m' =? m
      | None => false
      end
  | _ => false
  end.

(** The day reads back from its two digits. *)
Definition day_text_ok (d : Z) : bool :=
  match read_day (zero_pad 2 d) with
  | Some (d', EmptyString) => d' =? d
  | _ => false
  end.

(** ** What is never lost *)

(** A deletion asked by an admin. *)
Definition admin_delete (rq : request) : bool :=
  match rq with
  | DeleteProduct u _ | DeleteCategory u _ | DeleteSupplier u _ => is_admin u
  | _ => false
  end.

(** The store [st'] has the rows of [st], in place and under the same
    ids, and the ledger of [st] as it was, before what came after. *)
Definition keeps_rows (st st' : Store) : Prop :=
  (p_id <$> all_products st) `prefix_of` (p_id <$> all_products st') /\
  (c_id <$> all_categories st) `prefix_of` (c_id <$> all_categories st') /\
  (s_id <$> all_suppliers st) `prefix_of` (s_id <$> all_suppliers st') /\
  all_transactions st `prefix_of` all_transactions st'.

(** ** The ledger rows and their export *)

(** What every row of the ledger is: it references a product of the
    catalog, its type is purchase or sale, and its quantity is positive. *)
Definition ledger_row_ok (st : Store) (t : Transaction) : Prop :=
  In (t_product_id t) (p_id <$> all_products st) /\
  (t_type t = "purchase" \/ t_type t = "sale") /\
  0 < t_quantity t.

Definition ledger_sound (st : Store) : Prop :=
  Forall (ledger_row_ok st) (all_transactions st).

(** ASCII upper case. *)
Definition upper (c : ascii) : ascii :=
  let n := nat_of_ascii c in
  if ((97 <=? n) && (n <=? 122))%nat then ascii_of_nat (n - 32) else c.

(** [s.capitalize()], on ASCII text. *)
Definition capitalize (s : string) : string :=
  match s with
  | EmptyString => EmptyString
  | String c r => String (upper c) (lower_string r)
  end.

Definition transactions_header : list string :=
  ["ID"; "Date"; "Product"; "SKU"; "Type"; "Quantity"; "Notes"; "User"].

(** Modelled from the spec: the relationships [Transaction.product] and
    [Transaction.user] of the absent [models.py] follow the references of
    the row to a Product and to a User, and are [None] where there is no
    such row. [users] is the User table, which the handlers of this file
    do not write.

    One record of the export; [None] is the [AttributeError] of
    [t.product.name] on a row whose product is not there. *)
Definition transaction_record (st : Store) (users : list User) (t : Transaction)
    : option (list string) :=
  product ← get p_id (all_products st) (t_product_id t);
  Some [Py.str_of_int (t_id t);
        strftime_YmdHMS (t_created_at t);
        p_name product;
        p_sku product;
        capitalize (t_type t);
        Py.str_of_int (t_quantity t);
        default "" (t_notes t);
        default "System" (u_username <$> (t_user_id t ≫= get u_id users))].

(** The rows [export_transactions] writes, after the filter on the type. *)
Definition exported_transactions (st : Store) (a : args) : list Transaction :=
  let filter_type := default "all" (a !! "type") in
  let query := all_transactions st in
  let query :=
    if String.eqb filter_type "purchase"
    then List.filter (fun t => String.eqb (t_type t) "purchase") query
    else if String.eqb filter_type "sale"
    then List.filter (fun t => String.eqb (t_type t) "sale") query
    else query in
  order_by (desc (fun t => SqlInt (t_created_at t))) query.

(** The body of the response of [export_transactions]. *)
Definition export_transactions (st : Store) (users : list User) (a : args) : option table :=
  records ← mapM (transaction_record st users) (exported_transactions st a);
  Some (transactions_header :: records).

End Inventory.

(** ** A concrete float interface

    The examples below run the handlers. They fix the float interface to
    the floats that are whole numbers, printed and read as integers; the
    prices of the examples are all 0. *)

Definition whole_floats : PyFloat :=
  {| float := Z;
     float_of_string := Py.int;
     float_of_int := fun z => z;
     float_repr := Py.str_of_int;
     float_leb := Z.leb |}.

(** ** A concrete database and a concrete class

    The engine of the examples sorts by insertion: the rows with equal
    keys stay in table order, which is one of the orders SQL allows, and a
    query with a LIMIT returns the first rows of that order. *)

Fixpoint insert_by {A} (le : A -> A -> bool) (x : A) (l : list A) : list A :=
  match l with
  | [] => [x]
  | y :: l' => if le x y then x :: l else y :: insert_by le x l'
  end.

Fixpoint insertion_sort {A} (le : A -> A -> bool) (l : list A) : list A :=
  match l with
  | [] => []
  | x :: l' => insert_by le x (insertion_sort le l')
  end.

Lemma insert_by_sorted {A} (le : A -> A -> bool) (x : A) (l : list A) :
  (forall a b, le a b = true \/ le b a = true) ->
  Sorted (fun a b => le a b = true) l ->
  Sorted (fun a b => le a b = true) (insert_by le x l).
Proof.
  intros Htot Hl. induction l as [|y l IH]; simpl.
  - repeat constructor.
  - destruct (le x y) eqn:E.
    + constructor; [exact Hl|]. by constructor.
    + assert (Hyx : le y x = true) by (destruct (Htot x y); congruence).
      inversion Hl as [|? ? Hl' Hhd]; subst.
      constructor; [by apply IH|].
      destruct l as [|z l]; simpl.
      * by constructor.
      * destruct (le x z); constructor; [exact Hyx|].
        by inversion Hhd.
Qed.

Lemma insertion_sort_sorted {A} (le : A -> A -> bool) (l : list A) :
  (forall a b, le a b = true \/ le b a = true) ->
  Sorted (fun a b => le a b = true) (insertion_sort le l).
Proof.
  intros Htot. induction l as [|x l IH]; simpl; [constructor|].
  by apply insert_by_sorted.
Qed.

Lemma insert_by_perm {A} (le : A -> A -> bool) (x : A) (l : list A) :
  Permutation (x :: l) (insert_by le x l).
Proof.
  induction l as [|y l IH]; simpl; [done|].
  destruct (le x y); [done|].
  etransitivity; [apply perm_swap|]. by constructor.
Qed.

Lemma insertion_sort_perm {A} (le : A -> A -> bool) (l : list A) :
  Permutation l (insertion_sort le l).
Proof.
  induction l as [|x l IH]; simpl; [done|].
  etransitivity; [|apply insert_by_perm]. by constructor.
Qed.

Definition table_order : Database :=
  {| order_by := @insertion_sort;
     order_by_limit := fun A le n l => take n (insertion_sort le l);
     order_by_perm := @insertion_sort_perm;
     order_by_sorted := fun A le l Htot _ => insertion_sort_sorted le l Htot;
     order_by_limit_take := fun A le n l =>
       ex_intro _ (insertion_sort le l)
         (conj (insertion_sort_perm le l)
            (conj (fun Htot _ => insertion_sort_sorted le l Htot) eq_refl)) |}.

(** The class of the examples has the three known attributes beside its
    columns, and no other. *)
Definition known_attributes : ProductAttributes :=
  {| other_attribute := fun s => existsb (String.eqb s) ["query"; "__doc__"; "__init__"];
     other_attribute_query := eq_refl;
     other_attribute_doc := eq_refl;
     other_attribute_init := eq_refl |}.

Module Examples.

#[local] Existing Instance whole_floats.
#[local] Existing Instance table_order.
#[local] Existing Instance known_attributes.

Definition to_form (fields : list (string * string)) : form := list_to_map fields.

Definition admin : User := mkUser 1 "admin" "admin".
Definition staff : User := mkUser 2 "staff" "staff".

(** One day, in microseconds. *)
Definition day_us : Z := 86400000000.

(** 2026-11-03T10:00:00. *)
Definition t0 : datetime := 20760 * day_us + 36000000000.

(** A product "Widget" created through the form with initial stock 5. *)
Definition widget_form : form :=
  to_form [("name", "Widget"); ("sku", "W1"); ("quantity", "5")].
Definition store_widget : Store :=
  r_store (add_product empty_store admin t0 POST widget_form).

(** The row that request leaves. *)
Definition widget : Product :=
  mkProduct 1 "Widget" "W1" None 0 0 5 10 None None t0.

(** A product created through the form with a negative initial quantity. *)
Definition owed_form : form :=
  to_form [("name", "Widget"); ("sku", "W1"); ("quantity", "-5")].
Definition store_owed : Store :=
  r_store (add_product empty_store admin t0 POST owed_form).

Definition purchase_3 : stock_request :=
  mkStockRequest admin t0 (to_form [("action", "purchase"); ("quantity", "3")]).
Definition sale_2 : stock_request :=
  mkStockRequest staff t0 (to_form [("action", "sale"); ("quantity", "2")]).
Definition sale_0 : form := to_form [("action", "sale"); ("quantity", "0")].
Definition sale_9 : form := to_form [("action", "sale"); ("quantity", "9")].
Definition adjust_9 : form := to_form [("action", "adjust"); ("quantity", "9")].

(** A second product beside the widget. *)
Definition gadget_form : form :=
  to_form [("name", "Gadget"); ("sku", "G1"); ("quantity", "0")].
Definition store_two : Store :=
  r_store (add_product store_widget admin t0 POST gadget_form).

Definition gadget : Product :=
  mkProduct 2 "Gadget" "G1" None 0 0 0 10 None None t0.

(** An edit of the widget that takes the gadget's SKU. *)
Definition rename_form : form :=
  to_form [("name", "Renamed"); ("sku", "G1")].

(** A supplier "Acme", and the form that creates it. *)
Definition acme_form : form := to_form [("name", "Acme")].
Definition store_acme : Store := r_store (add_supplier empty_store POST acme_form).
Definition acme : Supplier := mkSupplier 1 "Acme" None None None None.


(** One hour after [t0], on the same day. *)
Definition t0_later : datetime := t0 + 3600000000.

(** Uploaded files. *)
Definition import_header : list string := ["SKU"; "Name"; "Category"].
Definition x1_record : list string := ["X1"; "Widget"; "Tools"].

(** The new row and a row with the SKU of the widget. *)
Definition file_new_and_dup : upload :=
  mkUpload "import.csv" (Some [import_header; x1_record; ["W1"; "Other"; ""]]).

(** A catalog whose one product has a SKU that ends in a space, and a file
    with the new row and a row with that very SKU. *)
Definition spaced_form : form :=
  to_form [("name", "Spaced"); ("sku", "A1 "); ("quantity", "1")].
Definition store_spaced : Store :=
  r_store (add_product empty_store admin t0 POST spaced_form).
Definition file_new_and_spaced : upload :=
  mkUpload "import.csv" (Some [import_header; x1_record; ["A1 "; "Gadget"; ""]]).

(** A row with the SKU of the widget and no name. *)
Definition nameless_dup_row : row := zip_row import_header ["W1"; ""; ""] ∅.

(** The state of the loop at its start. *)
Definition loop_start (st : Store) : import_state := mkImport st 0 0 [].

(** A product whose name is left empty in the form. *)
Definition nameless_form : form :=
  to_form [("name", ""); ("sku", "B1"); ("quantity", "3")].
Definition store_nameless : Store :=
  r_store (add_product empty_store admin t0 POST nameless_form).

(** The export of a store, uploaded. *)
Definition export_file (st : Store) : upload :=
  mkUpload "products_export.csv" (Some (export_products st)).

(** The products after the export of [st] is imported into the empty
    store. *)
Definition round_trip (st : Store) : list Product :=
  all_products (r_store (ir_result (import_products empty_store admin t0 POST
                                      (Some (export_file st))))).

End Examples.

(** ** Further concrete requests *)

Module MoreExamples.
Import Examples.

#[local] Existing Instance whole_floats.
#[local] Existing Instance table_order.
#[local] Existing Instance known_attributes.

(** A sale of 2, as the stock form sends it. *)
Definition sale_2_form : form := to_form [("action", "sale"); ("quantity", "2")].

(** A category "Tools" and a product "Hammer" in it. *)
Definition tools_form : form := to_form [("name", "Tools")].
Definition store_tools : Store := r_store (add_category empty_store tools_form).
Definition tools : Category := mkCategory 1 "Tools" None.
Definition hammer_form : form :=
  to_form [("name", "Hammer"); ("sku", "H1"); ("quantity", "2"); ("category_id", "1")].
Definition store_hammer : Store :=
  r_store (add_product store_tools admin t0 POST hammer_form).
Definition hammer : Product :=
  mkProduct 1 "Hammer" "H1" None 0 0 2 10 (Some 1) None t0.

(** A second creation request with the SKU of the widget. *)
Definition other_w1_form : form := to_form [("name", "Other"); ("sku", "W1")].

(** Requests that all go through the ledger. *)
Definition ledger_run : list request :=
  [AddProduct admin t0 POST widget_form;
   UpdateStock staff t0 1 POST sale_2_form;
   AddProduct admin t0 POST gadget_form;
   DeleteProduct admin 2].

(** Requests with no deletion by an admin. *)
Definition staff_run : list request :=
  [DeleteProduct staff 1;
   UpdateStock staff t0 1 POST sale_2_form;
   ImportProducts admin t0 POST (Some file_new_and_dup);
   EditProduct 1 POST rename_form].

Definition search_WID : args := to_form [("search", "WID")].
Definition from_yesterday : args := to_form [("date_from", "yesterday")].
Definition on_nov_3 : args :=
  to_form [("date_from", "2026-11-03"); ("date_to", "2026-11-03")].
Definition to_last_day : args := to_form [("date_to", "9999-12-31")].

(** The state of the import loop after [file_new_and_dup] has been read
    into the store that holds the widget. *)
Definition after_import : import_state :=
  foldl (import_row t0) (loop_start store_widget)
    (DictReader [import_header; x1_record; ["W1"; "Other"; ""]]).

(** The row the creation of the widget writes. *)
Definition initial_stock_row : Transaction :=
  mkTransaction 1 1 "purchase" 5 (Some "Initial stock") (Some 1) t0.

End MoreExamples.

(** * Properties *)

Section Properties.
Context `{PyFloat} {DB : Database} {PA : ProductAttributes}.

(** ** Printing and reading integers *)

Lemma rstrip_no_space (s : string) : no_space s = true -> Py.rstrip s = s.
Proof.
  induction s as [|c r IH]; simpl; [done|].
  intros [Hc Hr]%andb_true_iff. rewrite (IH Hr).
  destruct r; [|done]. by destruct (Py.isspace c).
Qed.

Lemma lstrip_no_space (s : string) : no_space s = true -> Py.lstrip s = s.
Proof.
  destruct s as [|c r]; simpl; [done|].
  intros [Hc _]%andb_true_iff. by destruct (Py.isspace c).
Qed.

Lemma strip_no_space (s : string) : no_space s = true -> Py.strip s = s.
Proof.
  intros Hs. unfold Py.strip. rewrite lstrip_no_space by done. by apply rstrip_no_space.
Qed.

Lemma string_of_uint_no_space (d : Decimal.uint) :
  no_space (NilEmpty.string_of_uint d) = true.
Proof. induction d; simpl; done. Qed.

(** What [int] passes over is white space. *)
Lemma int_space_isspace (c : ascii) : Py.isspace c = false -> Py.int_space c = false.
Proof.
  unfold Py.isspace, Py.int_space. cbv zeta.
  generalize (nat_of_ascii c). intros n.
  rewrite !orb_false_iff. intros [[[H1 H2] H3] H4].
  rewrite H1, H3, H4. destruct (n =? 32)%nat eqn:E; [|done].
  apply Nat.eqb_eq in E. subst n. discriminate.
Qed.

Lemma int_rstrip_no_space (s : string) : no_space s = true -> Py.int_rstrip s = s.
Proof.
  induction s as [|c r IH]; simpl; [done|].
  intros [Hc Hr]%andb_true_iff. rewrite (IH Hr).
  destruct r; [|done]. apply negb_true_iff in Hc.
  by rewrite (int_space_isspace _ Hc).
Qed.

Lemma int_lstrip_no_space (s : string) : no_space s = true -> Py.int_lstrip s = s.
Proof.
  destruct s as [|c r]; simpl; [done|].
  intros [Hc _]%andb_true_iff. apply negb_true_iff in Hc.
  by rewrite (int_space_isspace _ Hc).
Qed.

Lemma int_strip_no_space (s : string) :
  no_space s = true -> Py.int_rstrip (Py.int_lstrip s) = s.
Proof.
  intros Hs. rewrite int_lstrip_no_space by done. by apply int_rstrip_no_space.
Qed.

(** Reading the digits of a numeral onto an accumulator gives the number
    of the digits written after those of the accumulator. *)
Lemma int_digits_string_of_uint (d e : Decimal.uint) (b : bool) :
  d <> Decimal.Nil \/ b = true ->
  Py.int_digits b (Z.of_N (Unsigned.of_lu e)) (NilEmpty.string_of_uint d)
    = Some (Z.of_N (Unsigned.of_lu (Decimal.revapp d e))).
Proof.
  revert e b. induction d as [|d IH|d IH|d IH|d IH|d IH|d IH|d IH|d IH|d IH|d IH];
    intros e b Hb.
  1: { destruct Hb as [Hb | ->]; [done|reflexivity]. }
  all: cbn [NilEmpty.string_of_uint Py.int_digits Decimal.revapp];
    match goal with
    | |- context [Py.digit_val ?c] =>
        let v := eval vm_compute in (Py.digit_val c) in
        change (Py.digit_val c) with v; cbv iota beta
    end;
    (etransitivity; [|apply (IH _ true); by right]); f_equal;
    cbn [Unsigned.of_lu]; lia.
Qed.

Lemma int_string_of_uint (d : Decimal.uint) :
  d <> Decimal.Nil ->
  Py.int_digits false 0 (NilEmpty.string_of_uint d) = Some (Z.of_uint d).
Proof.
  intros Hd.
  pose proof (int_digits_string_of_uint d Decimal.Nil false (or_introl Hd)) as E.
  cbn [Unsigned.of_lu] in E. change (Z.of_N 0) with 0 in E. rewrite E.
  unfold Z.of_uint. by rewrite Unsigned.of_uint_alt.
Qed.

Lemma int_of_digits (d : Decimal.uint) :
  d <> Decimal.Nil ->
  Py.int (NilEmpty.string_of_uint d) = Some (Z.of_uint d).
Proof.
  intros Hd. unfold Py.int.
  rewrite int_strip_no_space by apply string_of_uint_no_space.
  rewrite <- int_string_of_uint by done.
  destruct d; try done; reflexivity.
Qed.

(** [int(str(z)) == z] *)
Lemma int_str_of_int (z : Z) : Py.int (Py.str_of_int z) = Some z.
Proof.
  unfold Py.str_of_int. destruct z as [|p|p].
  - reflexivity.
  - cbn [Z.to_int NilZero.string_of_int]. unfold NilZero.string_of_uint.
    pose proof (Unsigned.to_uint_nonnil p) as Hn.
    assert (E : Z.of_uint (Pos.to_uint p) = Z.pos p).
    { unfold Z.of_uint. by rewrite Unsigned.of_to. }
    destruct (Pos.to_uint p) eqn:Ed; try done; rewrite <- Ed in *;
      rewrite int_of_digits by done; by rewrite E.
  - cbn [Z.to_int NilZero.string_of_int]. unfold NilZero.string_of_uint.
    pose proof (Unsigned.to_uint_nonnil p) as Hn.
    assert (E : Z.of_uint (Pos.to_uint p) = Z.pos p).
    { unfold Z.of_uint. by rewrite Unsigned.of_to. }
    assert (Hs : NilEmpty.string_of_uint (Pos.to_uint p)
                 = match Pos.to_uint p with
                   | Decimal.Nil => "0"
                   | _ => NilEmpty.string_of_uint (Pos.to_uint p)
                   end) by (by destruct (Pos.to_uint p)).
    rewrite <- Hs. unfold Py.int.
    rewrite int_strip_no_space
      by (cbn [no_space]; rewrite string_of_uint_no_space; reflexivity).
    rewrite int_string_of_uint by done. simpl. by rewrite E.
Qed.

(** [str(z)] is never the empty text. *)
Lemma str_of_int_truthy (z : Z) : Py.truthy (Py.str_of_int z) = true.
Proof.
  unfold Py.str_of_int. destruct z as [|p|p]; [done| |done].
  cbn [Z.to_int NilZero.string_of_int]. unfold NilZero.string_of_uint.
  pose proof (Unsigned.to_uint_nonnil p) as Hn.
  destruct (Pos.to_uint p); done.
Qed.

(** ** Rows and keys *)

Lemma get_key {A} (key : A -> Z) (rows : list A) (id : Z) (r : A) :
  get key rows id = Some r -> key r = id.
Proof.
  unfold get. intros Hf. apply find_some in Hf as [_ Hk]. lia.
Qed.

Lemma get_update_row_same {A} (key : A -> Z) (rows : list A) (r r' : A) :
  get key rows (key r') = Some r ->
  get key (update_row key r' rows) (key r') = Some r'.
Proof.
  unfold get, update_row. induction rows as [|x rows IH]; simpl; [done|].
  destruct (key x =? key r') eqn:E.
  - intros _. simpl. by rewrite Z.eqb_refl.
  - intros Hf. simpl. rewrite E. auto.
Qed.

Lemma get_update_row_other {A} (key : A -> Z) (rows : list A) (r' : A) (id : Z) :
  id <> key r' ->
  get key (update_row key r' rows) id = get key rows id.
Proof.
  intros Hne. unfold get, update_row. induction rows as [|x rows IH]; simpl; [done|].
  destruct (key x =? key r') eqn:E.
  - apply Z.eqb_eq in E. simpl.
    replace (key r' =? id) with false by (symmetry; apply Z.eqb_neq; lia).
    replace (key x =? id) with false by (symmetry; apply Z.eqb_neq; lia).
    exact IH.
  - simpl. destruct (key x =? id); [done|exact IH].
Qed.

Lemma update_row_Forall {A} (key : A -> Z) (P : A -> Prop) (r' : A) (rows : list A) :
  P r' -> Forall P rows -> Forall P (update_row key r' rows).
Proof.
  intros Hr Hall. unfold update_row. induction Hall as [|x rows Hx _ IH]; simpl.
  - constructor.
  - constructor; [by destruct (key x =? key r')|exact IH].
Qed.

(** ** The three outcomes of a stock movement *)

Lemma update_stock_purchase st u now id f p q :
  get p_id (all_products st) id = Some p ->
  form_int f "quantity" 0 = Some q -> 0 < q ->
  f !! "action" = Some "purchase" ->
  r_store (update_stock st u now id POST f)
    = moved st u now p "purchase" q q (default "" (f !! "notes")).
Proof.
  intros Hg Hq Hpos Ha. unfold update_stock. rewrite Hg, Hq, Ha.
  replace (q <=? 0) with false by (symmetry; apply Z.leb_gt; lia).
  reflexivity.
Qed.

Lemma update_stock_decrement st u now id f p q :
  get p_id (all_products st) id = Some p ->
  form_int f "quantity" 0 = Some q -> 0 < q ->
  f !! "action" <> Some "purchase" ->
  (f !! "action" = Some "sale" -> q <= p_quantity p) ->
  update_stock st u now id POST f
    = mkResult (moved st u now p "sale" (- q) q (default "" (f !! "notes")))
        [("Stock " +:+ str_of_opt (f !! "action") +:+ " recorded successfully!", "success")]
        (Redirect "products").
Proof.
  intros Hg Hq Hpos Ha Hs. unfold update_stock. rewrite Hg, Hq.
  replace (q <=? 0) with false by (symmetry; apply Z.leb_gt; lia).
  destruct (bool_decide (f !! "action" = Some "sale") && (p_quantity p <? q)) eqn:E.
  - apply andb_true_iff in E as [E1 E2]. apply bool_decide_eq_true in E1.
    apply Z.ltb_lt in E2. specialize (Hs E1). lia.
  - rewrite bool_decide_eq_false_2 by exact Ha. reflexivity.
Qed.

Lemma stock_moved st u now p ty delta q notes :
  get p_id (all_products st) (p_id p) = Some p ->
  stock (moved st u now p ty delta q notes) (p_id p) = Some (p_quantity p + delta).
Proof.
  intros Hg. unfold stock, moved. simpl.
  pose proof (get_update_row_same p_id (all_products st) p
                (set_quantity p (p_quantity p + delta)) Hg) as Hu.
  simpl in Hu. by rewrite Hu.
Qed.

Lemma succeeds_step id st r :
  succeeds id st r ->
  exists p a q notes,
    movement_of r = Some (a, q) /\ get p_id (all_products st) id = Some p /\ p_id p = id /\
    record_movement id st r
      = moved st (sr_user r) (sr_now r) p a (if String.eqb a "purchase" then q else - q) q notes.
Proof.
  intros (a & q & cur & Hm & Hs & Ha & Hpos & Hle).
  unfold stock in Hs. destruct (get p_id (all_products st) id) as [p|] eqn:Hg; [|done].
  simpl in Hs. injection Hs as Hcur. pose proof (get_key _ _ _ _ Hg) as Hid.
  unfold movement_of in Hm.
  destruct (sr_form r !! "action") as [a'|] eqn:Hact; [|done].
  destruct (form_int (sr_form r) "quantity" 0) as [q'|] eqn:Hq; [|done].
  injection Hm as -> ->.
  exists p, a, q, (default "" (sr_form r !! "notes")).
  split; [by unfold movement_of; rewrite Hact, Hq|]. split; [done|]. split; [done|].
  unfold record_movement. destruct Ha as [-> | ->].
  - by erewrite update_stock_purchase.
  - erewrite update_stock_decrement; eauto.
    + by rewrite Hact.
    + intros _. rewrite Hcur. by apply Hle.
Qed.

(** C1 (as amended). A sequence of successful stock movements on a product
    leaves its quantity at the initial quantity plus the purchases minus the
    sales, and appends exactly one Transaction row per call to the rows that
    referenced the product before: the earlier rows stay, in place, and the
    number of rows grows by the number of calls. *)
Theorem ledger_balance (id : Z) (rs : list stock_request) (st : Store) (q0 : Z) :
  stock st id = Some q0 ->
  all_succeed id st rs ->
  let st' := record_movements id st rs in
  stock st' id = Some (q0 + total_of "purchase" rs - total_of "sale" rs) /\
  (exists added, rows_of st' id = rows_of st id ++ added /\ length added = length rs) /\
  length (rows_of st' id) = (length (rows_of st id) + length rs)%nat /\
  (rows_of st id = [] -> length (rows_of st' id) = length rs).
Proof.
  revert st q0. induction rs as [|r rs IH]; intros st q0 Hq0 Hall; simpl in *.
  - split; [rewrite Hq0; unfold total_of; simpl; f_equal; lia|].
    split; [exists []; by rewrite app_nil_r|]. split; [lia|]. by intros ->.
  - destruct Hall as [Hr Hall].
    destruct (succeeds_step _ _ _ Hr) as (p & a & q & notes & Hm & Hg & Hid & Hstep).
    assert (Hq0' : p_quantity p = q0).
    { unfold stock in Hq0. rewrite Hg in Hq0. by injection Hq0. }
    assert (Hr' : succeeds id st r) by exact Hr.
    destruct Hr as (a' & q' & cur & Hm' & _ & Ha & _ & _).
    rewrite Hm in Hm'. injection Hm' as <- <-.
    specialize (IH (record_movement id st r)
                  (q0 + (if String.eqb a "purchase" then q else - q))).
    destruct IH as (IH1 & (added & IH2 & IH3) & IH4 & _); [| exact Hall |].
    { rewrite Hstep, <- Hid, <- Hq0'. apply stock_moved. by rewrite Hid. }
    unfold record_movements in *. simpl.
    assert (Hrows : rows_of (record_movement id st r) id
                    = rows_of st id ++
                      [mkTransaction (next_id t_id (all_transactions st)) (p_id p) a q
                         (Some notes) (Some (u_id (sr_user r))) (sr_now r)]).
    { rewrite Hstep. unfold rows_of, moved. simpl. rewrite filter_app.
      rewrite filter_cons_True by exact Hid. by rewrite filter_nil. }
    split; [|split; [|split]].
    + rewrite IH1. f_equal. unfold total_of. simpl. rewrite Hm.
      fold (total_of "purchase" rs). fold (total_of "sale" rs).
      destruct Ha as [-> | ->]; simpl; lia.
    + eexists. rewrite IH2, Hrows, <- app_assoc. split; [reflexivity|].
      simpl. by rewrite IH3.
    + rewrite IH4, Hrows, length_app. simpl. lia.
    + intros Hnone. rewrite IH4, Hrows, Hnone. simpl. lia.
Qed.

(** C2 (as amended). A sale of a positive quantity strictly greater than
    the product's current quantity is answered with InsufficientStock and
    the store is the one before the call: no quantity and no Transaction
    row differs. *)
Theorem sale_beyond_stock_rejected (st : Store) (u : User) (now : datetime)
    (id : Z) (f : form) (p : Product) (q : Z) :
  get p_id (all_products st) id = Some p ->
  f !! "action" = Some "sale" ->
  form_int f "quantity" 0 = Some q ->
  0 < q ->
  p_quantity p < q ->
  update_stock st u now id POST f
    = mkResult st [InsufficientStock] (Render "stock_form.html" (Some p)).
Proof.
  intros Hg Ha Hq Hpos Hlt. unfold update_stock. rewrite Hg, Hq, Ha.
  replace (q <=? 0) with false by (symmetry; apply Z.leb_gt; lia).
  replace (p_quantity p <? q) with true by (symmetry; apply Z.ltb_lt; lia).
  reflexivity.
Qed.

(** C10. A stock movement with a positive quantity whose action is not
    "purchase" (any other text, or no action at all) is recorded as a sale:
    the quantity is decremented and one Transaction of type "sale" is
    appended. The stock is checked only when the action is exactly "sale":
    then a quantity above the stock is refused, while with any other action
    it is taken off all the same and leaves a negative quantity. *)
Theorem other_action_recorded_as_sale (st : Store) (u : User) (now : datetime)
    (id : Z) (f : form) (p : Product) (q : Z) :
  get p_id (all_products st) id = Some p ->
  form_int f "quantity" 0 = Some q ->
  0 < q ->
  f !! "action" <> Some "purchase" ->
  let r := update_stock st u now id POST f in
  ((f !! "action" = Some "sale" -> q <= p_quantity p) ->
     stock (r_store r) id = Some (p_quantity p - q) /\
     exists t, all_transactions (r_store r) = all_transactions st ++ [t] /\
       t_type t = "sale" /\ t_quantity t = q /\ t_product_id t = id) /\
  (f !! "action" <> Some "sale" -> p_quantity p < q ->
     exists left, stock (r_store r) id = Some left /\ left < 0) /\
  (f !! "action" = Some "sale" -> p_quantity p < q ->
     r = mkResult st [InsufficientStock] (Render "stock_form.html" (Some p))).
Proof.
  intros Hg Hq Hpos Ha. cbn zeta.
  pose proof (get_key _ _ _ _ Hg) as Hid.
  assert (Hdec : (f !! "action" = Some "sale" -> q <= p_quantity p) ->
                 r_store (update_stock st u now id POST f)
                 = moved st u now p "sale" (- q) q (default "" (f !! "notes"))).
  { intros Hs. by rewrite (update_stock_decrement _ _ _ _ _ _ _ Hg Hq Hpos Ha Hs). }
  assert (Hst : stock (moved st u now p "sale" (- q) q (default "" (f !! "notes"))) id
                = Some (p_quantity p - q)).
  { rewrite <- Hid. by rewrite stock_moved by (by rewrite Hid). }
  split; [|split].
  - intros Hs. rewrite (Hdec Hs). split; [exact Hst|].
    eexists. split; [reflexivity|]. done.
  - intros Hne Hlt. rewrite Hdec by (intros Hs; by destruct Hne).
    eexists. split; [exact Hst|lia].
  - intros Hs Hlt. unfold update_stock. rewrite Hg, Hq, Hs.
    replace (q <=? 0) with false by (symmetry; apply Z.leb_gt; lia).
    replace (p_quantity p <? q) with true by (symmetry; apply Z.ltb_lt; lia).
    reflexivity.
Qed.

(** C3 (as amended). Non-negativity of every product's quantity is kept by
    every stock movement whose action is "purchase" or "sale", and by the
    creation of a product whose initial quantity is not negative. *)
Theorem quantity_nonneg_preserved (st : Store) (u : User) (now : datetime) (m : method) :
  nonneg st ->
  (forall id f, f !! "action" = Some "purchase" \/ f !! "action" = Some "sale" ->
     nonneg (r_store (update_stock st u now id m f))) /\
  (forall f q, form_int f "quantity" 0 = Some q -> 0 <= q ->
     nonneg (r_store (add_product st u now m f))).
Proof.
  intros Hnn. split.
  - intros id f Ha. unfold update_stock.
    destruct (get p_id (all_products st) id) as [p|] eqn:Hg; [|simpl; exact Hnn].
    destruct m; [simpl; exact Hnn|].
    destruct (form_int f "quantity" 0) as [q|]; [|simpl; exact Hnn].
    destruct (q <=? 0) eqn:E0; [simpl; exact Hnn|]. apply Z.leb_gt in E0.
    assert (Hp : 0 <= p_quantity p).
    { unfold get in Hg. apply find_some in Hg as [Hin _].
      unfold nonneg in Hnn. rewrite List.Forall_forall in Hnn. by apply Hnn. }
    destruct Ha as [Ha | Ha]; rewrite Ha; simpl.
    + unfold nonneg. simpl. apply update_row_Forall; [simpl; lia|exact Hnn].
    + destruct (p_quantity p <? q) eqn:E1; [simpl; exact Hnn|]. apply Z.ltb_ge in E1.
      unfold nonneg. simpl. apply update_row_Forall; [simpl; lia|exact Hnn].
  - intros f q Hq Hpos. unfold add_product. destruct m; [simpl; exact Hnn|].
    destruct (form_float f "purchase_price" 0); [|simpl; exact Hnn].
    destruct (form_float f "selling_price" 0); [|simpl; exact Hnn].
    rewrite Hq.
    destruct (form_int f "reorder_level" 10); [|simpl; exact Hnn].
    destruct (f !! "sku" ≫= first_by p_sku (all_products st)); [simpl; exact Hnn|].
    destruct (f !! "name"); [|simpl; exact Hnn].
    destruct (f !! "sku"); [|simpl; exact Hnn].
    destruct (form_key f "category_id"); [|simpl; exact Hnn].
    destruct (form_key f "supplier_id"); [|simpl; exact Hnn].
    unfold nonneg. simpl. apply Forall_app. split; [simpl; exact Hnn|].
    constructor; [simpl; lia|constructor].
Qed.

(** ** Names of categories and suppliers *)

(** The category form refuses a name that is taken. *)
Lemma add_category_duplicate_rejected (st : Store) (f : form) (n : string)
    (existing : Category) :
  f !! "name" = Some n ->
  first_by c_name (all_categories st) n = Some existing ->
  add_category st f = mkResult st [DuplicateCategoryName] (Redirect "categories").
Proof. intros Hn He. unfold add_category. by rewrite Hn, He. Qed.

(** C5 (the supplier half, as the code has it). The supplier form looks
    no name up: posted with the name of an existing supplier it reports
    success and appends a second supplier of that name. *)
Theorem add_supplier_duplicate_accepted (st : Store) (f : form) (n : string)
    (existing : Supplier) :
  f !! "name" = Some n ->
  first_by s_name (all_suppliers st) n = Some existing ->
  let r := add_supplier st POST f in
  r_flashes r = [("Supplier added successfully!", "success")] /\
  exists added,
    all_suppliers (r_store r) = all_suppliers st ++ [added] /\
    s_name added = n /\ s_name existing = n /\ In existing (all_suppliers st).
Proof.
  intros Hn He. unfold add_supplier. rewrite Hn. simpl. split; [done|].
  eexists. split; [reflexivity|]. simpl. split; [done|].
  unfold first_by in He. apply find_some in He as [Hin Heq].
  apply String.eqb_eq in Heq. done.
Qed.

(** ** Editing a product *)

(** C6 (as the code has it). An edit that moves the SKU onto another
    product's is answered with DuplicateSKU and commits nothing, but the
    product handed back to the caller already carries the submitted name:
    the name is assigned before the SKU is checked. *)
Theorem edit_product_duplicate_sku (st : Store) (id : Z) (f : form) (p other : Product)
    (name new_sku : string) :
  get p_id (all_products st) id = Some p ->
  f !! "name" = Some name ->
  f !! "sku" = Some new_sku ->
  new_sku <> p_sku p ->
  first_by p_sku (all_products st) new_sku = Some other ->
  edit_product st id POST f
    = mkResult st [DuplicateSKU] (Render "product_form.html" (Some (set_name p name))).
Proof.
  intros Hg Hn Hs Hne Ho. unfold edit_product. rewrite Hg, Hn, Hs. simpl.
  rewrite bool_decide_eq_true_2 by exact Hne. by rewrite Ho.
Qed.

(** ** Ordering of the product list *)







(** ** Dashboard statistics *)

(** The three sequences have one entry for each of 30 days. *)
Lemma dashboard_stats_lengths (st : Store) (now : datetime) :
  length (labels (dashboard_stats st now)) = 30%nat /\
  length (purchases (dashboard_stats st now)) = 30%nat /\
  length (sales (dashboard_stats st now)) = 30%nat.
Proof. unfold dashboard_stats. cbn [labels purchases sales]. by rewrite !length_fmap, !length_seq. Qed.

(** The days the sequences stand for: the 30 days that end the day
    before the call. *)
Lemma dashboard_stats_days (st : Store) (now : datetime) (i : nat) (l : string) :
  labels (dashboard_stats st now) !! i = Some l ->
  l = strftime_bd (now - timedelta_days 30 + timedelta_days (Z.of_nat i)) /\
  (i < 30)%nat.
Proof.
  unfold dashboard_stats. cbn [labels]. rewrite !list_lookup_fmap.
  destruct (seq 0 30 !! i) as [j|] eqn:E; [|done]. simpl. intros [= <-].
  apply lookup_seq in E as [-> Hi]. done.
Qed.

Lemma group_sum_other (sel : Transaction -> bool) (key : Transaction -> string)
    (d : string) (ts : list Transaction) (acc : gmap string Z) :
  Forall (fun t => key t <> d) ts ->
  foldl (fun acc t =>
           if sel t
           then <[key t := default 0 (acc !! key t) + t_quantity t]> acc
           else acc) acc ts !! d = acc !! d.
Proof.
  intros Hall. revert acc. induction Hall as [|t ts Ht _ IH]; intros acc; [done|].
  cbn [foldl]. rewrite IH. destruct (sel t); [|done].
  by rewrite lookup_insert_ne.
Qed.

(** A day on which no transaction was recorded reports zero in both
    sequences of totals. *)
Lemma dashboard_stats_no_transaction (st : Store) (now : datetime) (i : nat) :
  (i < 30)%nat ->
  Forall (fun t => strftime_Ymd (t_created_at t)
                   <> strftime_Ymd (now - timedelta_days 30 + timedelta_days (Z.of_nat i)))
    (all_transactions st) ->
  purchases (dashboard_stats st now) !! i = Some 0 /\
  sales (dashboard_stats st now) !! i = Some 0.
Proof.
  intros Hi Hall. unfold dashboard_stats. cbn [purchases sales].
  rewrite !list_lookup_fmap.
  assert (E : seq 0 30 !! i = Some i) by (by apply lookup_seq).
  rewrite E. cbn [fmap option_fmap option_map]. unfold totals_by_date.
  rewrite !(group_sum_other _ (fun t => strftime_Ymd (t_created_at t))) by exact Hall.
  by rewrite lookup_empty.
Qed.

(** ** Import: what one row does *)

Lemma truthy_ne (s : string) : s <> "" -> Py.truthy s = true.
Proof. by destruct s. Qed.

Lemma upsert_category_products (st : Store) (n : string) :
  all_products (upsert_category st n).1 = all_products st /\
  all_suppliers (upsert_category st n).1 = all_suppliers st /\
  all_transactions (upsert_category st n).1 = all_transactions st.
Proof.
  unfold upsert_category. destruct (Py.truthy n); [|done].
  by destruct (first_by c_name (all_categories st) n).
Qed.

Lemma upsert_supplier_products (st : Store) (n : string) :
  all_products (upsert_supplier st n).1 = all_products st /\
  all_categories (upsert_supplier st n).1 = all_categories st /\
  all_transactions (upsert_supplier st n).1 = all_transactions st.
Proof.
  unfold upsert_supplier. destruct (Py.truthy n); [|done].
  by destruct (first_by s_name (all_suppliers st) n).
Qed.

Lemma import_row_blank_sku (now : datetime) (s : import_state) (r : row) :
  row_sku r = inr "" -> import_row now s r = skip s.
Proof. unfold row_sku, import_row. intros Hs. rewrite Hs. reflexivity. Qed.

Lemma import_row_duplicate (now : datetime) (s : import_state) (r : row)
    (sku : string) (existing : Product) :
  row_sku r = inr sku -> sku <> "" ->
  first_by p_sku (all_products (i_store s)) sku = Some existing ->
  import_row now s r = skip_with s ("SKU '" +:+ sku +:+ "' already exists").
Proof.
  unfold row_sku, import_row. intros Hs Hne He.
  rewrite Hs, (truthy_ne _ Hne), He. reflexivity.
Qed.

Lemma import_row_blank_name (now : datetime) (s : import_state) (r : row) (sku : string) :
  row_sku r = inr sku -> sku <> "" ->
  first_by p_sku (all_products (i_store s)) sku = None ->
  row_name r = inr "" ->
  import_row now s r = skip s.
Proof.
  unfold row_sku, row_name, import_row. intros Hs Hne He Hn.
  rewrite Hs, (truthy_ne _ Hne), He, Hn. reflexivity.
Qed.

Lemma import_row_new (now : datetime) (s : import_state) (r : row)
    (sku name category_name supplier_name : string)
    (purchase_price selling_price : float) (quantity reorder_level : Z) :
  row_sku r = inr sku -> sku <> "" ->
  first_by p_sku (all_products (i_store s)) sku = None ->
  row_name r = inr name -> name <> "" ->
  row_category r = inr category_name ->
  row_supplier r = inr supplier_name ->
  row_numbers r purchase_price selling_price quantity reorder_level ->
  import_row now s r
    = let st1 := (upsert_category (i_store s) category_name).1 in
      let st2 := (upsert_supplier st1 supplier_name).1 in
      mkImport
        (with_products st2
           (all_products (i_store s) ++
              [imported_product now (i_store s) r sku name category_name supplier_name
                 purchase_price selling_price quantity reorder_level]))
        (imported s + 1) (skipped s) (errors s).
Proof.
  unfold row_sku, row_name, row_category, row_supplier, row_numbers, import_row.
  intros Hsku Hs He Hname Hn Hcat Hsup (Hpp & Hsp & Hq & Hrl).
  rewrite Hsku, (truthy_ne _ Hs), He, Hname, (truthy_ne _ Hn), Hcat. cbn [negb].
  unfold imported_product.
  pose proof (upsert_category_products (i_store s) category_name) as (Hc & _ & _).
  destruct (upsert_category (i_store s) category_name) as [st1 c] eqn:Ec.
  cbn [fst snd] in *. rewrite Hsup.
  pose proof (upsert_supplier_products st1 supplier_name) as (Hp & _ & _).
  destruct (upsert_supplier st1 supplier_name) as [st2 su] eqn:Esu.
  cbn [fst snd] in *. rewrite Hpp, Hsp, Hq, Hrl.
  by rewrite Hp, Hc.
Qed.

Lemma first_by_app {A} (field : A -> string) (l l' : list A) (v : string) (x : A) :
  first_by field l v = Some x -> first_by field (l ++ l') v = Some x.
Proof.
  unfold first_by. induction l as [|y l IH]; simpl; [done|].
  by destruct (String.eqb (field y) v).
Qed.

Lemma first_by_In {A} (field : A -> string) (l : list A) (v : string) (x : A) :
  first_by field l v = Some x -> In x l /\ field x = v.
Proof.
  unfold first_by. intros Hf. apply find_some in Hf as [Hin Heq].
  by apply String.eqb_eq in Heq.
Qed.

Lemma upsert_category_spec (st : Store) (n : string) :
  n <> "" ->
  exists c,
    In c (all_categories (upsert_category st n).1) /\ c_name c = n /\
    (upsert_category st n).2 = Some (c_id c) /\
    (first_by c_name (all_categories st) n = None ->
       all_categories (upsert_category st n).1
         = all_categories st ++ [mkCategory (next_id c_id (all_categories st)) n None]) /\
    (is_Some (first_by c_name (all_categories st) n) ->
       all_categories (upsert_category st n).1 = all_categories st).
Proof.
  intros Hn. unfold upsert_category. rewrite (truthy_ne _ Hn).
  destruct (first_by c_name (all_categories st) n) as [c|] eqn:E; cbn [fst snd].
  - apply first_by_In in E as [Hin Hc]. exists c. repeat split; try done.
  - eexists. split; [|split; [|split; [|split]]].
    + cbn [all_categories with_categories]. apply in_or_app. right. by left.
    + done.
    + done.
    + done.
    + by intros [? ?].
Qed.

(** What [import_products] hands to the loop for an admin, a file name
    ending in ".csv" and records without a field over the limit. *)
Lemma import_products_loop (st : Store) (u : User) (now : datetime) (file : upload)
    (t : table) :
  is_admin u = true ->
  filename file <> "" ->
  Py.endswith (filename file) ".csv" = true ->
  records file = Some t ->
  within_field_limit t = true ->
  let s := foldl (import_row now) (mkImport st 0 0 []) (DictReader t) in
  ir_loop (import_products st u now POST (Some file)) = Some s /\
  r_store (ir_result (import_products st u now POST (Some file))) = i_store s.
Proof.
  intros Ha Hf He Hr Hlim. unfold import_products. rewrite Ha, He, Hr, Hlim. cbn [negb].
  replace (String.eqb (filename file) "") with false
    by (symmetry; by apply String.eqb_neq).
  done.
Qed.

(** A field over the limit of the reader ends the import: the error is
    flashed and the store is as before. *)
Lemma import_products_over_limit (st : Store) (u : User) (now : datetime) (file : upload)
    (t : table) :
  is_admin u = true ->
  filename file <> "" ->
  Py.endswith (filename file) ".csv" = true ->
  records file = Some t ->
  within_field_limit t = false ->
  import_products st u now POST (Some file)
  = mkImportResult (mkResult st [ImportFailed] (Redirect "products")) None.
Proof.
  intros Ha Hf He Hr Hlim. unfold import_products. rewrite Ha, He, Hr, Hlim. cbn [negb].
  replace (String.eqb (filename file) "") with false
    by (symmetry; by apply String.eqb_neq).
  done.
Qed.

(** A row whose SKU cell is missing, as in a record shorter than the
    header, raises on [.strip()] and is skipped with the message of the
    exception; so is a row with a new SKU whose Name cell is missing. *)
Lemma import_row_missing_sku (now : datetime) (s : import_state) (r : row) :
  row_get r "SKU" "sku" (PyStr "") = PyNone ->
  import_row now s r = skip_with s "'NoneType' object has no attribute 'strip'".
Proof. unfold import_row. intros Hs. rewrite Hs. reflexivity. Qed.

Lemma import_row_missing_name (now : datetime) (s : import_state) (r : row) (sku : string) :
  row_sku r = inr sku -> sku <> "" ->
  first_by p_sku (all_products (i_store s)) sku = None ->
  row_get r "Name" "name" (PyStr "") = PyNone ->
  import_row now s r = skip_with s "'NoneType' object has no attribute 'strip'".
Proof.
  unfold row_sku, import_row. intros Hs Hne He Hn.
  rewrite Hs, (truthy_ne _ Hne), He, Hn. reflexivity.
Qed.

(** C8 (as amended). A file, with no field over the limit of the csv
    reader, of one valid new row (SKU "X1", Name "Widget", Category
    "Tools") and, before or after it, one row whose SKU, stripped of the
    surrounding whitespace, is not blank and already in the catalog: one
    product is imported and one row skipped, the one error message records
    the duplicate, exactly the new product is added, and it refers to a
    category "Tools", which is created when there was none. A row whose
    SKU cell is there and blank is skipped without a message, and so is a
    row with a new SKU whose Name cell is there and blank; a row whose SKU
    cell is missing, the record being shorter than the header, is skipped
    with the message of the exception, and so is a row with a new SKU
    whose Name cell is missing. *)
Theorem import_new_and_duplicate (st : Store) (u : User) (now : datetime)
    (file : upload) (t : table) (new_row dup_row : row)
    (supplier_name dup_sku : string) (purchase_price selling_price : float)
    (quantity reorder_level : Z) (existing : Product) :
  is_admin u = true ->
  filename file <> "" ->
  Py.endswith (filename file) ".csv" = true ->
  records file = Some t ->
  within_field_limit t = true ->
  DictReader t = [new_row; dup_row] \/ DictReader t = [dup_row; new_row] ->
  row_sku new_row = inr "X1" ->
  row_name new_row = inr "Widget" ->
  row_category new_row = inr "Tools" ->
  row_supplier new_row = inr supplier_name ->
  row_numbers new_row purchase_price selling_price quantity reorder_level ->
  first_by p_sku (all_products st) "X1" = None ->
  row_sku dup_row = inr dup_sku ->
  dup_sku <> "" ->
  first_by p_sku (all_products st) dup_sku = Some existing ->
  (exists s p,
     ir_loop (import_products st u now POST (Some file)) = Some s /\
     r_store (ir_result (import_products st u now POST (Some file))) = i_store s /\
     imported s = 1 /\ skipped s = 1 /\
     errors s = ["SKU '" +:+ dup_sku +:+ "' already exists"] /\
     all_products (i_store s) = all_products st ++ [p] /\
     p_sku p = "X1" /\ p_name p = "Widget" /\
     (exists c, In c (all_categories (i_store s)) /\ c_name c = "Tools" /\
                p_category_id p = Some (c_id c)) /\
     (first_by c_name (all_categories st) "Tools" = None ->
        all_categories (i_store s)
          = all_categories st ++ [mkCategory (next_id c_id (all_categories st)) "Tools" None]) /\
     (is_Some (first_by c_name (all_categories st) "Tools") ->
        all_categories (i_store s) = all_categories st)) /\
  (forall s r, row_sku r = inr "" -> import_row now s r = skip s) /\
  (forall s r sku, row_sku r = inr sku -> sku <> "" ->
     first_by p_sku (all_products (i_store s)) sku = None ->
     row_name r = inr "" -> import_row now s r = skip s) /\
  (forall s r, row_get r "SKU" "sku" (PyStr "") = PyNone ->
     import_row now s r = skip_with s "'NoneType' object has no attribute 'strip'") /\
  (forall s r sku, row_sku r = inr sku -> sku <> "" ->
     first_by p_sku (all_products (i_store s)) sku = None ->
     row_get r "Name" "name" (PyStr "") = PyNone ->
     import_row now s r = skip_with s "'NoneType' object has no attribute 'strip'").
Proof.
  intros Ha Hf He Hr Hlim Hrows Hsku Hname Hcat Hsup Hnum Hnew Hdsku Hdne Hdup.
  split; [|split; [apply import_row_blank_sku|
             split; [apply import_row_blank_name|
               split; [apply import_row_missing_sku|apply import_row_missing_name]]]].
  destruct (import_products_loop st u now file t Ha Hf He Hr Hlim) as [Hl Hst].
  set (p := imported_product now st new_row "X1" "Widget" "Tools" supplier_name
              purchase_price selling_price quantity reorder_level).
  set (st2 := (upsert_supplier (upsert_category st "Tools").1 supplier_name).1).
  assert (Hfinal : foldl (import_row now) (mkImport st 0 0 []) (DictReader t)
                   = mkImport (with_products st2 (all_products st ++ [p])) 1 1
                       ["SKU '" +:+ dup_sku +:+ "' already exists"]).
  { destruct Hrows as [-> | ->]; cbn [foldl].
    - rewrite (import_row_new now _ new_row "X1" "Widget" "Tools" supplier_name
                 purchase_price selling_price quantity reorder_level) by done.
      cbn zeta. cbn [i_store].
      rewrite (import_row_duplicate now _ dup_row dup_sku existing); try done.
      cbn [i_store all_products with_products]. by apply first_by_app.
    - rewrite (import_row_duplicate now _ dup_row dup_sku existing) by done.
      rewrite (import_row_new now _ new_row "X1" "Widget" "Tools" supplier_name
                 purchase_price selling_price quantity reorder_level) by done.
      done. }
  rewrite Hfinal in Hl, Hst.
  destruct (upsert_category_spec st "Tools") as (c & Hin & Hc & Hid & Hnone & Hsome);
    [done|].
  pose proof (upsert_supplier_products (upsert_category st "Tools").1 supplier_name)
    as (_ & Hcats & _).
  eexists _, p. split; [exact Hl|]. split; [exact Hst|].
  cbn [imported skipped errors i_store all_products all_categories with_products].
  fold st2 in Hcats.
  repeat split; try done.
  - exists c. rewrite Hcats. done.
  - intros Hn. rewrite Hcats. by apply Hnone.
  - intros Hs. rewrite Hcats. by apply Hsome.
Qed.

(** ** Export followed by import *)

Ltac lookup_cell :=
  unfold exported_row, products_header, product_record, row_get; cbn [zip_row];
  repeat first [rewrite lookup_insert_eq | rewrite lookup_insert_ne by done];
  cbn [cell_val].

Lemma DictReader_records (st : Store) (ps : list Product) :
  (fun record => zip_row products_header record ∅)
    <$> List.filter (fun record => negb (bool_decide (record = [])))
          (product_record st <$> ps)
  = exported_row st <$> ps.
Proof.
  induction ps as [|p ps IH]; [done|].
  rewrite fmap_cons. cbn [List.filter].
  rewrite bool_decide_eq_false_2 by done. cbn [negb].
  rewrite !fmap_cons. f_equal. exact IH.
Qed.

Lemma DictReader_export (st : Store) :
  DictReader (export_products st)
    = exported_row st <$> order_by (asc (fun p => SqlText (p_name p))) (all_products st).
Proof. unfold export_products, DictReader. apply DictReader_records. Qed.

Lemma exported_row_sku st p : row_sku (exported_row st p) = inr (Py.strip (p_sku p)).
Proof. unfold row_sku. lookup_cell. reflexivity. Qed.

Lemma exported_row_name st p : row_name (exported_row st p) = inr (Py.strip (p_name p)).
Proof. unfold row_name. lookup_cell. reflexivity. Qed.

Lemma exported_row_category st p :
  exists n, row_category (exported_row st p) = inr n.
Proof. unfold row_category. lookup_cell. eexists. reflexivity. Qed.

Lemma exported_row_supplier st p :
  exists n, row_supplier (exported_row st p) = inr n.
Proof. unfold row_supplier. lookup_cell. eexists. reflexivity. Qed.

Lemma exported_row_numbers st p :
  prices_read_back p ->
  row_numbers (exported_row st p) (p_purchase_price p) (p_selling_price p)
    (p_quantity p) (p_reorder_level p).
Proof.
  intros [[Hp1 Hp2] [Hs1 Hs2]].
  unfold row_numbers. repeat split; lookup_cell; unfold val_float, val_int.
  - by rewrite Hp1, Hp2.
  - by rewrite Hs1, Hs2.
  - by rewrite str_of_int_truthy, int_str_of_int.
  - by rewrite str_of_int_truthy, int_str_of_int.
Qed.

Lemma first_by_None {A} (field : A -> string) (l : list A) (v : string) :
  ~ In v (field <$> l) -> first_by field l v = None.
Proof.
  unfold first_by. induction l as [|x l IH]; cbn; [done|].
  intros Hn. destruct (String.eqb (field x) v) eqn:E.
  - apply String.eqb_eq in E. tauto.
  - apply IH. tauto.
Qed.

Lemma import_exported_rows (st : Store) (now : datetime) (ps : list Product)
    (s : import_state) :
  Forall importable ps ->
  Forall prices_read_back ps ->
  NoDup (p_sku <$> ps) ->
  (forall p, In p ps -> ~ In (p_sku p) (p_sku <$> all_products (i_store s))) ->
  let s' := foldl (import_row now) s (exported_row st <$> ps) in
  catalog_view (all_products (i_store s'))
    = catalog_view (all_products (i_store s)) ++ catalog_view ps /\
  imported s' = imported s + Z.of_nat (length ps) /\
  skipped s' = skipped s /\ errors s' = errors s.
Proof.
  revert s. induction ps as [|p ps IH]; intros s Hwf Hpr Hnd Hfresh.
  - cbn. rewrite app_nil_r. repeat split; lia.
  - apply Forall_cons_1 in Hwf as [(Hstrip & Hsku & Hname) Hwf].
    apply Forall_cons_1 in Hpr as [Hprice Hpr].
    rewrite fmap_cons in Hnd. apply NoDup_cons in Hnd as [Hp Hnd].
    destruct (exported_row_category st p) as [cn Hcn].
    destruct (exported_row_supplier st p) as [sn Hsn].
    rewrite fmap_cons. cbn [foldl].
    rewrite (import_row_new now s (exported_row st p) (p_sku p) (Py.strip (p_name p))
               cn sn (p_purchase_price p) (p_selling_price p) (p_quantity p)
               (p_reorder_level p)).
    2: { rewrite exported_row_sku. by rewrite Hstrip. }
    2: done.
    2: { apply first_by_None. apply Hfresh. by left. }
    2: apply exported_row_name.
    2: done.
    2: done.
    2: done.
    2: by apply exported_row_numbers.
    cbn zeta.
    match goal with |- context [foldl _ ?s1 _] => specialize (IH s1) end.
    destruct IH as (IH1 & IH2 & IH3 & IH4); [exact Hwf|exact Hpr|exact Hnd| |].
    { intros q Hq. cbn [i_store all_products with_products].
      rewrite fmap_app, in_app_iff. intros [Hin | Hin].
      - apply (Hfresh q); [by right|exact Hin].
      - cbn in Hin. destruct Hin as [Heq|[]].
        apply Hp. rewrite list_elem_of_In. rewrite Heq. by apply in_map. }
    cbn [i_store all_products with_products imported skipped errors] in IH1, IH2, IH3, IH4.
    cbn [fmap] in IH1, IH2, IH3, IH4 |- *.
    rewrite IH1, IH2, IH3, IH4. split; [|split; [|done]].
    + unfold catalog_view. rewrite fmap_app. cbn [fmap list_fmap].
      rewrite <- app_assoc. reflexivity.
    + cbn [length]. lia.
Qed.

(** C9 (as amended). For a catalog whose SKUs are pairwise distinct, not
    blank and without surrounding whitespace, whose product names are not
    blank, whose prices print to a text that reads back as the same
    price, and whose export has no field over the limit of the csv
    reader, exporting the products and importing the table into a store
    without products gives back, in the order of the export, the same SKUs
    with the same quantity and the same purchase and selling price each;
    every row is imported and none skipped. *)
Theorem export_import_round_trip (st target : Store) (u : User) (now : datetime)
    (name : string) :
  Forall importable (all_products st) ->
  Forall prices_read_back (all_products st) ->
  within_field_limit (export_products st) = true ->
  NoDup (p_sku <$> all_products st) ->
  all_products target = [] ->
  is_admin u = true ->
  name <> "" ->
  Py.endswith name ".csv" = true ->
  let res := import_products target u now POST
               (Some (mkUpload name (Some (export_products st)))) in
  let after := all_products (r_store (ir_result res)) in
  Permutation (catalog_view after) (catalog_view (all_products st)) /\
  catalog_view after
    = catalog_view (order_by (asc (fun p => SqlText (p_name p))) (all_products st)) /\
  (exists s, ir_loop res = Some s /\
     imported s = Z.of_nat (length (all_products st)) /\ skipped s = 0 /\ errors s = []).
Proof.
  intros Hwf Hpr Hlim Hnd Hempty Ha Hn He. cbn zeta.
  destruct (import_products_loop target u now
              (mkUpload name (Some (export_products st))) (export_products st)
              Ha Hn He eq_refl Hlim) as [Hl Hst].
  rewrite Hst, Hl. rewrite DictReader_export.
  set (sorted := order_by (asc (fun p => SqlText (p_name p))) (all_products st)).
  assert (Hperm : Permutation (all_products st) sorted) by apply order_by_perm.
  destruct (import_exported_rows st now sorted (mkImport target 0 0 []))
    as (H1 & H2 & H3 & H4).
  - eapply Permutation_Forall; [exact Hperm|exact Hwf].
  - eapply Permutation_Forall; [exact Hperm|exact Hpr].
  - assert (HP : p_sku <$> all_products st ≡ₚ p_sku <$> sorted)
      by (by apply fmap_Permutation).
    by rewrite <- HP.
  - intros p _. cbn [i_store]. rewrite Hempty. cbn. tauto.
  - cbn [i_store imported skipped errors] in H1, H2, H3, H4.
    rewrite Hempty in H1. change (catalog_view []) with (@nil (string * Z * float * float)) in H1.
    rewrite app_nil_l in H1.
    split; [|split].
    + rewrite H1. unfold catalog_view. apply fmap_Permutation. by symmetry.
    + rewrite H1. reflexivity.
    + eexists. split; [reflexivity|]. rewrite H2, H3, H4.
      split; [|done]. rewrite <- (Permutation_length Hperm). lia.
Qed.


(** * Further properties of the handlers *)

(** ** Stock movements *)

(** X1. Quantity and ledger move in lockstep. A request to [update_stock]
    either leaves the store as it was and does not redirect, or it
    redirects to the product list after appending exactly one Transaction
    row for the product, of a positive quantity, and moving the product's
    quantity by the signed quantity of that row. *)
Theorem update_stock_lockstep (st : Store) (u : User) (now : datetime) (id : Z)
    (m : method) (f : form) :
  let r := update_stock st u now id m f in
  (r_store r = st /\ r_response r <> Redirect "products") \/
  (r_response r = Redirect "products" /\
   exists p t,
     get p_id (all_products st) id = Some p /\
     all_transactions (r_store r) = all_transactions st ++ [t] /\
     t_product_id t = id /\ 0 < t_quantity t /\
     stock (r_store r) id = Some (p_quantity p + signed t)).
Proof.
  cbn zeta. unfold update_stock.
  destruct (get p_id (all_products st) id) as [p|] eqn:Hg; [|by left].
  pose proof (get_key _ _ _ _ Hg) as Hid.
  destruct m; [by left|].
  destruct (form_int f "quantity" 0) as [q|] eqn:Hq; [|by left].
  destruct (q <=? 0) eqn:E0; [by left|]. apply Z.leb_gt in E0.
  destruct (bool_decide (f !! "action" = Some "sale") && (p_quantity p <? q)); [by left|].
  right. destruct (bool_decide (f !! "action" = Some "purchase")); cbn.
  - split; [done|]. exists p. eexists. split; [done|]. split; [reflexivity|].
    cbn [t_product_id t_quantity]. split; [done|]. split; [done|].
    pose proof (stock_moved st u now p "purchase" q q (default "" (f !! "notes"))) as Hs.
    rewrite Hid in Hs. unfold moved in Hs. by apply Hs.
  - split; [done|]. exists p. eexists. split; [done|]. split; [reflexivity|].
    cbn [t_product_id t_quantity]. split; [done|]. split; [done|].
    pose proof (stock_moved st u now p "sale" (- q) q (default "" (f !! "notes"))) as Hs.
    rewrite Hid in Hs. unfold moved in Hs. by apply Hs.
Qed.

(** The store after any request to [update_stock]. *)
Lemma update_stock_store (st : Store) (u : User) (now : datetime) (id : Z)
    (m : method) (f : form) :
  r_store (update_stock st u now id m f) = st \/
  exists p ty delta q notes,
    get p_id (all_products st) id = Some p /\
    r_store (update_stock st u now id m f) = moved st u now p ty delta q notes.
Proof.
  unfold update_stock.
  destruct (get p_id (all_products st) id) as [p|] eqn:Hg; [|by left].
  destruct m; [by left|].
  destruct (form_int f "quantity" 0) as [q|]; [|by left].
  destruct (q <=? 0); [by left|].
  destruct (bool_decide (f !! "action" = Some "sale") && (p_quantity p <? q)); [by left|].
  right. exists p.
  destruct (bool_decide (f !! "action" = Some "purchase")).
  - by exists "purchase", q, q, (default "" (f !! "notes")).
  - by exists "sale", (- q), q, (default "" (f !! "notes")).
Qed.

Lemma moved_other (st : Store) (u : User) (now : datetime) (p : Product)
    (ty : string) (delta q : Z) (notes : string) (id' : Z) :
  id' <> p_id p ->
  stock (moved st u now p ty delta q notes) id' = stock st id' /\
  rows_of (moved st u now p ty delta q notes) id' = rows_of st id'.
Proof.
  intros Hne. split.
  - unfold stock, moved. cbn [all_products].
    by rewrite get_update_row_other by (cbn; lia).
  - unfold rows_of, moved. cbn [all_transactions]. rewrite filter_app.
    rewrite filter_cons_False by (cbn; lia). by rewrite filter_nil, app_nil_r.
Qed.

(** X2. A stock movement on one product touches no other: for every other
    product the quantity and the ledger rows are as before, and so are the
    categories and the suppliers. *)
Theorem update_stock_other_products (st : Store) (u : User) (now : datetime) (id id' : Z)
    (m : method) (f : form) :
  id' <> id ->
  let st' := r_store (update_stock st u now id m f) in
  stock st' id' = stock st id' /\
  rows_of st' id' = rows_of st id' /\
  all_categories st' = all_categories st /\
  all_suppliers st' = all_suppliers st.
Proof.
  intros Hne. cbn zeta.
  destruct (update_stock_store st u now id m f)
    as [-> | (p & ty & delta & q & notes & Hg & ->)]; [done|].
  pose proof (get_key _ _ _ _ Hg) as Hid.
  destruct (moved_other st u now p ty delta q notes id') as [H1 H2]; [lia|].
  by rewrite H1, H2.
Qed.

(** ** Editing and deleting *)

(** X3. Editing a product never moves stock: whatever the form holds, and
    whether the edit is accepted, refused or fails, every product's
    quantity is as before and the ledger, the categories and the suppliers
    are untouched. *)
Theorem edit_product_keeps_stock (st : Store) (id : Z) (m : method) (f : form) (id' : Z) :
  let st' := r_store (edit_product st id m f) in
  stock st' id' = stock st id' /\
  all_transactions st' = all_transactions st /\
  all_categories st' = all_categories st /\
  all_suppliers st' = all_suppliers st.
Proof.
  cbn zeta. unfold edit_product.
  destruct (get p_id (all_products st) id) as [p|] eqn:Hg; [|done].
  destruct m; [done|].
  destruct (f !! "name") as [name|]; [|done].
  destruct (f !! "sku") as [new_sku|]; [|done].
  destruct (if bool_decide (new_sku <> p_sku (set_name p name))
            then first_by p_sku (all_products st) new_sku else None); [done|].
  destruct (form_float f "purchase_price" 0); [|done].
  destruct (form_float f "selling_price" 0); [|done].
  destruct (form_int f "reorder_level" 10); [|done].
  destruct (form_ref f "category_id"); [|done].
  destruct (form_ref f "supplier_id"); [|done].
  cbn [r_store with_products all_transactions all_categories all_suppliers].
  split; [|done]. unfold stock. cbn [all_products with_products].
  pose proof (get_key _ _ _ _ Hg) as Hid. subst id.
  destruct (decide (id' = p_id p)) as [-> | Hne].
  - rewrite Hg.
    match goal with |- context [update_row p_id ?p' _] =>
      replace (get p_id (update_row p_id p' (all_products st)) (p_id p)) with (Some p')
        by (symmetry; apply (get_update_row_same p_id (all_products st) p p'); exact Hg)
    end.
    reflexivity.
  - by rewrite get_update_row_other by (cbn; lia).
Qed.

Lemma get_delete_row_same {A} (key : A -> Z) (rows : list A) (id : Z) :
  get key (delete_row key id rows) id = None.
Proof.
  unfold get, delete_row. induction rows as [|x rows IH]; [done|].
  cbn [List.filter]. destruct (key x =? id) eqn:E; cbn [negb]; [exact IH|].
  cbn [find]. by rewrite E.
Qed.

Lemma get_delete_row_other {A} (key : A -> Z) (rows : list A) (id id' : Z) :
  id' <> id -> get key (delete_row key id rows) id' = get key rows id'.
Proof.
  intros Hne. unfold get, delete_row. induction rows as [|x rows IH]; [done|].
  cbn [List.filter find]. destruct (key x =? id) eqn:E; cbn [negb].
  - apply Z.eqb_eq in E.
    replace (key x =? id') with false by (symmetry; apply Z.eqb_neq; lia). exact IH.
  - cbn [find]. by rewrite IH.
Qed.

Lemma rows_of_without (ts : list Transaction) (id id' : Z) :
  filter (fun t => t_product_id t = id')
    (List.filter (fun t => negb (t_product_id t =? id)) ts)
  = if decide (id' = id) then [] else filter (fun t => t_product_id t = id') ts.
Proof.
  destruct (decide (id' = id)) as [-> | Hne].
  - induction ts as [|t ts IH]; [done|].
    cbn [List.filter]. destruct (t_product_id t =? id) eqn:E; cbn [negb]; [exact IH|].
    apply Z.eqb_neq in E. by rewrite filter_cons_False by done.
  - induction ts as [|t ts IH]; [done|].
    cbn [List.filter]. destruct (t_product_id t =? id) eqn:E; cbn [negb].
    + apply Z.eqb_eq in E. rewrite IH. by rewrite filter_cons_False by lia.
    + destruct (decide (t_product_id t = id')) as [Ht | Ht].
      * rewrite !filter_cons_True by done. by rewrite IH.
      * rewrite !filter_cons_False by done. exact IH.
Qed.

(** X4. Deleting a product is for admins and takes the product's ledger
    with it. For any other user nothing changes. For an admin and an
    existing product, the product and every Transaction row that
    references it are gone, and every other product keeps its quantity and
    its rows. *)
Theorem delete_product_removes_ledger (st : Store) (u : User) (id : Z) (p : Product) :
  get p_id (all_products st) id = Some p ->
  let r := delete_product st u id in
  (is_admin u = false -> r = mkResult st [OnlyAdminsProducts] (Redirect "products")) /\
  (is_admin u = true ->
     stock (r_store r) id = None /\ rows_of (r_store r) id = [] /\
     forall id', id' <> id ->
       stock (r_store r) id' = stock st id' /\ rows_of (r_store r) id' = rows_of st id').
Proof.
  intros Hg. cbn zeta. unfold delete_product. split; intros Ha; rewrite Ha; [done|].
  cbn [negb]. rewrite Hg. pose proof (get_key _ _ _ _ Hg) as Hid. rewrite Hid.
  cbn [r_store]. unfold stock, rows_of. cbn [all_products all_transactions].
  split; [by rewrite get_delete_row_same|]. split.
  - rewrite rows_of_without. by rewrite decide_True.
  - intros id' Hne. rewrite get_delete_row_other by done.
    rewrite rows_of_without. by rewrite decide_False.
Qed.

Lemma delete_row_In {A} (key : A -> Z) (rows : list A) (id : Z) (x : A) :
  In x rows -> key x <> id -> In x (delete_row key id rows).
Proof.
  intros Hin Hne. unfold delete_row. apply filter_In. split; [done|].
  apply negb_true_iff, Z.eqb_neq. done.
Qed.

(** X5. A category or a supplier that some product references is never
    deleted: whoever asks and whichever id is given, a category (supplier)
    referenced by a product before the request is still there after it,
    and the products are untouched. *)
Theorem delete_keeps_referenced (st : Store) (u : User) (id : Z) (p : Product) :
  In p (all_products st) ->
  (forall c, In c (all_categories st) -> p_category_id p = Some (c_id c) ->
     In c (all_categories (r_store (delete_category st u id))) /\
     all_products (r_store (delete_category st u id)) = all_products st) /\
  (forall s, In s (all_suppliers st) -> p_supplier_id p = Some (s_id s) ->
     In s (all_suppliers (r_store (delete_supplier st u id))) /\
     all_products (r_store (delete_supplier st u id)) = all_products st).
Proof.
  intros Hp. split.
  - intros c Hc Href. unfold delete_category.
    destruct (negb (is_admin u)); [done|].
    destruct (get c_id (all_categories st) id) as [c0|] eqn:Hg; [|done].
    pose proof (get_key _ _ _ _ Hg) as Hid.
    destruct (0 <? length (category_products st c0))%nat eqn:E; [done|].
    cbn [r_store with_categories all_categories all_products]. split; [|done].
    apply delete_row_In; [done|]. intros Heq.
    apply Nat.ltb_ge in E. assert (Hin : In p (category_products st c0)).
    { unfold category_products. apply filter_In. split; [done|].
      apply bool_decide_eq_true. rewrite Href. f_equal. lia. }
    destruct (category_products st c0); [done|cbn in E; lia].
  - intros s Hs Href. unfold delete_supplier.
    destruct (negb (is_admin u)); [done|].
    destruct (get s_id (all_suppliers st) id) as [s0|] eqn:Hg; [|done].
    pose proof (get_key _ _ _ _ Hg) as Hid.
    destruct (0 <? length (supplier_products st s0))%nat eqn:E; [done|].
    cbn [r_store with_suppliers all_suppliers all_products]. split; [|done].
    apply delete_row_In; [done|]. intros Heq.
    apply Nat.ltb_ge in E. assert (Hin : In p (supplier_products st s0)).
    { unfold supplier_products. apply filter_In. split; [done|].
      apply bool_decide_eq_true. rewrite Href. f_equal. lia. }
    destruct (supplier_products st s0); [done|cbn in E; lia].
Qed.

(** ** Keys of the tables *)

Lemma next_id_bound {A} (key : A -> Z) (rows : list A) (x : A) :
  x ∈ rows -> key x < next_id key rows.
Proof.
  unfold next_id. induction rows as [|y rows IH]; [by intros ?%elem_of_nil|].
  intros [-> | Hin]%elem_of_cons; cbn [fold_right]; [lia|].
  specialize (IH Hin). lia.
Qed.

Lemma next_id_fresh {A} (key : A -> Z) (rows : list A) :
  next_id key rows ∉ key <$> rows.
Proof.
  intros (x & Heq & Hin)%list_elem_of_fmap.
  pose proof (next_id_bound key rows x Hin). lia.
Qed.

Lemma NoDup_snoc {A} (l : list A) (x : A) : NoDup l -> x ∉ l -> NoDup (l ++ [x]).
Proof.
  intros Hl Hx. apply NoDup_app. split; [done|]. split; [|apply NoDup_singleton].
  intros y Hy ->%list_elem_of_singleton. done.
Qed.

Lemma first_by_None_inv {A} (field : A -> string) (l : list A) (v : string) :
  first_by field l v = None -> v ∉ field <$> l.
Proof.
  unfold first_by. intros Hf (x & -> & Hin)%list_elem_of_fmap.
  apply list_elem_of_In in Hin.
  pose proof (find_none _ _ Hf x Hin) as Hx. cbn in Hx.
  by rewrite String.eqb_refl in Hx.
Qed.

Lemma update_row_keys {A} (key : A -> Z) (r' : A) (rows : list A) :
  key <$> update_row key r' rows = key <$> rows.
Proof.
  unfold update_row. induction rows as [|x rows IH]; [done|].
  cbn [map]. rewrite !fmap_cons, IH. destruct (key x =? key r') eqn:E; [|done].
  apply Z.eqb_eq in E. by rewrite E.
Qed.

Lemma update_row_absent {A} (key : A -> Z) (r' : A) (rows : list A) :
  key r' ∉ key <$> rows -> update_row key r' rows = rows.
Proof.
  unfold update_row. induction rows as [|x rows IH]; [done|].
  rewrite fmap_cons. intros [Hx Hrows]%not_elem_of_cons. cbn [map].
  rewrite IH by done. by rewrite (proj2 (Z.eqb_neq _ _)).
Qed.

Lemma update_row_elem {A} (key : A -> Z) (r' : A) (rows : list A) (x : A) :
  x ∈ update_row key r' rows -> x = r' \/ (x ∈ rows /\ key x <> key r').
Proof.
  unfold update_row. induction rows as [|y rows IH]; [by intros ?%elem_of_nil|].
  cbn [map]. intros [-> | Hin]%elem_of_cons.
  - destruct (key y =? key r') eqn:E; [by left|].
    right. split; [by left|]. by apply Z.eqb_neq.
  - destruct (IH Hin) as [-> | [Hx Hk]]; [by left|]. right. split; [by right|done].
Qed.

Lemma update_row_NoDup_field {A B} (key : A -> Z) (g : A -> B) (r' : A) (rows : list A) :
  NoDup (key <$> rows) ->
  NoDup (g <$> rows) ->
  (forall x, x ∈ rows -> key x <> key r' -> g x <> g r') ->
  NoDup (g <$> update_row key r' rows).
Proof.
  induction rows as [|x rows IH]; [done|].
  rewrite !fmap_cons. intros [Hkx Hk]%NoDup_cons [Hgx Hg]%NoDup_cons Hfresh.
  change (update_row key r' (x :: rows))
    with ((if key x =? key r' then r' else x) :: update_row key r' rows).
  rewrite fmap_cons. destruct (key x =? key r') eqn:E.
  - apply Z.eqb_eq in E. rewrite update_row_absent by (by rewrite <- E).
    apply NoDup_cons. split; [|done].
    intros (y & Hy & Hin)%list_elem_of_fmap.
    apply (Hfresh y); [by right| |done].
    intros Hky. apply Hkx. rewrite E, <- Hky. by apply list_elem_of_fmap_2.
  - apply Z.eqb_neq in E. apply NoDup_cons. split.
    + intros (y & Hy & Hin)%list_elem_of_fmap.
      destruct (update_row_elem _ _ _ _ Hin) as [-> | [Hin' _]].
      * by apply (Hfresh x); [left| |].
      * apply Hgx. rewrite Hy. by apply list_elem_of_fmap_2.
    + apply IH; [done|done|]. intros y Hy. apply Hfresh. by right.
Qed.

Lemma filter_fmap_NoDup {A B} (g : A -> B) (P : A -> bool) (rows : list A) :
  NoDup (g <$> rows) -> NoDup (g <$> List.filter P rows).
Proof.
  induction rows as [|x rows IH]; [done|].
  rewrite fmap_cons. intros [Hx Hrows]%NoDup_cons. cbn [List.filter].
  destruct (P x); [|by apply IH].
  rewrite fmap_cons. apply NoDup_cons. split; [|by apply IH].
  intros (y & Hy & Hin)%list_elem_of_fmap. apply Hx. rewrite Hy.
  apply list_elem_of_fmap_2. apply list_elem_of_In.
  apply list_elem_of_In in Hin. by apply filter_In in Hin as [? _].
Qed.

Lemma NoDup_fmap_eq {A B} (g : A -> B) (rows : list A) (x y : A) :
  NoDup (g <$> rows) -> x ∈ rows -> y ∈ rows -> g x = g y -> x = y.
Proof.
  induction rows as [|z rows IH]; [by intros _ ?%elem_of_nil|].
  rewrite fmap_cons. intros [Hz Hrows]%NoDup_cons Hx Hy Hg.
  apply elem_of_cons in Hx as [-> | Hx]; apply elem_of_cons in Hy as [-> | Hy].
  - done.
  - destruct Hz. rewrite Hg. by apply list_elem_of_fmap_2.
  - destruct Hz. rewrite <- Hg. by apply list_elem_of_fmap_2.
  - by apply IH.
Qed.

(** ** The catalog keeps its keys apart *)

Lemma get_elem {A} (key : A -> Z) (rows : list A) (id : Z) (r : A) :
  get key rows id = Some r -> r ∈ rows.
Proof. unfold get. intros Hf. apply find_some in Hf as [Hin _]. by apply list_elem_of_In. Qed.

(** Replacing the row of [r] by a row of the same key whose field [g] is
    the old one or a new one keeps the fields apart. *)
Lemma update_row_distinct {A} (key : A -> Z) (g : A -> string) (r r' : A) (rows : list A) :
  NoDup (key <$> rows) -> NoDup (g <$> rows) ->
  r ∈ rows -> key r' = key r ->
  g r' = g r \/ g r' ∉ g <$> rows ->
  NoDup (g <$> update_row key r' rows).
Proof.
  intros Hk Hg Hr Hkey Hfield. apply update_row_NoDup_field; [done|done|].
  intros x Hx Hne Heq. destruct Hfield as [Hsame | Hnew].
  - apply Hne. rewrite Hkey. f_equal.
    apply (NoDup_fmap_eq g rows x r Hg Hx Hr). by rewrite Heq.
  - apply Hnew. rewrite <- Heq. by apply list_elem_of_fmap_2.
Qed.

Lemma add_product_distinct st u now m f :
  catalog_distinct (all_products st) (all_categories st) ->
  catalog_distinct (all_products (r_store (add_product st u now m f)))
    (all_categories (r_store (add_product st u now m f))).
Proof.
  intros (Hid & Hsku & Hc). unfold add_product. destruct m; [done|].
  destruct (form_float f "purchase_price" 0); [|done].
  destruct (form_float f "selling_price" 0); [|done].
  destruct (form_int f "quantity" 0); [|done].
  destruct (form_int f "reorder_level" 10); [|done].
  destruct (f !! "sku") as [sku|] eqn:Es; cbn [mbind option_bind].
  2: { by destruct (f !! "name"). }
  destruct (first_by p_sku (all_products st) sku) eqn:Ef; [done|].
  destruct (f !! "name"); [|done].
  destruct (form_key f "category_id"); [|done].
  destruct (form_key f "supplier_id"); [|done].
  cbn [r_store all_products all_categories]. split; [|split; [|done]].
  - rewrite fmap_app. apply NoDup_snoc; [done|]. apply next_id_fresh.
  - rewrite fmap_app. apply NoDup_snoc; [done|]. by apply first_by_None_inv.
Qed.

Lemma edit_product_distinct st id m f :
  catalog_distinct (all_products st) (all_categories st) ->
  catalog_distinct (all_products (r_store (edit_product st id m f)))
    (all_categories (r_store (edit_product st id m f))).
Proof.
  intros (Hid & Hsku & Hc). unfold edit_product.
  destruct (get p_id (all_products st) id) as [p|] eqn:Hg; [|done].
  destruct m; [done|].
  destruct (f !! "name") as [name|]; [|done].
  destruct (f !! "sku") as [new_sku|]; [|done].
  destruct (bool_decide (new_sku <> p_sku (set_name p name))) eqn:Ed.
  - destruct (first_by p_sku (all_products st) new_sku) eqn:Ef; [done|].
    destruct (form_float f "purchase_price" 0); [|done].
    destruct (form_float f "selling_price" 0); [|done].
    destruct (form_int f "reorder_level" 10); [|done].
    destruct (form_ref f "category_id"); [|done].
    destruct (form_ref f "supplier_id"); [|done].
    cbn [r_store with_products all_products all_categories].
    split; [by rewrite update_row_keys|]. split; [|done].
    apply (update_row_distinct p_id p_sku p); [done|done|by eapply get_elem|done|].
    right. by apply first_by_None_inv.
  - apply bool_decide_eq_false in Ed. apply dec_stable in Ed.
    destruct (form_float f "purchase_price" 0); [|done].
    destruct (form_float f "selling_price" 0); [|done].
    destruct (form_int f "reorder_level" 10); [|done].
    destruct (form_ref f "category_id"); [|done].
    destruct (form_ref f "supplier_id"); [|done].
    cbn [r_store with_products all_products all_categories].
    split; [by rewrite update_row_keys|]. split; [|done].
    apply (update_row_distinct p_id p_sku p); [done|done|by eapply get_elem|done|].
    left. exact Ed.
Qed.

Lemma update_stock_distinct st u now id m f :
  catalog_distinct (all_products st) (all_categories st) ->
  catalog_distinct (all_products (r_store (update_stock st u now id m f)))
    (all_categories (r_store (update_stock st u now id m f))).
Proof.
  intros (Hid & Hsku & Hc).
  destruct (update_stock_store st u now id m f)
    as [-> | (p & ty & delta & q & notes & Hg & ->)]; [done|].
  unfold moved. cbn [all_products all_categories].
  split; [by rewrite update_row_keys|]. split; [|done].
  apply (update_row_distinct p_id p_sku p); [done|done|by eapply get_elem|done|by left].
Qed.

Lemma delete_product_distinct st u id :
  catalog_distinct (all_products st) (all_categories st) ->
  catalog_distinct (all_products (r_store (delete_product st u id)))
    (all_categories (r_store (delete_product st u id))).
Proof.
  intros (Hid & Hsku & Hc). unfold delete_product.
  destruct (negb (is_admin u)); [done|].
  destruct (get p_id (all_products st) id); [|done].
  cbn [r_store all_products all_categories]. unfold delete_row.
  split; [by apply filter_fmap_NoDup|]. split; [by apply filter_fmap_NoDup|done].
Qed.

Lemma add_category_distinct st f :
  catalog_distinct (all_products st) (all_categories st) ->
  catalog_distinct (all_products (r_store (add_category st f)))
    (all_categories (r_store (add_category st f))).
Proof.
  intros (Hid & Hsku & Hcid & Hcn). unfold add_category.
  destruct (f !! "name") as [name|]; [|done].
  destruct (first_by c_name (all_categories st) name) eqn:Ef; [done|].
  cbn [r_store with_categories all_products all_categories].
  split; [done|]. split; [done|]. split.
  - rewrite fmap_app. apply NoDup_snoc; [done|]. apply next_id_fresh.
  - rewrite fmap_app. apply NoDup_snoc; [done|]. by apply first_by_None_inv.
Qed.

Lemma edit_category_distinct st id f :
  catalog_distinct (all_products st) (all_categories st) ->
  catalog_distinct (all_products (r_store (edit_category st id f)))
    (all_categories (r_store (edit_category st id f))).
Proof.
  intros (Hid & Hsku & Hcid & Hcn). unfold edit_category.
  destruct (get c_id (all_categories st) id) as [c|] eqn:Hg; [|done].
  destruct (f !! "name") as [name|]; [|done].
  destruct (bool_decide (name <> c_name c)) eqn:Ed.
  - destruct (first_by c_name (all_categories st) name) eqn:Ef; [done|].
    cbn [r_store with_categories all_products all_categories].
    split; [done|]. split; [done|]. split; [by rewrite update_row_keys|].
    apply (update_row_distinct c_id c_name c); [done|done|by eapply get_elem|done|].
    right. by apply first_by_None_inv.
  - apply bool_decide_eq_false in Ed. apply dec_stable in Ed.
    cbn [r_store with_categories all_products all_categories].
    split; [done|]. split; [done|]. split; [by rewrite update_row_keys|].
    apply (update_row_distinct c_id c_name c); [done|done|by eapply get_elem|done|].
    by left.
Qed.

Lemma delete_category_distinct st u id :
  catalog_distinct (all_products st) (all_categories st) ->
  catalog_distinct (all_products (r_store (delete_category st u id)))
    (all_categories (r_store (delete_category st u id))).
Proof.
  intros (Hid & Hsku & Hcid & Hcn). unfold delete_category.
  destruct (negb (is_admin u)); [done|].
  destruct (get c_id (all_categories st) id) as [c|]; [|done].
  destruct (0 <? length (category_products st c))%nat; [done|].
  cbn [r_store with_categories all_products all_categories]. unfold delete_row.
  split; [done|]. split; [done|]. split; by apply filter_fmap_NoDup.
Qed.

Lemma supplier_handlers_keep_catalog st :
  (forall m f, all_products (r_store (add_supplier st m f)) = all_products st /\
               all_categories (r_store (add_supplier st m f)) = all_categories st) /\
  (forall id m f, all_products (r_store (edit_supplier st id m f)) = all_products st /\
                  all_categories (r_store (edit_supplier st id m f)) = all_categories st) /\
  (forall u id, all_products (r_store (delete_supplier st u id)) = all_products st /\
                all_categories (r_store (delete_supplier st u id)) = all_categories st).
Proof.
  split; [|split].
  - intros m f. unfold add_supplier. destruct m; [done|]. by destruct (f !! "name").
  - intros id m f. unfold edit_supplier.
    destruct (get s_id (all_suppliers st) id); [|done].
    destruct m; [done|]. by destruct (f !! "name").
  - intros u id. unfold delete_supplier. destruct (negb (is_admin u)); [done|].
    destruct (get s_id (all_suppliers st) id) as [s|]; [|done].
    by destruct (0 <? length (supplier_products st s))%nat.
Qed.

Lemma upsert_category_distinct st n :
  catalog_distinct (all_products st) (all_categories st) ->
  catalog_distinct (all_products (upsert_category st n).1)
    (all_categories (upsert_category st n).1).
Proof.
  intros (Hid & Hsku & Hcid & Hcn). unfold upsert_category.
  destruct (Py.truthy n); [|done].
  destruct (first_by c_name (all_categories st) n) eqn:Ef; [done|].
  cbn [fst with_categories all_products all_categories].
  split; [done|]. split; [done|]. split.
  - rewrite fmap_app. apply NoDup_snoc; [done|]. apply next_id_fresh.
  - rewrite fmap_app. apply NoDup_snoc; [done|]. by apply first_by_None_inv.
Qed.

Lemma upsert_supplier_distinct st n :
  catalog_distinct (all_products st) (all_categories st) ->
  catalog_distinct (all_products (upsert_supplier st n).1)
    (all_categories (upsert_supplier st n).1).
Proof.
  intros HJ. destruct (upsert_supplier_products st n) as (-> & -> & _). done.
Qed.

(** One row of an import: the products are as before or one longer, by a
    product whose SKU was not there. *)
Lemma import_row_products now s r :
  all_products (i_store (import_row now s r)) = all_products (i_store s) \/
  exists p, all_products (i_store (import_row now s r)) = all_products (i_store s) ++ [p] /\
            p_id p = next_id p_id (all_products (i_store s)) /\
            (p_sku p ∉ p_sku <$> all_products (i_store s)) /\
            row_sku r = inr (p_sku p) /\ imported (import_row now s r) = imported s + 1.
Proof.
  unfold import_row, row_sku.
  destruct (val_strip (row_get r "SKU" "sku" (PyStr ""))) as [e|sku]; [by left|].
  destruct (negb (Py.truthy sku)); [by left|].
  destruct (first_by p_sku (all_products (i_store s)) sku) eqn:Ef; [by left|].
  destruct (val_strip (row_get r "Name" "name" (PyStr ""))) as [e|name]; [by left|].
  destruct (negb (Py.truthy name)); [by left|].
  destruct (val_strip (row_get r "Category" "category" (PyStr ""))) as [e|cn]; [by left|].
  pose proof (upsert_category_products (i_store s) cn) as (Hc & _ & _).
  destruct (upsert_category (i_store s) cn) as [st1 c]. cbn [fst] in Hc.
  destruct (val_strip (row_get r "Supplier" "supplier" (PyStr ""))) as [e|sn];
    [left; exact Hc|].
  pose proof (upsert_supplier_products st1 sn) as (Hs & _ & _).
  destruct (upsert_supplier st1 sn) as [st2 su]. cbn [fst] in Hs.
  destruct (val_float (row_get r "Purchase Price" "purchase_price" (PyInt 0)) 0);
    [left; cbn; congruence|].
  destruct (val_float (row_get r "Selling Price" "selling_price" (PyInt 0)) 0);
    [left; cbn; congruence|].
  destruct (val_int (row_get r "Quantity" "quantity" (PyInt 0)) 0);
    [left; cbn; congruence|].
  destruct (val_int (row_get r "Reorder Level" "reorder_level" (PyInt 10)) 10);
    [left; cbn; congruence|].
  right. eexists. cbn [i_store with_products all_products imported].
  rewrite Hs, Hc. split; [reflexivity|]. cbn [p_id p_sku].
  split; [done|]. split; [by apply first_by_None_inv|done].
Qed.

(** One row of an import: the categories only grow, and keep their keys
    apart. *)
Lemma import_row_distinct now s r :
  catalog_distinct (all_products (i_store s)) (all_categories (i_store s)) ->
  catalog_distinct (all_products (i_store (import_row now s r)))
    (all_categories (i_store (import_row now s r))).
Proof.
  intros HJ.
  assert (Hp : NoDup (p_id <$> all_products (i_store (import_row now s r))) /\
               NoDup (p_sku <$> all_products (i_store (import_row now s r)))).
  { destruct HJ as (Hid & Hsku & _).
    destruct (import_row_products now s r) as [-> | (p & -> & Hpid & Hfresh & _)]; [done|].
    rewrite !fmap_app. split; apply NoDup_snoc; try done.
    cbn. rewrite Hpid. apply next_id_fresh. }
  destruct Hp as [Hp1 Hp2]. split; [done|]. split; [done|].
  clear Hp1 Hp2. unfold import_row.
  destruct (val_strip (row_get r "SKU" "sku" (PyStr ""))) as [e|sku]; [apply HJ|].
  destruct (negb (Py.truthy sku)); [apply HJ|].
  destruct (first_by p_sku (all_products (i_store s)) sku); [apply HJ|].
  destruct (val_strip (row_get r "Name" "name" (PyStr ""))) as [e|name]; [apply HJ|].
  destruct (negb (Py.truthy name)); [apply HJ|].
  destruct (val_strip (row_get r "Category" "category" (PyStr ""))) as [e|cn]; [apply HJ|].
  pose proof (upsert_category_distinct (i_store s) cn HJ) as HJ1.
  destruct (upsert_category (i_store s) cn) as [st1 c]. cbn [fst] in HJ1.
  destruct (val_strip (row_get r "Supplier" "supplier" (PyStr ""))) as [e|sn];
    [apply HJ1|].
  pose proof (upsert_supplier_distinct st1 sn HJ1) as HJ2.
  destruct (upsert_supplier st1 sn) as [st2 su]. cbn [fst] in HJ2.
  destruct (val_float (row_get r "Purchase Price" "purchase_price" (PyInt 0)) 0);
    [apply HJ2|].
  destruct (val_float (row_get r "Selling Price" "selling_price" (PyInt 0)) 0);
    [apply HJ2|].
  destruct (val_int (row_get r "Quantity" "quantity" (PyInt 0)) 0); [apply HJ2|].
  destruct (val_int (row_get r "Reorder Level" "reorder_level" (PyInt 10)) 10);
    [apply HJ2|].
  apply HJ2.
Qed.

Lemma import_rows_distinct now rows s :
  catalog_distinct (all_products (i_store s)) (all_categories (i_store s)) ->
  catalog_distinct (all_products (i_store (foldl (import_row now) s rows)))
    (all_categories (i_store (foldl (import_row now) s rows))).
Proof.
  revert s. induction rows as [|r rows IH]; intros s HJ; [done|].
  cbn [foldl]. apply IH. by apply import_row_distinct.
Qed.

Lemma import_products_distinct st u now m file :
  catalog_distinct (all_products st) (all_categories st) ->
  catalog_distinct (all_products (r_store (ir_result (import_products st u now m file))))
    (all_categories (r_store (ir_result (import_products st u now m file)))).
Proof.
  intros HJ. unfold import_products.
  destruct (negb (is_admin u)); [done|]. destruct m; [done|].
  destruct file as [file|]; [|done].
  destruct (String.eqb (filename file) ""); [done|].
  destruct (negb (Py.endswith (filename file) ".csv")); [done|].
  destruct (records file) as [t|]; [|done]. destruct (negb (within_field_limit t)); [done|].
  cbn [ir_result r_store]. by apply import_rows_distinct.
Qed.

Lemma serve_distinct st rq :
  catalog_distinct (all_products st) (all_categories st) ->
  catalog_distinct (all_products (serve st rq)) (all_categories (serve st rq)).
Proof.
  intros HJ. destruct (supplier_handlers_keep_catalog st) as (Ha & He & Hd).
  destruct rq; cbn [serve].
  - by apply add_product_distinct.
  - by apply edit_product_distinct.
  - by apply delete_product_distinct.
  - by apply update_stock_distinct.
  - by apply add_category_distinct.
  - by apply edit_category_distinct.
  - by apply delete_category_distinct.
  - destruct (Ha m f) as [-> ->]. done.
  - destruct (He id m f) as [-> ->]. done.
  - destruct (Hd current_user id) as [-> ->]. done.
  - by apply import_products_distinct.
Qed.

Lemma serve_all_distinct rqs st :
  catalog_distinct (all_products st) (all_categories st) ->
  catalog_distinct (all_products (serve_all st rqs)) (all_categories (serve_all st rqs)).
Proof.
  revert st. induction rqs as [|rq rqs IH]; intros st HJ; [done|].
  cbn [serve_all foldl]. apply IH. by apply serve_distinct.
Qed.

(** X6. SKUs stay unique. Whatever requests the handlers serve from the
    empty store on (creations, edits, deletions, stock movements,
    imports, by any user and with any form), no two products of the
    catalog have the same SKU or the same id. *)
Theorem sku_unique_in_every_reachable_store (rqs : list request) :
  NoDup (p_sku <$> all_products (serve_all empty_store rqs)) /\
  NoDup (p_id <$> all_products (serve_all empty_store rqs)).
Proof.
  destruct (serve_all_distinct rqs empty_store) as (Hid & Hsku & _).
  - repeat split; constructor.
  - done.
Qed.

(** X7. Category names stay unique. Whatever requests the handlers serve
    from the empty store on, the import with its categories made on the
    fly included, no two categories have the same name or the same id. *)
Theorem category_name_unique_in_every_reachable_store (rqs : list request) :
  NoDup (c_name <$> all_categories (serve_all empty_store rqs)) /\
  NoDup (c_id <$> all_categories (serve_all empty_store rqs)).
Proof.
  destruct (serve_all_distinct rqs empty_store) as (_ & _ & Hid & Hn).
  - repeat split; constructor.
  - done.
Qed.

(** ** The ledger accounts for the stock *)

Lemma sum_signed_app (a b : list Transaction) :
  fold_right Z.add 0 (signed <$> (a ++ b))
  = fold_right Z.add 0 (signed <$> a) + fold_right Z.add 0 (signed <$> b).
Proof.
  induction a as [|t a IH]; [cbn; lia|].
  cbn [app]. rewrite !fmap_cons. cbn [fold_right]. rewrite IH. lia.
Qed.

Lemma filter_none_of (ts : list Transaction) (id : Z) :
  Forall (fun t => t_product_id t <> id) ts ->
  filter (fun t => t_product_id t = id) ts = [].
Proof.
  induction 1 as [|t ts Ht _ IH]; [done|]. by rewrite filter_cons_False.
Qed.

(** The store an accepted movement leaves, with the row it appends. *)
Lemma update_stock_store_signed (st : Store) (u : User) (now : datetime) (id : Z)
    (m : method) (f : form) :
  r_store (update_stock st u now id m f) = st \/
  exists p t,
    get p_id (all_products st) id = Some p /\ t_product_id t = p_id p /\
    r_store (update_stock st u now id m f)
      = mkStore (update_row p_id (set_quantity p (p_quantity p + signed t)) (all_products st))
          (all_categories st) (all_suppliers st) (all_transactions st ++ [t]).
Proof.
  unfold update_stock.
  destruct (get p_id (all_products st) id) as [p|] eqn:Hg; [|by left].
  destruct m; [by left|].
  destruct (form_int f "quantity" 0) as [q|]; [|by left].
  destruct (q <=? 0); [by left|].
  destruct (bool_decide (f !! "action" = Some "sale") && (p_quantity p <? q)); [by left|].
  right. exists p.
  destruct (bool_decide (f !! "action" = Some "purchase")).
  - exists (mkTransaction (next_id t_id (all_transactions st)) (p_id p) "purchase" q
              (Some (default "" (f !! "notes"))) (Some (u_id u)) now).
    split; [done|]. split; reflexivity.
  - exists (mkTransaction (next_id t_id (all_transactions st)) (p_id p) "sale" q
              (Some (default "" (f !! "notes"))) (Some (u_id u)) now).
    split; [done|]. split; reflexivity.
Qed.

Lemma add_product_accounts st u now m f :
  through_ledger (AddProduct u now m f) = true ->
  ledger_accounts (all_products st) (all_transactions st) ->
  ledger_accounts (all_products (r_store (add_product st u now m f)))
    (all_transactions (r_store (add_product st u now m f))).
Proof.
  intros Hq (Hid & Href & Hsum). unfold add_product. destruct m; [done|].
  destruct (form_float f "purchase_price" 0); [|done].
  destruct (form_float f "selling_price" 0); [|done].
  cbn [through_ledger] in Hq.
  destruct (form_int f "quantity" 0) as [q|]; [|done]. apply Z.leb_le in Hq.
  destruct (form_int f "reorder_level" 10); [|done].
  destruct (f !! "sku" ≫= first_by p_sku (all_products st)); [done|].
  destruct (f !! "name"); [|done].
  destruct (f !! "sku"); [|done].
  destruct (form_key f "category_id"); [|done].
  destruct (form_key f "supplier_id"); [|done].
  cbn [r_store all_products all_transactions p_id].
  set (n := next_id p_id (all_products st)).
  assert (Hn : n ∉ p_id <$> all_products st) by apply next_id_fresh.
  assert (Hnone : filter (fun t => t_product_id t = n) (all_transactions st) = []).
  { apply filter_none_of. eapply Forall_impl; [exact Href|].
    intros t Ht Heq. cbn in Ht. apply Hn. rewrite <- Heq. by apply list_elem_of_In. }
  split; [|split].
  - rewrite fmap_app. by apply NoDup_snoc.
  - apply Forall_app. split.
    + eapply Forall_impl; [exact Href|]. intros t Ht. cbn in Ht |- *.
      rewrite fmap_app. apply in_or_app. by left.
    + destruct (0 <? q); [|constructor]. constructor; [|constructor].
      cbn. rewrite fmap_app. apply in_or_app. right. by left.
  - apply Forall_app. split.
    + rewrite Forall_forall in Hsum |- *. intros p Hp. rewrite (Hsum p Hp).
      rewrite filter_app, sum_signed_app.
      assert (Hne : p_id p <> n).
      { intros Heq. apply Hn. rewrite <- Heq. by apply list_elem_of_fmap_2. }
      destruct (0 <? q); [|cbn; lia].
      rewrite filter_cons_False by (cbn; lia). cbn. lia.
    + constructor; [|constructor]. cbn [p_quantity p_id].
      rewrite filter_app, sum_signed_app, Hnone.
      destruct (0 <? q) eqn:E.
      * rewrite filter_cons_True by done. cbn. lia.
      * apply Z.ltb_ge in E. cbn. lia.
Qed.

Lemma update_stock_accounts st u now id m f :
  ledger_accounts (all_products st) (all_transactions st) ->
  ledger_accounts (all_products (r_store (update_stock st u now id m f)))
    (all_transactions (r_store (update_stock st u now id m f))).
Proof.
  intros (Hid & Href & Hsum).
  destruct (update_stock_store_signed st u now id m f)
    as [-> | (p & t & Hg & Ht & ->)]; [done|].
  cbn [all_products all_transactions].
  pose proof (get_elem _ _ _ _ Hg) as Hp.
  rewrite Forall_forall in Hsum.
  split; [by rewrite update_row_keys|]. split.
  - rewrite update_row_keys. apply Forall_app. split; [done|].
    constructor; [|constructor]. rewrite Ht. apply list_elem_of_In.
    by apply list_elem_of_fmap_2.
  - rewrite Forall_forall. intros x Hx.
    destruct (update_row_elem _ _ _ _ Hx) as [-> | [Hx' Hne]].
    + cbn [p_quantity p_id set_quantity]. rewrite filter_app, sum_signed_app.
      rewrite filter_cons_True by done. rewrite <- (Hsum p Hp). cbn. lia.
    + cbn [p_id set_quantity] in Hne. rewrite filter_app, sum_signed_app.
      rewrite filter_cons_False by (rewrite Ht; done).
      rewrite (Hsum x Hx'). cbn. lia.
Qed.

Lemma edit_product_accounts st id m f :
  ledger_accounts (all_products st) (all_transactions st) ->
  ledger_accounts (all_products (r_store (edit_product st id m f)))
    (all_transactions (r_store (edit_product st id m f))).
Proof.
  intros (Hid & Href & Hsum). unfold edit_product.
  destruct (get p_id (all_products st) id) as [p|] eqn:Hg; [|done].
  destruct m; [done|].
  destruct (f !! "name") as [name|]; [|done].
  destruct (f !! "sku") as [new_sku|]; [|done].
  destruct (if bool_decide (new_sku <> p_sku (set_name p name))
            then first_by p_sku (all_products st) new_sku else None); [done|].
  destruct (form_float f "purchase_price" 0); [|done].
  destruct (form_float f "selling_price" 0); [|done].
  destruct (form_int f "reorder_level" 10); [|done].
  destruct (form_ref f "category_id"); [|done].
  destruct (form_ref f "supplier_id"); [|done].
  cbn [r_store with_products all_products all_transactions].
  pose proof (get_elem _ _ _ _ Hg) as Hp. rewrite Forall_forall in Hsum.
  split; [by rewrite update_row_keys|]. split; [by rewrite update_row_keys|].
  rewrite Forall_forall. intros x Hx.
  destruct (update_row_elem _ _ _ _ Hx) as [-> | [Hx' Hne]].
  - cbn [p_quantity p_id set_name]. by apply Hsum.
  - by apply Hsum.
Qed.

Lemma delete_product_accounts st u id :
  ledger_accounts (all_products st) (all_transactions st) ->
  ledger_accounts (all_products (r_store (delete_product st u id)))
    (all_transactions (r_store (delete_product st u id))).
Proof.
  intros (Hid & Href & Hsum). unfold delete_product.
  destruct (negb (is_admin u)); [done|].
  destruct (get p_id (all_products st) id) as [p|] eqn:Hg; [|done].
  pose proof (get_key _ _ _ _ Hg) as Hk. rewrite Hk.
  cbn [r_store all_products all_transactions]. unfold delete_row.
  split; [by apply filter_fmap_NoDup|]. split.
  - rewrite List.Forall_forall in Href |- *. intros t [Hin Hne]%filter_In.
    apply negb_true_iff, Z.eqb_neq in Hne.
    specialize (Href t Hin). cbn in Href |- *.
    apply in_map_iff in Href as (x & Hx & Hxin). apply in_map_iff.
    exists x. split; [done|]. apply filter_In. split; [done|].
    apply negb_true_iff, Z.eqb_neq. lia.
  - rewrite List.Forall_forall in Hsum |- *. intros x [Hin Hne]%filter_In.
    apply negb_true_iff, Z.eqb_neq in Hne.
    rewrite rows_of_without, decide_False by done. by apply Hsum.
Qed.

(** The handlers of categories and suppliers leave products and ledger
    alone. *)
Lemma catalog_handlers_keep_ledger st rq :
  match rq with
  | AddCategory _ | EditCategory _ _ | DeleteCategory _ _
  | AddSupplier _ _ | EditSupplier _ _ _ | DeleteSupplier _ _ => True
  | _ => False
  end ->
  all_products (serve st rq) = all_products st /\
  all_transactions (serve st rq) = all_transactions st.
Proof.
  destruct rq; try done; intros _; cbn [serve].
  - unfold add_category. destruct (f !! "name"); [|done].
    by destruct (first_by c_name (all_categories st) s).
  - unfold edit_category. destruct (get c_id (all_categories st) id) as [c|]; [|done].
    destruct (f !! "name") as [name|]; [|done].
    by destruct (if bool_decide (name <> c_name c)
                 then first_by c_name (all_categories st) name else None).
  - unfold delete_category. destruct (negb (is_admin current_user)); [done|].
    destruct (get c_id (all_categories st) id) as [c|]; [|done].
    by destruct (0 <? length (category_products st c))%nat.
  - unfold add_supplier. destruct m; [done|]. by destruct (f !! "name").
  - unfold edit_supplier. destruct (get s_id (all_suppliers st) id); [|done].
    destruct m; [done|]. by destruct (f !! "name").
  - unfold delete_supplier. destruct (negb (is_admin current_user)); [done|].
    destruct (get s_id (all_suppliers st) id) as [s|]; [|done].
    by destruct (0 <? length (supplier_products st s))%nat.
Qed.

Lemma serve_accounts st rq :
  through_ledger rq = true ->
  ledger_accounts (all_products st) (all_transactions st) ->
  ledger_accounts (all_products (serve st rq)) (all_transactions (serve st rq)).
Proof.
  intros Hrq HL.
  destruct rq;
    try (match goal with
         | |- context [serve st ?r] =>
             destruct (catalog_handlers_keep_ledger st r I) as [-> ->]; exact HL
         end);
    cbn [serve].
  - by apply add_product_accounts.
  - by apply edit_product_accounts.
  - by apply delete_product_accounts.
  - by apply update_stock_accounts.
  - cbn [through_ledger] in Hrq. discriminate.
Qed.

Lemma serve_all_accounts rqs st :
  forallb through_ledger rqs = true ->
  ledger_accounts (all_products st) (all_transactions st) ->
  ledger_accounts (all_products (serve_all st rqs)) (all_transactions (serve_all st rqs)).
Proof.
  revert st. induction rqs as [|rq rqs IH]; intros st Hall HL; [done|].
  cbn [forallb] in Hall. apply andb_true_iff in Hall as [Hrq Hall].
  cbn [serve_all foldl]. apply IH; [done|]. by apply serve_accounts.
Qed.

(** X8. The ledger accounts for the stock. In every store reached from
    the empty one by requests that go through the ledger (any request but
    an import or the creation of a product with a negative initial
    quantity), the quantity of every product is the sum of its purchase
    rows minus the sum of its sale rows, and every Transaction row
    references a product of the catalog. *)
Theorem ledger_accounts_for_stock (rqs : list request) :
  forallb through_ledger rqs = true ->
  let st := serve_all empty_store rqs in
  (forall p, p ∈ all_products st -> p_quantity p = ledger_sum st (p_id p)) /\
  (forall t, t ∈ all_transactions st ->
     exists p, p ∈ all_products st /\ p_id p = t_product_id t).
Proof.
  intros Hall. cbn zeta.
  destruct (serve_all_accounts rqs empty_store Hall) as (_ & Href & Hsum).
  { split; [constructor|]. split; constructor. }
  split.
  - rewrite Forall_forall in Hsum. exact Hsum.
  - rewrite Forall_forall in Href. intros t Ht. specialize (Href t Ht). cbn in Href.
    apply list_elem_of_In, list_elem_of_fmap in Href as (p & Hp & Hin). by exists p.
Qed.

(** ** Creating products *)

Lemma first_by_snoc {A} (field : A -> string) (l : list A) (x : A) :
  is_Some (first_by field (l ++ [x]) (field x)).
Proof.
  unfold first_by. induction l as [|y l IH]; cbn.
  - rewrite String.eqb_refl. by eexists.
  - destruct (String.eqb (field y) (field x)); [by eexists|exact IH].
Qed.

(** What an accepted creation leaves: the new product at the end of the
    table, with the SKU of the form. *)
Lemma add_product_accepted st u now m f :
  r_response (add_product st u now m f) = Redirect "products" ->
  exists p, f !! "sku" = Some (p_sku p) /\
    all_products (r_store (add_product st u now m f)) = all_products st ++ [p].
Proof.
  unfold add_product. destruct m; [done|].
  destruct (form_float f "purchase_price" 0); [|done].
  destruct (form_float f "selling_price" 0); [|done].
  destruct (form_int f "quantity" 0); [|done].
  destruct (form_int f "reorder_level" 10); [|done].
  destruct (f !! "sku" ≫= first_by p_sku (all_products st)); [done|].
  destruct (f !! "name"); [|done].
  destruct (f !! "sku"); [|done].
  destruct (form_key f "category_id"); [|done].
  destruct (form_key f "supplier_id"); [|done].
  intros _. eexists. split; [|reflexivity]. reflexivity.
Qed.

(** X9. The same SKU cannot be created twice. Once a product has been
    created, any later creation request with the same SKU, by any user and
    with any other fields, leaves the store as it is; it is answered with
    DuplicateSKU, unless one of its numbers does not convert and the
    request fails before the check. *)
Theorem add_product_same_sku_rejected (st : Store) (u u' : User) (now now' : datetime)
    (m : method) (f f' : form) :
  r_response (add_product st u now m f) = Redirect "products" ->
  f' !! "sku" = f !! "sku" ->
  let st1 := r_store (add_product st u now m f) in
  let r := add_product st1 u' now' POST f' in
  r_store r = st1 /\
  (r = mkResult st1 [DuplicateSKU] (Render "product_form.html" None) \/ r = raised st1).
Proof.
  intros Hok Hsku. cbn zeta.
  destruct (add_product_accepted st u now m f Hok) as (p & Hf & Hps).
  set (st1 := r_store (add_product st u now m f)) in *.
  destruct (first_by_snoc p_sku (all_products st) p) as [x Hx].
  unfold add_product.
  destruct (form_float f' "purchase_price" 0); [|by split; [|right]].
  destruct (form_float f' "selling_price" 0); [|by split; [|right]].
  destruct (form_int f' "quantity" 0); [|by split; [|right]].
  destruct (form_int f' "reorder_level" 10); [|by split; [|right]].
  rewrite Hsku, Hf. cbn [mbind option_bind]. rewrite Hps, Hx.
  split; [done|by left].
Qed.

(** ** The product list *)

(** The product list fails exactly when the sort parameter names an
    attribute that is not a column. *)
Lemma products_sortable (st : Store) (a : args) :
  (sortable a = false -> products st a = None) /\
  (sortable a = true -> exists l, products st a = Some l).
Proof.
  unfold sortable, products, sort_column. cbv zeta.
  destruct (product_column (default "name" (a !! "sort"))) as [c|].
  - split; [done|]. intros _. cbn [mbind option_bind]. by eexists.
  - destruct (other_attribute (default "name" (a !! "sort"))); cbn [negb mbind option_bind].
    + split; [done|]. discriminate.
    + split; [discriminate|]. intros _. by eexists.
Qed.

(** The rows the filters of [products] let through. *)
Lemma products_listed (st : Store) (a : args) (l : list Product) :
  products st a = Some l ->
  exists kept, l ≡ₚ kept /\
    (forall p, p ∈ kept <-> p ∈ all_products st /\
       (Py.truthy (default "" (a !! "search")) = true ->
          ilike_contains (p_name p) (default "" (a !! "search"))
          || ilike_contains (p_sku p) (default "" (a !! "search")) = true) /\
       (forall c, args_int a "category" = Some c -> c <> 0 -> p_category_id p = Some c)).
Proof.
  unfold products. cbv zeta.
  destruct (sort_column (default "name" (a !! "sort"))) as [column|]; [|done].
  cbn [mbind option_bind]. intros [= <-].
  set (search := default "" (a !! "search")).
  set (q1 := if Py.truthy search
             then List.filter (fun p => ilike_contains (p_name p) search
                                        || ilike_contains (p_sku p) search) (all_products st)
             else all_products st).
  set (q2 := match args_int a "category" with
             | Some c => if c =? 0 then q1
                         else List.filter (fun p => bool_decide (p_category_id p = Some c)) q1
             | None => q1
             end).
  exists q2. split.
  - destruct (String.eqb (default "asc" (a !! "order")) "desc");
      symmetry; apply order_by_perm.
  - intros p.
    assert (H1 : p ∈ q1 <-> p ∈ all_products st /\
              (Py.truthy search = true ->
               ilike_contains (p_name p) search || ilike_contains (p_sku p) search = true)).
    { unfold q1. destruct (Py.truthy search).
      - rewrite !list_elem_of_In, filter_In. rewrite <- list_elem_of_In. tauto.
      - intuition discriminate. }
    unfold q2. destruct (args_int a "category") as [c|].
    + destruct (c =? 0) eqn:E.
      * apply Z.eqb_eq in E. rewrite H1. split; [|tauto].
        intros [? ?]. split; [done|]. split; [done|]. intros c' [= <-]. lia.
      * apply Z.eqb_neq in E. rewrite list_elem_of_In, filter_In, <- list_elem_of_In.
        rewrite H1, bool_decide_eq_true. split.
        -- intros [[? ?] ?]. split; [done|]. split; [done|]. by intros c' [= <-].
        -- intros (? & ? & Hc). split; [done|]. by apply Hc.
    + rewrite H1. split; [|tauto]. intros [? ?]. split; [done|]. split; [done|]. done.
Qed.

(** X10. The product list fails when the sort parameter names an
    attribute of the class Product that is not a column. Otherwise there
    is a list: it shows products of the catalog only, and it is a
    rearrangement of the whole product table when nothing is searched for
    and no category is chosen (the category 0 counts as none). *)
Theorem products_lists_the_catalog (st : Store) (a : args) :
  (sortable a = false -> products st a = None) /\
  (sortable a = true ->
   exists l, products st a = Some l /\
     (forall p, p ∈ l -> p ∈ all_products st) /\
     (default "" (a !! "search") = "" ->
      args_int a "category" = None \/ args_int a "category" = Some 0 ->
      l ≡ₚ all_products st)).
Proof.
  destruct (products_sortable st a) as [Hfail Hok]. split; [exact Hfail|].
  intros Hsort. destruct (Hok Hsort) as [l Hl]. exists l. split; [done|]. split.
  - destruct (products_listed st a l Hl) as (kept & Hperm & Hkept).
    intros p Hp. rewrite Hperm in Hp. by apply Hkept in Hp as [? _].
  - intros Hs Hc. revert Hl. unfold products. cbv zeta. rewrite Hs. cbn [Py.truthy].
    destruct (sort_column (default "name" (a !! "sort"))) as [column|]; [|done].
    cbn [mbind option_bind]. intros [= <-].
    assert (E : match args_int a "category" with
                | Some c => if c =? 0 then all_products st
                            else List.filter
                                   (fun p => bool_decide (p_category_id p = Some c))
                                   (all_products st)
                | None => all_products st
                end = all_products st) by (by destruct Hc as [-> | ->]).
    rewrite E.
    destruct (String.eqb (default "asc" (a !! "order")) "desc");
      symmetry; apply order_by_perm.
Qed.

(** ** Searching *)

Lemma like_percent_nil (p : string) : like (String "%" p) "" = like p "".
Proof. cbn. by rewrite orb_false_r. Qed.

Lemma like_percent_cons (p : string) (c : ascii) (s : string) :
  like (String "%" p) (String c s) = like p (String c s) || like (String "%" p) s.
Proof. reflexivity. Qed.

Lemma like_underscore (p : string) (s : string) :
  like (String "_" p) s = match s with EmptyString => false | String _ s' => like p s' end.
Proof. reflexivity. Qed.

(** A pattern character that is no wildcard stands for itself, whatever
    its case. *)
Lemma like_other (c : ascii) (p s : string) :
  c <> "%"%char -> c <> "_"%char ->
  like (String c p) s
  = match s with
    | EmptyString => false
    | String d s' => Ascii.eqb (lower c) (lower d) && like p s'
    end.
Proof.
  intros H1 H2.
  destruct c as [[] [] [] [] [] [] [] []]; try reflexivity; by destruct H1 || by destruct H2.
Qed.

Lemma wildcard_dec (c : ascii) :
  {c = "%"%char} + {c = "_"%char} + {c <> "%"%char /\ c <> "_"%char}.
Proof.
  destruct (ascii_dec c "%") as [-> | H1]; [by left; left|].
  destruct (ascii_dec c "_") as [-> | H2]; [by left; right|]. by right.
Qed.








Lemma lower_idem (c : ascii) : lower (lower c) = lower c.
Proof. by destruct c as [[] [] [] [] [] [] [] []]. Qed.

Lemma lower_wildcard (c : ascii) :
  c <> "%"%char /\ c <> "_"%char -> lower c <> "%"%char /\ lower c <> "_"%char.
Proof.
  intros [H1 H2].
  destruct c as [[] [] [] [] [] [] [] []]; (split; [try discriminate|try discriminate]);
    by destruct H1 || by destruct H2.
Qed.

(** The case of the pattern does not matter. *)
Lemma like_lower_pattern (pat : string) :
  forall txt, like (lower_string pat) txt = like pat txt.
Proof.
  induction pat as [|c pat IH]; intros txt; [done|]. cbn [lower_string].
  destruct (wildcard_dec c) as [[-> | ->] | Hc].
  - change (lower "%") with "%"%char.
    induction txt as [|d txt IHt].
    + by rewrite !like_percent_nil.
    + by rewrite !like_percent_cons, IH, IHt.
  - change (lower "_") with "_"%char. rewrite !like_underscore. by destruct txt.
  - destruct (lower_wildcard c Hc) as [H1 H2]. destruct Hc as [H3 H4].
    rewrite !like_other by done. destruct txt as [|d txt]; [done|].
    by rewrite lower_idem, IH.
Qed.

Lemma lower_string_app (s t : string) :
  lower_string (s +:+ t) = lower_string s +:+ lower_string t.
Proof.
  induction s as [|c s IH]; [done|].
  change (String c s +:+ t) with (String c (s +:+ t)). cbn [lower_string].
  by rewrite IH.
Qed.

Lemma ilike_contains_case (text s s' : string) :
  lower_string s' = lower_string s ->
  ilike_contains text s' = ilike_contains text s.
Proof.
  intros Hl. unfold ilike_contains.
  rewrite <- (like_lower_pattern ("%" +:+ s' +:+ "%")).
  rewrite <- (like_lower_pattern ("%" +:+ s +:+ "%")).
  by rewrite !lower_string_app, Hl.
Qed.

(** X12. The search does not look at the case of ASCII letters: two
    search texts that agree once put in lower case give the same list. *)
Theorem search_ignores_case (st : Store) (a : args) (s s' : string) :
  a !! "search" = Some s ->
  lower_string s' = lower_string s ->
  products st (<["search" := s']> a) = products st a.
Proof.
  intros Hs Hl.
  assert (Ht : Py.truthy s' = Py.truthy s).
  { destruct s, s'; try done; discriminate. }
  unfold products, args_int.
  rewrite lookup_insert_eq, !lookup_insert_ne by done. rewrite Hs.
  cbn [default from_option id]. rewrite Ht.
  replace (List.filter (fun p => ilike_contains (p_name p) s' || ilike_contains (p_sku p) s')
             (all_products st))
    with (List.filter (fun p => ilike_contains (p_name p) s || ilike_contains (p_sku p) s)
            (all_products st)); [done|].
  apply filter_ext. intros p. by rewrite !(ilike_contains_case _ s s').
Qed.

(** ** The low-stock page and the dashboard *)

Lemma Sorted_weaken {A} (R S : A -> A -> Prop) (l : list A) :
  (forall a b, R a b -> S a b) -> Sorted R l -> Sorted S l.
Proof.
  intros Himp. induction 1 as [|a l _ IH Hhd]; constructor; [done|].
  destruct Hhd; constructor. by apply Himp.
Qed.

(** The order by quantity is a total preorder. *)
Lemma by_quantity_total (p q : Product) :
  asc by_quantity p q = true \/ asc by_quantity q p = true.
Proof. unfold asc, by_quantity. cbn [sql_leb]. rewrite !Z.leb_le. lia. Qed.

Lemma by_quantity_trans (p q r : Product) :
  asc by_quantity p q = true -> asc by_quantity q r = true -> asc by_quantity p r = true.
Proof. unfold asc, by_quantity. cbn [sql_leb]. rewrite !Z.leb_le. lia. Qed.

Lemma sorted_by_quantity (ps : list Product) :
  Sorted (fun a b => asc by_quantity a b = true) ps -> StronglySorted quantity_le ps.
Proof.
  intros Hs. apply Sorted_StronglySorted.
  - intros x y z. unfold quantity_le. lia.
  - apply (Sorted_weaken (fun a b => asc by_quantity a b = true)); [|done].
    intros a b Hab. unfold quantity_le. by apply Z.leb_le.
Qed.

Lemma order_by_quantity_sorted (ps : list Product) :
  StronglySorted quantity_le (order_by (asc by_quantity) ps).
Proof.
  apply sorted_by_quantity.
  apply (order_by_sorted (asc by_quantity)); [apply by_quantity_total|apply by_quantity_trans].
Qed.

Lemma strongly_sorted_split {A} (R : A -> A -> Prop) (l1 l2 : list A) :
  StronglySorted R (l1 ++ l2) -> forall x y, x ∈ l1 -> y ∈ l2 -> R x y.
Proof.
  induction l1 as [|a l1 IH]; [by intros _ x y ?%elem_of_nil|].
  cbn [app]. intros Hs x y Hx Hy. inversion Hs as [|? ? Hl Hall]; subst.
  apply elem_of_cons in Hx as [-> | Hx]; [|by apply IH].
  rewrite List.Forall_forall in Hall. apply Hall. apply in_or_app. right.
  by apply list_elem_of_In.
Qed.

Lemma strongly_sorted_prefix {A} (R : A -> A -> Prop) (l1 l2 : list A) :
  StronglySorted R (l1 ++ l2) -> StronglySorted R l1.
Proof.
  induction l1 as [|a l1 IH]; [constructor|].
  cbn [app]. intros Hs. inversion Hs as [|? ? Hl Hall]; subst.
  constructor; [by apply IH|]. rewrite List.Forall_forall in *.
  intros x Hx. apply Hall. apply in_or_app. by left.
Qed.

(** X13. The low-stock page lists exactly the products whose quantity is
    at most their reorder level, each as often as it is in the table, in
    ascending order of quantity. *)
Theorem low_stock_page (st : Store) :
  (forall p, p ∈ low_stock st <->
     p ∈ all_products st /\ p_quantity p <= p_reorder_level p) /\
  low_stock st ≡ₚ List.filter is_low (all_products st) /\
  StronglySorted quantity_le (low_stock st).
Proof.
  unfold low_stock. split; [|split].
  - intros p. rewrite <- order_by_perm.
    rewrite !list_elem_of_In, filter_In. unfold is_low. by rewrite Z.leb_le.
  - symmetry. apply order_by_perm.
  - apply order_by_quantity_sorted.
Qed.

Lemma filter_length_le {A} (P : A -> bool) (l : list A) :
  (length (List.filter P l) <= length l)%nat.
Proof.
  induction l as [|x l IH]; [done|]. cbn. destruct (P x); cbn; lia.
Qed.

Lemma filter_length_mono {A} (P Q : A -> bool) (l : list A) :
  (forall x, x ∈ l -> P x = true -> Q x = true) ->
  (length (List.filter P l) <= length (List.filter Q l))%nat.
Proof.
  induction l as [|x l IH]; [done|]. intros Himp.
  assert (IH' : (length (List.filter P l) <= length (List.filter Q l))%nat).
  { apply IH. intros y Hy. apply Himp. by right. }
  cbn. destruct (P x) eqn:EP.
  - rewrite (Himp x) by (done || by left). cbn. lia.
  - destruct (Q x); cbn; lia.
Qed.

(** X14. The figures of the dashboard agree with each other and with the
    low-stock page. The count of low-stock products is the length of the
    low-stock page and at most the number of products; when no reorder
    level is negative, every out-of-stock product is counted as low
    stock. The preview shows five products, or all when there are fewer,
    in ascending order of quantity; together with the products it leaves
    out it makes up the low-stock page, whatever the order of the products
    of equal quantity there and here, and none of the products it leaves
    out has a smaller quantity than one it shows. *)
Theorem dashboard_figures (st : Store) :
  let d := dashboard st in
  low_stock_count d = length (low_stock st) /\
  (low_stock_count d <= total_products d)%nat /\
  (Forall (fun p => 0 <= p_reorder_level p) (all_products st) ->
     (out_of_stock_count d <= low_stock_count d)%nat) /\
  (length (low_stock_products d) <= 5)%nat /\
  length (low_stock_products d) = Nat.min 5 (low_stock_count d) /\
  StronglySorted quantity_le (low_stock_products d) /\
  exists rest,
    low_stock st ≡ₚ low_stock_products d ++ rest /\
    forall p q, p ∈ low_stock_products d -> q ∈ rest -> p_quantity p <= p_quantity q.
Proof.
  cbn zeta. unfold dashboard.
  cbn [low_stock_count total_products out_of_stock_count low_stock_products].
  destruct (order_by_limit_take (asc by_quantity) 5 (List.filter is_low (all_products st)))
    as (l' & Hperm & Hsorted & ->).
  specialize (Hsorted by_quantity_total by_quantity_trans).
  apply sorted_by_quantity in Hsorted.
  split; [|split; [|split; [|split; [|split; [|split]]]]].
  - unfold low_stock. apply Permutation_length, order_by_perm.
  - apply filter_length_le.
  - intros Hr. apply filter_length_mono. intros p Hp Hz.
    rewrite Forall_forall in Hr. specialize (Hr p Hp).
    apply Z.eqb_eq in Hz. unfold is_low. apply Z.leb_le. lia.
  - rewrite length_take. lia.
  - rewrite length_take, (Permutation_length Hperm). done.
  - rewrite <- (take_drop 5 l') in Hsorted. by apply strongly_sorted_prefix in Hsorted.
  - exists (drop 5 l'). split.
    + rewrite take_drop. unfold low_stock. by rewrite <- order_by_perm.
    + intros p q Hp Hq.
      apply (strongly_sorted_split quantity_le (take 5 l') (drop 5 l')); [|done|done].
      by rewrite take_drop.
Qed.

(** ** Import: counting and growing *)

Lemma grown_from_refl st : grown_from st st.
Proof. by repeat split. Qed.

Lemma grown_from_trans st1 st2 st3 :
  grown_from st1 st2 -> grown_from st2 st3 -> grown_from st1 st3.
Proof.
  intros (P1 & C1 & S1 & T1) (P2 & C2 & S2 & T2).
  split; [by etransitivity|]. split; [by etransitivity|]. split; [by etransitivity|].
  congruence.
Qed.

Lemma upsert_category_grown st n : grown_from st (upsert_category st n).1.
Proof.
  unfold upsert_category. destruct (Py.truthy n); [|apply grown_from_refl].
  destruct (first_by c_name (all_categories st) n); [apply grown_from_refl|].
  cbn [fst]. repeat split; try done. by apply prefix_app_r.
Qed.

Lemma upsert_supplier_grown st n : grown_from st (upsert_supplier st n).1.
Proof.
  unfold upsert_supplier. destruct (Py.truthy n); [|apply grown_from_refl].
  destruct (first_by s_name (all_suppliers st) n); [apply grown_from_refl|].
  cbn [fst]. repeat split; try done. by apply prefix_app_r.
Qed.

(** One row: it is counted once, as imported or as skipped; a message is
    added only to a skipped row; the products grow by one exactly when the
    row is imported; nothing else is lost. *)
Lemma import_row_step now s r :
  let s' := import_row now s r in
  grown_from (i_store s) (i_store s') /\
  ((imported s' = imported s + 1 /\ skipped s' = skipped s /\ errors s' = errors s /\
    length (all_products (i_store s')) = S (length (all_products (i_store s)))) \/
   (imported s' = imported s /\ skipped s' = skipped s + 1 /\
    (errors s' = errors s \/ exists msg, errors s' = errors s ++ [msg]) /\
    all_products (i_store s') = all_products (i_store s))).
Proof.
  cbn zeta. unfold import_row.
  pose proof (grown_from_refl (i_store s)) as G0.
  destruct (val_strip (row_get r "SKU" "sku" (PyStr ""))) as [e|sku].
  { split; [done|]. right. cbn. eauto 6. }
  destruct (negb (Py.truthy sku)). { split; [done|]. right. cbn. eauto 6. }
  destruct (first_by p_sku (all_products (i_store s)) sku).
  { split; [done|]. right. cbn. eauto 6. }
  destruct (val_strip (row_get r "Name" "name" (PyStr ""))) as [e|name].
  { split; [done|]. right. cbn. eauto 6. }
  destruct (negb (Py.truthy name)). { split; [done|]. right. cbn. eauto 6. }
  destruct (val_strip (row_get r "Category" "category" (PyStr ""))) as [e|cn].
  { split; [done|]. right. cbn. eauto 6. }
  pose proof (upsert_category_grown (i_store s) cn) as G1.
  pose proof (upsert_category_products (i_store s) cn) as (P1 & _ & _).
  destruct (upsert_category (i_store s) cn) as [st1 c]. cbn [fst] in G1, P1.
  destruct (val_strip (row_get r "Supplier" "supplier" (PyStr ""))) as [e|sn].
  { split; [done|]. right. cbn. eauto 6. }
  pose proof (upsert_supplier_grown st1 sn) as G2.
  pose proof (upsert_supplier_products st1 sn) as (P2 & _ & _).
  destruct (upsert_supplier st1 sn) as [st2 su]. cbn [fst] in G2, P2.
  pose proof (grown_from_trans _ _ _ G1 G2) as G.
  assert (P : all_products st2 = all_products (i_store s)) by congruence.
  destruct (val_float (row_get r "Purchase Price" "purchase_price" (PyInt 0)) 0).
  { split; [done|]. right. cbn. eauto 6. }
  destruct (val_float (row_get r "Selling Price" "selling_price" (PyInt 0)) 0).
  { split; [done|]. right. cbn. eauto 6. }
  destruct (val_int (row_get r "Quantity" "quantity" (PyInt 0)) 0).
  { split; [done|]. right. cbn. eauto 6. }
  destruct (val_int (row_get r "Reorder Level" "reorder_level" (PyInt 10)) 10).
  { split; [done|]. right. cbn. eauto 6. }
  split.
  - destruct G as (GP & GC & GS & GT). cbn [i_store].
    split; [|done]. cbn [all_products with_products]. rewrite P. by apply prefix_app_r.
  - left. cbn [i_store imported skipped errors all_products with_products].
    rewrite P, length_app. cbn. repeat split; lia.
Qed.

Lemma import_rows_steps now rows s :
  let s' := foldl (import_row now) s rows in
  grown_from (i_store s) (i_store s') /\
  imported s' + skipped s' = imported s + skipped s + Z.of_nat (length rows) /\
  imported s <= imported s' /\
  Z.of_nat (length (errors s')) - Z.of_nat (length (errors s)) <= skipped s' - skipped s /\
  Z.of_nat (length (all_products (i_store s')))
    = Z.of_nat (length (all_products (i_store s))) + (imported s' - imported s).
Proof.
  cbn zeta. revert s. induction rows as [|r rows IH]; intros s.
  - cbn. split; [apply grown_from_refl|]. lia.
  - cbn [foldl length]. destruct (IH (import_row now s r)) as (G & C & M & E & L).
    destruct (import_row_step now s r) as (G1 & Hstep). cbn zeta in G1, Hstep.
    split; [by eapply grown_from_trans|].
    destruct Hstep as [(Hi & Hs & He & Hl) | (Hi & Hs & He & Hl)].
    + rewrite Hi, Hs, He, Hl in *. lia.
    + rewrite Hi, Hs, Hl in *. destruct He as [He | [msg He]]; rewrite He in *.
      * lia.
      * rewrite length_app in E. cbn in E. lia.
Qed.

(** X15. Every row of an import is counted once. When the loop of
    [import_products] has run, imported plus skipped is the number of rows
    the reader yielded, there are no more error messages than skipped
    rows, and the product table is longer by exactly the imported
    count. *)
Theorem import_counts_every_row (st : Store) (u : User) (now : datetime) (m : method)
    (file : option upload) (s : import_state) :
  ir_loop (import_products st u now m file) = Some s ->
  exists t, (file ≫= records) = Some t /\
    imported s + skipped s = Z.of_nat (length (DictReader t)) /\
    0 <= imported s /\
    Z.of_nat (length (errors s)) <= skipped s /\
    Z.of_nat (length (all_products (i_store s)))
      = Z.of_nat (length (all_products st)) + imported s.
Proof.
  unfold import_products.
  destruct (negb (is_admin u)); [done|]. destruct m; [done|].
  destruct file as [file|]; [|done].
  destruct (String.eqb (filename file) ""); [done|].
  destruct (negb (Py.endswith (filename file) ".csv")); [done|].
  cbn [mbind option_bind].
  destruct (records file) as [t|]; [|done]. destruct (negb (within_field_limit t)); [done|].
  cbn [ir_loop]. intros [= <-]. exists t. split; [done|].
  destruct (import_rows_steps now (DictReader t) (mkImport st 0 0 []))
    as (_ & C & M & E & L).
  cbn [imported skipped errors i_store length] in *. lia.
Qed.

(** X16. An import only adds. Whoever sends it and whatever the file
    holds, the products, categories and suppliers that were there are
    still there, unchanged and in place, before what the import adds, and
    the ledger has not changed: imported products get no Transaction
    row. *)
Theorem import_only_adds (st : Store) (u : User) (now : datetime) (m : method)
    (file : option upload) :
  grown_from st (r_store (ir_result (import_products st u now m file))).
Proof.
  unfold import_products.
  destruct (negb (is_admin u)); [apply grown_from_refl|].
  destruct m; [apply grown_from_refl|].
  destruct file as [file|]; [|apply grown_from_refl].
  destruct (String.eqb (filename file) ""); [apply grown_from_refl|].
  destruct (negb (Py.endswith (filename file) ".csv")); [apply grown_from_refl|].
  destruct (records file) as [t|]; [|apply grown_from_refl].
  destruct (negb (within_field_limit t)); [apply grown_from_refl|].
  cbn [ir_result r_store].
  by destruct (import_rows_steps now (DictReader t) (mkImport st 0 0 [])) as (G & _).
Qed.

(** ** Importing the same file again *)

(** When a row becomes a product, its cells read well and its SKU was not
    in the table. *)
Lemma import_row_added_inv now s r :
  row_adds_nothing now s r \/
  exists sku name cn sn pp sp q rl,
    row_sku r = inr sku /\ sku <> "" /\
    first_by p_sku (all_products (i_store s)) sku = None /\
    row_name r = inr name /\ name <> "" /\
    row_category r = inr cn /\ row_supplier r = inr sn /\
    row_numbers r pp sp q rl.
Proof.
  unfold row_adds_nothing, import_row, row_sku, row_name, row_category, row_supplier,
    row_numbers.
  destruct (val_strip (row_get r "SKU" "sku" (PyStr ""))) as [e|sku]; [by left|].
  destruct (Py.truthy sku) eqn:Tsku; cbn [negb]; [|by left].
  destruct (first_by p_sku (all_products (i_store s)) sku) eqn:Ef; [by left|].
  destruct (val_strip (row_get r "Name" "name" (PyStr ""))) as [e|name]; [by left|].
  destruct (Py.truthy name) eqn:Tname; cbn [negb]; [|by left].
  destruct (val_strip (row_get r "Category" "category" (PyStr ""))) as [e|cn]; [by left|].
  pose proof (upsert_category_products (i_store s) cn) as (P1 & _ & _).
  destruct (upsert_category (i_store s) cn) as [st1 c]. cbn [fst] in P1.
  destruct (val_strip (row_get r "Supplier" "supplier" (PyStr ""))) as [e|sn];
    [by left|].
  pose proof (upsert_supplier_products st1 sn) as (P2 & _ & _).
  destruct (upsert_supplier st1 sn) as [st2 su]. cbn [fst] in P2.
  destruct (val_float (row_get r "Purchase Price" "purchase_price" (PyInt 0)) 0) as [e|pp];
    [left; cbn; split; congruence|].
  destruct (val_float (row_get r "Selling Price" "selling_price" (PyInt 0)) 0) as [e|sp];
    [left; cbn; split; congruence|].
  destruct (val_int (row_get r "Quantity" "quantity" (PyInt 0)) 0) as [e|q];
    [left; cbn; split; congruence|].
  destruct (val_int (row_get r "Reorder Level" "reorder_level" (PyInt 10)) 10) as [e|rl];
    [left; cbn; split; congruence|].
  right. exists sku, name, cn, sn, pp, sp, q, rl.
  repeat split; try done; by intros ->.
Qed.

Lemma import_row_again now now' s z r :
  all_products (i_store (import_row now s r)) `prefix_of` all_products (i_store z) ->
  row_adds_nothing now' z r.
Proof.
  intros Hpre.
  destruct (import_row_added_inv now' z r)
    as [Hn | (sku & name & cn & sn & pp & sp & q & rl &
              Hsku & Hne & Hfresh & Hname & Hnn & Hcn & Hsn & Hnum)]; [done|].
  exfalso. apply first_by_None_inv in Hfresh. apply Hfresh.
  assert (Hin : sku ∈ p_sku <$> all_products (i_store (import_row now s r))).
  { destruct (first_by p_sku (all_products (i_store s)) sku) as [x|] eqn:Es.
    - apply first_by_In in Es as [Hx Hxs].
      destruct (import_row_step now s r) as ((Hp & _) & _). cbn zeta in Hp.
      destruct Hp as [k ->]. rewrite fmap_app. apply elem_of_app. left.
      rewrite <- Hxs. apply list_elem_of_fmap_2. by apply list_elem_of_In.
    - rewrite (import_row_new now s r sku name cn sn pp sp q rl) by done.
      cbn zeta. cbn [i_store all_products with_products].
      rewrite fmap_app. apply elem_of_app. right. cbn. by left. }
  destruct Hpre as [k ->]. rewrite fmap_app. apply elem_of_app. by left.
Qed.

Lemma import_rows_again now now' rows :
  forall s z,
    all_products (i_store (foldl (import_row now) s rows))
      `prefix_of` all_products (i_store z) ->
    all_products (i_store (foldl (import_row now') z rows)) = all_products (i_store z) /\
    imported (foldl (import_row now') z rows) = imported z.
Proof.
  induction rows as [|r rows IH]; intros s z Hpre; [done|].
  cbn [foldl] in Hpre |- *.
  destruct (import_rows_steps now rows (import_row now s r)) as ((Hp & _) & _).
  cbn zeta in Hp.
  destruct (import_row_again now now' s z r) as [Hz1 Hz2]; [by etransitivity|].
  destruct (IH (import_row now s r) (import_row now' z r)) as [H1 H2].
  - by rewrite Hz1.
  - by rewrite H1, H2.
Qed.

(** X17. Importing the same file a second time adds no product. After an
    import has run over a file, any further import of that file, by any
    user and at any later time, leaves the product table as it is and
    counts no row as imported. *)
Theorem import_again_adds_nothing (st : Store) (u u' : User) (now now' : datetime)
    (m m' : method) (file : option upload) (s : import_state) :
  ir_loop (import_products st u now m file) = Some s ->
  let again := import_products (i_store s) u' now' m' file in
  all_products (r_store (ir_result again)) = all_products (i_store s) /\
  (forall s', ir_loop again = Some s' -> imported s' = 0).
Proof.
  intros Hfirst. cbn zeta.
  assert (Hrows : exists t, (file ≫= records) = Some t /\
            s = foldl (import_row now) (mkImport st 0 0 []) (DictReader t)).
  { revert Hfirst. unfold import_products.
    destruct (negb (is_admin u)); [done|]. destruct m; [done|].
    destruct file as [file|]; [|done].
    destruct (String.eqb (filename file) ""); [done|].
    destruct (negb (Py.endswith (filename file) ".csv")); [done|].
    cbn [mbind option_bind]. destruct (records file) as [t|]; [|done].
    destruct (negb (within_field_limit t)); [done|].
    cbn [ir_loop]. intros [= <-]. by exists t. }
  destruct Hrows as (t & Ht & ->).
  set (s1 := foldl (import_row now) (mkImport st 0 0 []) (DictReader t)).
  destruct (import_rows_again now now' (DictReader t) (mkImport st 0 0 [])
              (mkImport (i_store s1) 0 0 [])) as [H1 H2]; [done|].
  cbn [i_store imported] in H1, H2.
  unfold import_products.
  destruct (negb (is_admin u')); [done|]. destruct m'; [done|].
  destruct file as [file|]; [|done].
  destruct (String.eqb (filename file) ""); [done|].
  destruct (negb (Py.endswith (filename file) ".csv")); [done|].
  cbn [mbind option_bind] in Ht. rewrite Ht.
  destruct (negb (within_field_limit t)); [by split|].
  cbn [ir_result ir_loop r_store]. split; [exact H1|]. by intros s' [= <-].
Qed.


(** ** The transaction list *)

(** X18. A date that does not read is as good as none. When the text
    given as [date_from] (or as [date_to]) is not a date, the transaction
    list is the one of the same request without that parameter. *)
Theorem transactions_ignore_bad_dates (st : Store) (a : args) :
  (strptime_Ymd (default "" (a !! "date_from")) = None ->
     transactions st a = transactions st (delete "date_from" a)) /\
  (strptime_Ymd (default "" (a !! "date_to")) = None ->
     transactions st a = transactions st (delete "date_to" a)).
Proof.
  split; intros Hbad; unfold transactions, args_int.
  - rewrite lookup_delete_eq, !lookup_delete_ne by done.
    rewrite Hbad. cbn [default from_option Py.truthy].
    by destruct (Py.truthy (default "" (a !! "date_from"))).
  - rewrite lookup_delete_eq, !lookup_delete_ne by done.
    rewrite Hbad. cbn [default from_option Py.truthy].
    by destruct (Py.truthy (default "" (a !! "date_to"))).
Qed.

(** A date that reads is the midnight that begins its day. *)
Lemma strptime_midnight (s : string) (t : datetime) :
  strptime_Ymd s = Some t -> t = day_number t * one_day.
Proof.
  unfold strptime_Ymd.
  destruct s as [|y1 [|y2 [|y3 [|y4 [|c5 r]]]]]; try done.
  destruct (Py.digit_val y1); [|done]. destruct (Py.digit_val y2); [|done].
  destruct (Py.digit_val y3); [|done]. destruct (Py.digit_val y4); [|done].
  destruct (Ascii.eqb c5 "-"); [|done].
  destruct (read_month r) as [[m r1]|]; [|done].
  destruct (read_day r1) as [[d [|? ?]]|]; try done.
  match goal with |- context [if ?b then _ else _] => destruct b; [|done] end.
  intros [= <-]. unfold day_number. rewrite Z.div_mul; [done|]. unfold one_day. lia.
Qed.

Lemma from_midnight (n c : Z) : n * one_day <= c <-> n <= day_number c.
Proof. unfold day_number, one_day. split; intros; Z.div_mod_to_equations; lia. Qed.

Lemma until_midnight (n c : Z) :
  c < n * one_day + timedelta_days 1 <-> day_number c <= n.
Proof.
  unfold day_number, timedelta_days, one_day. split; intros; Z.div_mod_to_equations; lia.
Qed.

Lemma datetime_max_day : datetime_max = (day_number datetime_max + 1) * one_day - 1.
Proof. reflexivity. Qed.

Lemma add_days_midnight (n : Z) :
  add_days (n * one_day) 1
  = if n <? day_number datetime_max then Some (n * one_day + timedelta_days 1) else None.
Proof.
  unfold add_days. cbv zeta. pose proof datetime_max_day as Hmax. revert Hmax.
  generalize (day_number datetime_max). intros N ->.
  unfold timedelta_days, one_day.
  destruct (n <? N) eqn:E; [apply Z.ltb_lt in E|apply Z.ltb_ge in E].
  - rewrite (proj2 (Z.leb_le _ _)); [done|lia].
  - rewrite (proj2 (Z.leb_gt _ _)); [done|lia].
Qed.

(** The page fails exactly when the day after [date_to] is past
    [datetime.max]. *)
Lemma transactions_fail (st : Store) (a : args) :
  transactions st a = None <->
  exists d, strptime_Ymd (default "" (a !! "date_to")) = Some d /\
            day_number datetime_max <= day_number d.
Proof.
  unfold transactions. cbv zeta.
  set (dt := default "" (a !! "date_to")).
  assert (Hempty : strptime_Ymd "" = None) by reflexivity.
  destruct (Py.truthy dt) eqn:T.
  - destruct (strptime_Ymd dt) as [d|] eqn:Ed.
    + rewrite (strptime_midnight _ _ Ed) at 1. rewrite add_days_midnight.
      destruct (day_number d <? day_number datetime_max) eqn:E;
        [apply Z.ltb_lt in E|apply Z.ltb_ge in E]; cbn.
      * split; [done|]. intros (d' & [= <-] & ?). lia.
      * split; [|done]. intros _. by exists d.
    + cbn. split; [done|]. by intros (d' & [=] & ?).
  - destruct dt; [|discriminate]. rewrite Hempty. cbn. split; [done|].
    by intros (d' & [=] & ?).
Qed.

(** What the filters of [transactions] let through. *)
Lemma transactions_listed (st : Store) (a : args) (l : list Transaction) (t : Transaction) :
  transactions st a = Some l ->
  t ∈ l <->
  t ∈ all_transactions st /\
  (default "all" (a !! "type") = "purchase" -> t_type t = "purchase") /\
  (default "all" (a !! "type") = "sale" -> t_type t = "sale") /\
  (forall d, strptime_Ymd (default "" (a !! "date_from")) = Some d ->
     day_number d <= day_number (t_created_at t)) /\
  (forall d, strptime_Ymd (default "" (a !! "date_to")) = Some d ->
     day_number (t_created_at t) <= day_number d) /\
  (forall id, args_int a "product_id" = Some id -> id <> 0 -> t_product_id t = id).
Proof.
  unfold transactions. cbv zeta.
  set (ty := default "all" (a !! "type")).
  set (df := default "" (a !! "date_from")).
  set (dt := default "" (a !! "date_to")).
  set (q1 := if String.eqb ty "purchase"
             then List.filter (fun t => String.eqb (t_type t) "purchase") (all_transactions st)
             else if String.eqb ty "sale"
             then List.filter (fun t => String.eqb (t_type t) "sale") (all_transactions st)
             else all_transactions st).
  assert (H1 : t ∈ q1 <-> t ∈ all_transactions st /\
            (ty = "purchase" -> t_type t = "purchase") /\
            (ty = "sale" -> t_type t = "sale")).
  { unfold q1. destruct (String.eqb ty "purchase") eqn:E1.
    - apply String.eqb_eq in E1. rewrite list_elem_of_In, filter_In, <- list_elem_of_In.
      rewrite String.eqb_eq. rewrite E1. intuition discriminate.
    - apply String.eqb_neq in E1. destruct (String.eqb ty "sale") eqn:E2.
      + apply String.eqb_eq in E2. rewrite list_elem_of_In, filter_In, <- list_elem_of_In.
        rewrite String.eqb_eq. intuition.
      + apply String.eqb_neq in E2. intuition. }
  set (q2 := if Py.truthy df
             then match strptime_Ymd df with
                  | Some from_date => List.filter (fun t => from_date <=? t_created_at t) q1
                  | None => q1
                  end
             else q1).
  assert (Hempty : strptime_Ymd "" = None) by reflexivity.
  assert (H2 : t ∈ q2 <-> t ∈ q1 /\
            (forall d, strptime_Ymd df = Some d -> day_number d <= day_number (t_created_at t))).
  { unfold q2. destruct (Py.truthy df) eqn:T.
    - destruct (strptime_Ymd df) as [d|] eqn:Ed.
      + rewrite list_elem_of_In, filter_In, <- list_elem_of_In, Z.leb_le.
        rewrite (strptime_midnight _ _ Ed) at 1. rewrite from_midnight.
        split; [intros [? ?]; split; [done|]; by intros ? [= <-]|].
        intros [? Hd]. split; [done|]. by apply Hd.
      + intuition discriminate.
    - destruct df; [|discriminate]. rewrite Hempty. intuition discriminate. }
  intros Hl.
  assert (H3 : exists q3, l = order_by (desc (fun t => SqlInt (t_created_at t)))
                          match args_int a "product_id" with
                          | Some id => if id =? 0 then q3
                                       else List.filter (fun t => t_product_id t =? id) q3
                          | None => q3
                          end /\
            (t ∈ q3 <-> t ∈ q2 /\
               (forall d, strptime_Ymd dt = Some d ->
                  day_number (t_created_at t) <= day_number d))).
  { destruct (Py.truthy dt) eqn:T.
    - destruct (strptime_Ymd dt) as [d|] eqn:Ed.
      + rewrite (strptime_midnight _ _ Ed) in Hl at 1. rewrite add_days_midnight in Hl.
        destruct (day_number d <? day_number datetime_max); [|discriminate].
        cbn in Hl. injection Hl as <-. eexists. split; [reflexivity|].
        rewrite list_elem_of_In, filter_In, <- list_elem_of_In, Z.ltb_lt, until_midnight.
        split; [intros [? ?]; split; [done|]; by intros ? [= <-]|].
        intros [? Hd]. split; [done|]. by apply Hd.
      + cbn in Hl. injection Hl as <-. eexists. split; [reflexivity|].
        intuition discriminate.
    - destruct dt; [|discriminate]. cbn in Hl. injection Hl as <-.
      eexists. split; [reflexivity|]. rewrite Hempty. intuition discriminate. }
  destruct H3 as (q3 & -> & H3). rewrite <- order_by_perm.
  destruct (args_int a "product_id") as [id|].
  - destruct (id =? 0) eqn:E.
    + apply Z.eqb_eq in E. rewrite H3, H2, H1. split; [|tauto].
      intros ((? & ?) & ?). repeat split; try tauto. intros id' [= <-]. lia.
    + apply Z.eqb_neq in E. rewrite list_elem_of_In, filter_In, <- list_elem_of_In.
      rewrite H3, H2, H1, Z.eqb_eq. split.
      * intros (((? & ?) & ?) & ?). repeat split; try tauto. by intros id' [= <-].
      * intros (? & ? & ? & ? & ? & Hid). repeat split; try tauto. by apply Hid.
  - rewrite H3, H2, H1. split; [|tauto]. intros ((? & ?) & ?). repeat split; try tauto.
    done.
Qed.

Lemma transactions_sorted (st : Store) (a : args) (l : list Transaction) :
  transactions st a = Some l -> Sorted newest_first l.
Proof.
  unfold transactions. cbv zeta. intros Hl.
  apply bind_Some in Hl as (q & _ & [= <-]).
  apply (Sorted_weaken (fun x y => desc (fun t => SqlInt (t_created_at t)) x y = true)).
  - intros x y Hxy. unfold newest_first. by apply Z.leb_le.
  - apply (order_by_sorted (desc (fun t => SqlInt (t_created_at t))));
      [intros x y|intros x y z]; unfold desc; cbn [sql_leb]; rewrite !Z.leb_le; lia.
Qed.

(** X19. The date range of the transaction list is by whole days and
    includes both ends. With a first and a last date that read, the last
    one before the last day of the year 9999, the list holds exactly the
    transactions of the chosen type and product that were created on a day
    from the first to the last one, at whatever time of the day, and it
    runs from the newest to the oldest. With the last day of 9999 as the
    last date the page fails. *)
Theorem transactions_between_dates (st : Store) (a : args) (first last : datetime) :
  strptime_Ymd (default "" (a !! "date_from")) = Some first ->
  strptime_Ymd (default "" (a !! "date_to")) = Some last ->
  (day_number last < day_number datetime_max ->
   exists l, transactions st a = Some l /\
     (forall t, t ∈ l <->
        t ∈ all_transactions st /\
        (default "all" (a !! "type") = "purchase" -> t_type t = "purchase") /\
        (default "all" (a !! "type") = "sale" -> t_type t = "sale") /\
        day_number first <= day_number (t_created_at t) <= day_number last /\
        (forall id, args_int a "product_id" = Some id -> id <> 0 -> t_product_id t = id)) /\
     Sorted newest_first l) /\
  (day_number datetime_max <= day_number last -> transactions st a = None).
Proof.
  intros Hf Hl. split.
  - intros Hlast. destruct (transactions st a) as [l|] eqn:El.
    + exists l. split; [done|]. split; [|by eapply transactions_sorted].
      intros t. rewrite (transactions_listed _ _ _ _ El), Hf, Hl. split.
      * intros (? & ? & ? & H1 & H2 & ?).
        repeat split; try done; [by apply H1|by apply H2].
      * intros (? & ? & ? & [H1 H2] & ?). repeat split; try done; by intros ? [= <-].
    + apply transactions_fail in El as (d & Hd & ?). rewrite Hl in Hd.
      injection Hd as <-. lia.
  - intros Hlast. apply transactions_fail. by exists last.
Qed.

(** ** Dates written and read again *)

Lemma all_from_sound (f : Z -> bool) (n : positive) (lo : Z) :
  all_from f lo n = true -> forall x, lo <= x < lo + Zpos n -> f x = true.
Proof.
  revert lo. induction n as [q IH|q IH|]; intros lo Hall x Hx; cbn [all_from] in Hall.
  - apply andb_true_iff in Hall as [Hall H3]. apply andb_true_iff in Hall as [H1 H2].
    rewrite Pos2Z.inj_xI in Hx.
    destruct (Z.eq_dec x lo) as [->|]; [done|].
    destruct (Z_lt_dec x (lo + 1 + Zpos q)); [apply (IH _ H2)|apply (IH _ H3)]; lia.
  - apply andb_true_iff in Hall as [H1 H2]. rewrite Pos2Z.inj_xO in Hx.
    destruct (Z_lt_dec x (lo + Zpos q)); [apply (IH _ H1)|apply (IH _ H2)]; lia.
  - replace x with lo by lia. done.
Qed.

Lemma year_text (y : Z) : 1000 <= y <= 9999 -> year_text_ok y = true.
Proof.
  intros Hy. apply (all_from_sound year_text_ok 9000 1000); [|lia].
  vm_compute. reflexivity.
Qed.

Lemma month_text (m : Z) : 1 <= m <= 12 -> month_text_ok m = true.
Proof.
  intros Hm. apply (all_from_sound month_text_ok 12 1); [|lia].
  vm_compute. reflexivity.
Qed.

Lemma day_text (d : Z) : 1 <= d <= 31 -> day_text_ok d = true.
Proof.
  intros Hd. apply (all_from_sound day_text_ok 31 1); [|lia].
  vm_compute. reflexivity.
Qed.

Lemma is_leap_era (y k : Z) : is_leap (y + k * 400) = is_leap y.
Proof.
  unfold is_leap.
  replace ((y + k * 400) mod 4) with (y mod 4)
    by (replace (k * 400) with (k * 100 * 4) by lia; by rewrite Z_mod_plus_full).
  replace ((y + k * 400) mod 100) with (y mod 100)
    by (replace (k * 400) with (k * 4 * 100) by lia; by rewrite Z_mod_plus_full).
  by rewrite Z_mod_plus_full.
Qed.

Lemma days_in_month_le (y m : Z) : days_in_month y m <= 31.
Proof.
  unfold days_in_month. destruct (m =? 2); [by destruct (is_leap y)|].
  by destruct ((m =? 4) || (m =? 6) || (m =? 9) || (m =? 11)).
Qed.

Lemma is_leap_true (y : Z) :
  y mod 4 = 0 -> y mod 100 <> 0 \/ y mod 400 = 0 -> is_leap y = true.
Proof.
  intros H4 Hc. unfold is_leap. apply andb_true_iff. split; [by apply Z.eqb_eq|].
  apply orb_true_iff. destruct Hc as [Hc | Hc]; [left|right].
  - by apply negb_true_iff, Z.eqb_neq.
  - by apply Z.eqb_eq.
Qed.

(** The year of the era and the day of the year, as [civil] computes them
    from the day of the era: the day 365 is there only before a leap
    year. *)
Lemma year_of_era (doe yoe doy : Z) :
  0 <= doe < 146097 ->
  yoe = (doe - doe / 1460 + doe / 36524 - doe / 146096) / 365 ->
  doy = doe - (365 * yoe + yoe / 4 - yoe / 100) ->
  0 <= yoe < 400 /\ 0 <= doy <= 365 /\ (doy = 365 -> is_leap (yoe + 1) = true).
Proof.
  intros Hdoe -> ->. split; [|split].
  - Z.div_mod_to_equations. lia.
  - Z.div_mod_to_equations. lia.
  - intros H365. apply is_leap_true; Z.div_mod_to_equations; lia.
Qed.

(** The month, counted from March, and the day of the month, as [civil]
    computes them from the day of the year. *)
Lemma month_of_year (doy mp d : Z) :
  0 <= doy <= 365 ->
  mp = (5 * doy + 2) / 153 ->
  d = doy - (153 * mp + 2) / 5 + 1 ->
  0 <= mp <= 11 /\ 1 <= d <= 31 /\
  (mp = 11 -> d <= 29 /\ (doy <= 364 -> d <= 28)) /\
  (mp = 1 \/ mp = 3 \/ mp = 6 \/ mp = 8 -> d <= 30).
Proof. intros Hdoy -> ->. Z.div_mod_to_equations. lia. Qed.

(** [civil] gives a date of the calendar, and [days_from_civil] is its
    inverse. *)
Lemma civil_inverse (n y m d : Z) :
  civil n = (y, m, d) ->
  1 <= m <= 12 /\ 1 <= d <= days_in_month y m /\ days_from_civil y m d = n.
Proof.
  unfold civil. cbv zeta.
  remember ((n + 719468) / 146097) as era eqn:Eera.
  remember (n + 719468 - era * 146097) as doe eqn:Edoe.
  remember ((doe - doe / 1460 + doe / 36524 - doe / 146096) / 365) as yoe eqn:Eyoe.
  remember (doe - (365 * yoe + yoe / 4 - yoe / 100)) as doy eqn:Edoy.
  remember ((5 * doy + 2) / 153) as mp eqn:Emp.
  remember (doy - (153 * mp + 2) / 5 + 1) as dd eqn:Edd.
  intros [= <- <- <-].
  assert (Hdoe : 0 <= doe < 146097) by (subst era doe; Z.div_mod_to_equations; lia).
  destruct (year_of_era doe yoe doy Hdoe Eyoe Edoy) as (Hyoe & Hdoy & Hleap).
  destruct (month_of_year doy mp dd Hdoy Emp Edd) as (Hmp & Hdd & Hfeb & H30).
  assert (Hm : (if mp <? 10 then mp + 3 else mp - 9) = 2 <-> mp = 11)
    by (destruct (mp <? 10) eqn:E; [apply Z.ltb_lt in E|apply Z.ltb_ge in E]; lia).
  split.
  { destruct (mp <? 10) eqn:E; [apply Z.ltb_lt in E|apply Z.ltb_ge in E]; lia. }
  split.
  - split; [lia|]. unfold days_in_month.
    destruct ((if mp <? 10 then mp + 3 else mp - 9) =? 2) eqn:E2.
    + apply Z.eqb_eq in E2. rewrite E2. cbn [Z.leb Z.compare Pos.compare Pos.compare_cont].
      apply Hm in E2. destruct (Hfeb E2) as [H29 H28].
      replace (yoe + era * 400 + 1) with (yoe + 1 + era * 400) by lia.
      rewrite is_leap_era. destruct (is_leap (yoe + 1)) eqn:El; [done|].
      apply H28. destruct (Z.eq_dec doy 365) as [H365|]; [|lia].
      specialize (Hleap H365). congruence.
    + destruct (((if mp <? 10 then mp + 3 else mp - 9) =? 4)
                || ((if mp <? 10 then mp + 3 else mp - 9) =? 6)
                || ((if mp <? 10 then mp + 3 else mp - 9) =? 9)
                || ((if mp <? 10 then mp + 3 else mp - 9) =? 11)) eqn:E30; [|lia].
      apply H30. rewrite !orb_true_iff, !Z.eqb_eq in E30.
      destruct (mp <? 10) eqn:E; [apply Z.ltb_lt in E|apply Z.ltb_ge in E]; lia.
  - unfold days_from_civil. cbv zeta.
    set (mm := if mp <? 10 then mp + 3 else mp - 9).
    replace (if mm <=? 2 then yoe + era * 400 + (if mm <=? 2 then 1 else 0) - 1
             else yoe + era * 400 + (if mm <=? 2 then 1 else 0))
      with (yoe + era * 400) by (destruct (mm <=? 2); lia).
    assert (Hera : (yoe + era * 400) / 400 = era) by (Z.div_mod_to_equations; lia).
    rewrite Hera. replace (yoe + era * 400 - era * 400) with yoe by lia.
    replace (if 2 <? mm then mm - 3 else mm + 9) with mp.
    2: { subst mm. destruct (mp <? 10) eqn:E; [apply Z.ltb_lt in E|apply Z.ltb_ge in E].
         - rewrite (proj2 (Z.ltb_lt 2 (mp + 3))) by lia. lia.
         - rewrite (proj2 (Z.ltb_ge 2 (mp - 9))) by lia. lia. }
    lia.
Qed.

Lemma append_cons (c : ascii) (s t : string) : String c s +:+ t = String c (s +:+ t).
Proof. reflexivity. Qed.

Lemma append_nil (s : string) : EmptyString +:+ s = s.
Proof. reflexivity. Qed.

(** The date that [strftime] writes reads back as the midnight of the
    same day, for the years of four digits. *)
Lemma strptime_strftime (t : datetime) :
  1000 <= year_of t <= 9999 ->
  strptime_Ymd (strftime_Ymd t) = Some (day_number t * one_day).
Proof.
  unfold year_of, strftime_Ymd.
  destruct (civil (day_number t)) as [[y m] d] eqn:Ec. cbn [fst]. intros Hy.
  destruct (civil_inverse _ _ _ _ Ec) as (Hm & Hd & Hinv).
  pose proof (year_text y Hy) as Hyt. unfold year_text_ok in Hyt.
  destruct (zero_pad 4 y) as [|c1 [|c2 [|c3 [|c4 [|? ?]]]]]; try done.
  destruct (Py.digit_val c1) as [a1|] eqn:E1; [|done].
  destruct (Py.digit_val c2) as [a2|] eqn:E2; [|done].
  destruct (Py.digit_val c3) as [a3|] eqn:E3; [|done].
  destruct (Py.digit_val c4) as [a4|] eqn:E4; [|done].
  apply Z.eqb_eq in Hyt.
  pose proof (month_text m Hm) as Hmt. unfold month_text_ok in Hmt.
  destruct (zero_pad 2 m) as [|b1 [|b2 [|? ?]]]; try done.
  destruct (if Ascii.eqb b1 "1" then (fun d => 10 + d) <$> digit_in 0 2 b2
            else if Ascii.eqb b1 "0" then digit_in 1 9 b2 else None) as [m'|] eqn:Em;
    [|done].
  apply Z.eqb_eq in Hmt. subst m'.
  pose proof (days_in_month_le y m) as Hle.
  assert (Hd31 : 1 <= d <= 31) by lia.
  pose proof (day_text d Hd31) as Hdt. unfold day_text_ok in Hdt.
  destruct (read_day (zero_pad 2 d)) as [[d' [|? ?]]|] eqn:Ed; try done.
  apply Z.eqb_eq in Hdt. subst d'.
  repeat (rewrite append_cons || rewrite append_nil).
  unfold strptime_Ymd. rewrite E1, E2, E3, E4.
  change (Ascii.eqb "-" "-") with true. cbv iota.
  assert (Hrm : forall r, read_month (String b1 (String b2 (String "-" r))) = Some (m, r)).
  { intros r. unfold read_month. change (Ascii.eqb "-" "-") with true. cbv iota.
    by rewrite Em. }
  rewrite Hrm, Ed, Hyt.
  rewrite (proj2 (Z.leb_le 1 y)) by lia. rewrite (proj2 (Z.leb_le d _)) by lia.
  cbn [andb]. by rewrite Hinv.
Qed.

(** X20. The transactions of one day. Asked from and to the date of a
    moment, written as the application writes dates (a year of four
    digits, and not the last day of the year 9999), the transaction list
    holds exactly the transactions created on the day of that moment. *)
Theorem transactions_of_a_day (st : Store) (c : datetime) :
  1000 <= year_of c <= 9999 ->
  day_number c < day_number datetime_max ->
  exists l,
    transactions st {[ "date_from" := strftime_Ymd c; "date_to" := strftime_Ymd c ]} = Some l /\
    forall t, t ∈ l <->
      t ∈ all_transactions st /\ day_number (t_created_at t) = day_number c.
Proof.
  intros Hy Hc. set (a := {[ "date_from" := strftime_Ymd c; "date_to" := strftime_Ymd c ]}).
  assert (Hf : a !! "date_from" = Some (strftime_Ymd c)) by done.
  assert (Ht : a !! "date_to" = Some (strftime_Ymd c)) by done.
  assert (Hty : a !! "type" = None) by done.
  assert (Hp : args_int a "product_id" = None) by done.
  pose proof (strptime_strftime c Hy) as Hrt.
  assert (Hday : day_number (day_number c * one_day) = day_number c).
  { unfold day_number at 1. rewrite Z.div_mul; [done|]. unfold one_day. lia. }
  destruct (transactions st a) as [l|] eqn:El.
  - exists l. split; [done|]. intros t.
    rewrite (transactions_listed _ _ _ _ El), Hf, Ht, Hty, Hp. cbn [default from_option id].
    rewrite Hrt. split.
    + intros (? & _ & _ & H1 & H2 & _). split; [done|].
      specialize (H1 _ eq_refl). specialize (H2 _ eq_refl). rewrite Hday in H1, H2. lia.
    + intros [? Heq]. repeat split; try done.
      * intros d [= <-]. rewrite Hday. lia.
      * intros d [= <-]. rewrite Hday. lia.
  - apply transactions_fail in El as (d & Hd & Hmax). rewrite Ht in Hd.
    cbn [default from_option id] in Hd. rewrite Hrt in Hd. injection Hd as <-.
    rewrite Hday in Hmax. lia.
Qed.

(** ** What is never lost *)

Lemma keeps_rows_refl st : keeps_rows st st.
Proof. by repeat split. Qed.

Lemma keeps_rows_trans st1 st2 st3 :
  keeps_rows st1 st2 -> keeps_rows st2 st3 -> keeps_rows st1 st3.
Proof.
  intros (P1 & C1 & S1 & T1) (P2 & C2 & S2 & T2).
  repeat split; by etransitivity.
Qed.

Lemma prefix_fmap {A B} (g : A -> B) (l1 l2 : list A) :
  l1 `prefix_of` l2 -> (g <$> l1) `prefix_of` (g <$> l2).
Proof. intros [k ->]. rewrite fmap_app. by apply prefix_app_r. Qed.

Lemma grown_keeps_rows st st' : grown_from st st' -> keeps_rows st st'.
Proof.
  intros (P & C & S & T). repeat split; try by apply prefix_fmap.
  by rewrite T.
Qed.

Lemma add_product_keeps st u now m f : keeps_rows st (r_store (add_product st u now m f)).
Proof.
  unfold add_product. destruct m; [apply keeps_rows_refl|].
  destruct (form_float f "purchase_price" 0); [|apply keeps_rows_refl].
  destruct (form_float f "selling_price" 0); [|apply keeps_rows_refl].
  destruct (form_int f "quantity" 0); [|apply keeps_rows_refl].
  destruct (form_int f "reorder_level" 10); [|apply keeps_rows_refl].
  destruct (f !! "sku") as [sku|]; cbn [mbind option_bind].
  2: { destruct (f !! "name"); apply keeps_rows_refl. }
  destruct (first_by p_sku (all_products st) sku); [apply keeps_rows_refl|].
  destruct (f !! "name"); [|apply keeps_rows_refl].
  destruct (form_key f "category_id"); [|apply keeps_rows_refl].
  destruct (form_key f "supplier_id"); [|apply keeps_rows_refl].
  cbn [r_store]. unfold keeps_rows.
  cbn [all_products all_categories all_suppliers all_transactions].
  rewrite fmap_app. repeat split; try done; by apply prefix_app_r.
Qed.

Lemma edit_product_keeps st id m f : keeps_rows st (r_store (edit_product st id m f)).
Proof.
  unfold edit_product.
  destruct (get p_id (all_products st) id) as [p|]; [|apply keeps_rows_refl].
  destruct m; [apply keeps_rows_refl|].
  destruct (f !! "name") as [name|]; [|apply keeps_rows_refl].
  destruct (f !! "sku") as [new_sku|]; [|apply keeps_rows_refl].
  destruct (bool_decide (new_sku <> p_sku (set_name p name))).
  - destruct (first_by p_sku (all_products st) new_sku); [apply keeps_rows_refl|].
    destruct (form_float f "purchase_price" 0); [|apply keeps_rows_refl].
    destruct (form_float f "selling_price" 0); [|apply keeps_rows_refl].
    destruct (form_int f "reorder_level" 10); [|apply keeps_rows_refl].
    destruct (form_ref f "category_id"); [|apply keeps_rows_refl].
    destruct (form_ref f "supplier_id"); [|apply keeps_rows_refl].
    unfold keeps_rows.
    cbn [r_store with_products all_products all_categories all_suppliers all_transactions].
    by rewrite update_row_keys.
  - destruct (form_float f "purchase_price" 0); [|apply keeps_rows_refl].
    destruct (form_float f "selling_price" 0); [|apply keeps_rows_refl].
    destruct (form_int f "reorder_level" 10); [|apply keeps_rows_refl].
    destruct (form_ref f "category_id"); [|apply keeps_rows_refl].
    destruct (form_ref f "supplier_id"); [|apply keeps_rows_refl].
    unfold keeps_rows.
    cbn [r_store with_products all_products all_categories all_suppliers all_transactions].
    by rewrite update_row_keys.
Qed.

Lemma update_stock_keeps st u now id m f :
  keeps_rows st (r_store (update_stock st u now id m f)).
Proof.
  destruct (update_stock_store st u now id m f)
    as [-> | (p & ty & delta & q & notes & Hg & ->)]; [apply keeps_rows_refl|].
  unfold moved, keeps_rows.
  cbn [all_products all_categories all_suppliers all_transactions].
  rewrite update_row_keys. repeat split; try done. by apply prefix_app_r.
Qed.

Lemma category_supplier_keep st :
  (forall f, keeps_rows st (r_store (add_category st f))) /\
  (forall id f, keeps_rows st (r_store (edit_category st id f))) /\
  (forall m f, keeps_rows st (r_store (add_supplier st m f))) /\
  (forall id m f, keeps_rows st (r_store (edit_supplier st id m f))).
Proof.
  split; [|split; [|split]].
  - intros f. unfold add_category.
    destruct (f !! "name") as [name|]; [|apply keeps_rows_refl].
    destruct (first_by c_name (all_categories st) name); [apply keeps_rows_refl|].
    unfold keeps_rows.
    cbn [r_store with_categories all_products all_categories all_suppliers all_transactions].
    rewrite fmap_app. repeat split; try done. by apply prefix_app_r.
  - intros id f. unfold edit_category.
    destruct (get c_id (all_categories st) id) as [c|]; [|apply keeps_rows_refl].
    destruct (f !! "name") as [name|]; [|apply keeps_rows_refl].
    destruct (if bool_decide (name <> c_name c)
              then first_by c_name (all_categories st) name else None);
      [apply keeps_rows_refl|].
    unfold keeps_rows. cbn [r_store with_categories all_products all_categories all_suppliers all_transactions].
    by rewrite update_row_keys.
  - intros m f. unfold add_supplier. destruct m; [apply keeps_rows_refl|].
    destruct (f !! "name") as [name|]; [|apply keeps_rows_refl].
    unfold keeps_rows.
    cbn [r_store with_suppliers all_products all_categories all_suppliers all_transactions].
    rewrite fmap_app. repeat split; try done. by apply prefix_app_r.
  - intros id m f. unfold edit_supplier.
    destruct (get s_id (all_suppliers st) id) as [s|]; [|apply keeps_rows_refl].
    destruct m; [apply keeps_rows_refl|].
    destruct (f !! "name") as [name|]; [|apply keeps_rows_refl].
    unfold keeps_rows. cbn [r_store with_suppliers all_products all_categories all_suppliers all_transactions].
    by rewrite update_row_keys.
Qed.

Lemma import_products_keeps st u now m file :
  keeps_rows st (r_store (ir_result (import_products st u now m file))).
Proof.
  unfold import_products.
  destruct (negb (is_admin u)); [apply keeps_rows_refl|].
  destruct m; [apply keeps_rows_refl|].
  destruct file as [file|]; [|apply keeps_rows_refl].
  destruct (String.eqb (filename file) ""); [apply keeps_rows_refl|].
  destruct (negb (Py.endswith (filename file) ".csv")); [apply keeps_rows_refl|].
  destruct (records file) as [t|]; [|apply keeps_rows_refl].
  destruct (negb (within_field_limit t)); [apply keeps_rows_refl|].
  cbn [ir_result r_store]. apply grown_keeps_rows.
  by destruct (import_rows_steps now (DictReader t) (mkImport st 0 0 [])) as (G & _).
Qed.

Lemma serve_keeps st rq : admin_delete rq = false -> keeps_rows st (serve st rq).
Proof.
  intros Hrq. destruct (category_supplier_keep st) as (Hac & Hec & Has & Hes).
  destruct rq; cbn [serve admin_delete] in *.
  - apply add_product_keeps.
  - apply edit_product_keeps.
  - unfold delete_product. rewrite Hrq. apply keeps_rows_refl.
  - apply update_stock_keeps.
  - apply Hac.
  - apply Hec.
  - unfold delete_category. rewrite Hrq. apply keeps_rows_refl.
  - apply Has.
  - apply Hes.
  - unfold delete_supplier. rewrite Hrq. apply keeps_rows_refl.
  - apply import_products_keeps.
Qed.

(** X21. Rows are lost only to an admin's deletion. Over any run of
    requests with no deletion asked by an admin, every product, category
    and supplier stays in its table under its id, in place, and every
    Transaction row stays in the ledger as it was: adding, editing, stock
    movements, imports and the deletions a non-admin asks for remove
    nothing. *)
Theorem rows_lost_only_to_admin_deletion (st : Store) (rqs : list request) :
  forallb (fun rq => negb (admin_delete rq)) rqs = true ->
  keeps_rows st (serve_all st rqs).
Proof.
  revert st. induction rqs as [|rq rqs IH]; intros st Hall; [apply keeps_rows_refl|].
  cbn [forallb] in Hall. apply andb_true_iff in Hall as [Hrq Hall].
  apply negb_true_iff in Hrq.
  cbn [serve_all foldl]. eapply keeps_rows_trans; [by apply serve_keeps|].
  by apply IH.
Qed.

(** ** The rows of the ledger *)

Lemma ledger_sound_same st st' :
  all_products st' = all_products st -> all_transactions st' = all_transactions st ->
  ledger_sound st -> ledger_sound st'.
Proof. unfold ledger_sound, ledger_row_ok. by intros -> ->. Qed.

Lemma ledger_sound_ids st st' :
  p_id <$> all_products st' = p_id <$> all_products st ->
  all_transactions st' = all_transactions st ->
  ledger_sound st -> ledger_sound st'.
Proof. unfold ledger_sound, ledger_row_ok. by intros -> ->. Qed.

Lemma ledger_sound_grown st st' :
  all_products st `prefix_of` all_products st' ->
  all_transactions st' = all_transactions st ->
  ledger_sound st -> ledger_sound st'.
Proof.
  unfold ledger_sound, ledger_row_ok. intros [k ->] ->. apply List.Forall_impl.
  intros t (Hin & Hty & Hq). split; [|done]. rewrite fmap_app. apply in_or_app. by left.
Qed.

Lemma add_product_sound st u now m f :
  ledger_sound st -> ledger_sound (r_store (add_product st u now m f)).
Proof.
  intros HL. unfold add_product. destruct m; [done|].
  destruct (form_float f "purchase_price" 0); [|done].
  destruct (form_float f "selling_price" 0); [|done].
  destruct (form_int f "quantity" 0) as [q|]; [|done].
  destruct (form_int f "reorder_level" 10); [|done].
  destruct (f !! "sku") as [sku|]; cbn [mbind option_bind].
  2: { by destruct (f !! "name"). }
  destruct (first_by p_sku (all_products st) sku); [done|].
  destruct (f !! "name"); [|done].
  destruct (form_key f "category_id"); [|done].
  destruct (form_key f "supplier_id"); [|done].
  cbn [r_store]. unfold ledger_sound, ledger_row_ok in *.
  cbn [all_products all_transactions p_id]. rewrite fmap_app. apply Forall_app. split.
  - revert HL. apply List.Forall_impl. intros t (Hin & Hty & Hq). split; [|done].
    apply in_or_app. by left.
  - destruct (0 <? q) eqn:E; [|constructor]. apply Z.ltb_lt in E.
    constructor; [|constructor]. cbn [t_product_id t_type t_quantity fmap list_fmap].
    split; [apply in_or_app; right; by left|]. split; [by left|done].
Qed.

Lemma edit_product_sound st id m f :
  ledger_sound st -> ledger_sound (r_store (edit_product st id m f)).
Proof.
  intros HL. destruct (edit_product_keeps st id m f) as (Hp & _ & _ & Ht).
  revert HL. revert Hp Ht. unfold edit_product.
  destruct (get p_id (all_products st) id) as [p|]; [|done].
  destruct m; [done|].
  destruct (f !! "name") as [name|]; [|done].
  destruct (f !! "sku") as [new_sku|]; [|done].
  destruct (bool_decide (new_sku <> p_sku (set_name p name))).
  - destruct (first_by p_sku (all_products st) new_sku); [done|].
    destruct (form_float f "purchase_price" 0); [|done].
    destruct (form_float f "selling_price" 0); [|done].
    destruct (form_int f "reorder_level" 10); [|done].
    destruct (form_ref f "category_id"); [|done].
    destruct (form_ref f "supplier_id"); [|done].
    intros _ _. apply ledger_sound_ids; [|done].
    cbn [r_store with_products all_products]. by rewrite update_row_keys.
  - destruct (form_float f "purchase_price" 0); [|done].
    destruct (form_float f "selling_price" 0); [|done].
    destruct (form_int f "reorder_level" 10); [|done].
    destruct (form_ref f "category_id"); [|done].
    destruct (form_ref f "supplier_id"); [|done].
    intros _ _. apply ledger_sound_ids; [|done].
    cbn [r_store with_products all_products]. by rewrite update_row_keys.
Qed.

Lemma delete_product_sound st u id :
  ledger_sound st -> ledger_sound (r_store (delete_product st u id)).
Proof.
  intros HL. unfold delete_product. destruct (negb (is_admin u)); [done|].
  destruct (get p_id (all_products st) id) as [p|] eqn:Hg; [|done].
  pose proof (get_key _ _ _ _ Hg) as Hid. rewrite Hid.
  cbn [r_store]. unfold ledger_sound, ledger_row_ok in *.
  cbn [all_products all_transactions]. rewrite List.Forall_forall in *.
  intros t Ht. apply filter_In in Ht as [Ht Hne].
  apply negb_true_iff, Z.eqb_neq in Hne.
  destruct (HL t Ht) as (Hin & Hty & Hq). split; [|done].
  apply list_elem_of_In, list_elem_of_fmap in Hin as (p' & Hp' & Hin').
  apply list_elem_of_In, list_elem_of_fmap. exists p'. split; [done|].
  apply list_elem_of_In. unfold delete_row. apply filter_In.
  split; [by apply list_elem_of_In|]. apply negb_true_iff, Z.eqb_neq. congruence.
Qed.

Lemma update_stock_sound st u now id m f :
  ledger_sound st -> ledger_sound (r_store (update_stock st u now id m f)).
Proof.
  intros HL. unfold update_stock.
  destruct (get p_id (all_products st) id) as [p|] eqn:Hg; [|done].
  destruct m; [done|].
  destruct (form_int f "quantity" 0) as [q|]; [|done].
  destruct (q <=? 0) eqn:E0; [done|]. apply Z.leb_gt in E0.
  destruct (bool_decide (f !! "action" = Some "sale") && (p_quantity p <? q)); [done|].
  assert (Hin : In (p_id p) (p_id <$> all_products st)).
  { apply list_elem_of_In, list_elem_of_fmap. exists p. split; [done|]. by eapply get_elem. }
  destruct (bool_decide (f !! "action" = Some "purchase"));
    cbn [r_store]; unfold ledger_sound, ledger_row_ok in *;
    cbn [all_products all_transactions]; rewrite update_row_keys;
    (apply Forall_app; split; [done|]);
    (constructor; [|constructor]); cbn [t_product_id t_type t_quantity];
    (split; [done|]); (split; [|done]); [by left|by right].
Qed.

Lemma import_products_sound st u now m file :
  ledger_sound st -> ledger_sound (r_store (ir_result (import_products st u now m file))).
Proof.
  intros HL. unfold import_products.
  destruct (negb (is_admin u)); [done|]. destruct m; [done|].
  destruct file as [file|]; [|done].
  destruct (String.eqb (filename file) ""); [done|].
  destruct (negb (Py.endswith (filename file) ".csv")); [done|].
  destruct (records file) as [t|]; [|done]. destruct (negb (within_field_limit t)); [done|].
  cbn [ir_result r_store].
  destruct (import_rows_steps now (DictReader t) (mkImport st 0 0 [])) as ((P & _ & _ & T) & _).
  by apply (ledger_sound_grown st).
Qed.

Lemma serve_sound st rq : ledger_sound st -> ledger_sound (serve st rq).
Proof.
  intros HL.
  destruct rq;
    try (match goal with
         | |- context [serve st ?r] =>
             destruct (catalog_handlers_keep_ledger st r I) as [Hp Ht];
             by apply (ledger_sound_same st)
         end);
    cbn [serve].
  - by apply add_product_sound.
  - by apply edit_product_sound.
  - by apply delete_product_sound.
  - by apply update_stock_sound.
  - by apply import_products_sound.
Qed.

Lemma serve_all_sound rqs st : ledger_sound st -> ledger_sound (serve_all st rqs).
Proof.
  revert st. induction rqs as [|rq rqs IH]; intros st HL; [done|].
  cbn [serve_all foldl]. apply IH. by apply serve_sound.
Qed.

(** X22. Every row of the ledger is sound. In every store reached from
    the empty one, by whatever requests, every Transaction row references
    a product of the catalog, its type is purchase or sale, and its
    quantity is positive. *)
Theorem ledger_rows_sound_in_every_reachable_store (rqs : list request) :
  let st := serve_all empty_store rqs in
  forall t, t ∈ all_transactions st ->
    (exists p, p ∈ all_products st /\ p_id p = t_product_id t) /\
    (t_type t = "purchase" \/ t_type t = "sale") /\
    0 < t_quantity t.
Proof.
  cbn zeta. intros t Ht.
  assert (HL : ledger_sound (serve_all empty_store rqs)).
  { apply serve_all_sound. constructor. }
  unfold ledger_sound in HL. rewrite List.Forall_forall in HL.
  destruct (HL t) as (Hin & Hty & Hq); [by apply list_elem_of_In|].
  split; [|done].
  apply list_elem_of_In, list_elem_of_fmap in Hin as (p & Hp & Hin). by exists p.
Qed.

(** ** The export of the ledger *)

Lemma get_In_Some {A} (key : A -> Z) (rows : list A) (id : Z) :
  In id (key <$> rows) -> exists r, get key rows id = Some r.
Proof.
  unfold get. induction rows as [|x rows IH]; [done|].
  rewrite fmap_cons. cbn [In find]. intros [Hx | Hin].
  - exists x. by rewrite (proj2 (Z.eqb_eq _ _) Hx).
  - destruct (key x =? id); [by exists x|by apply IH].
Qed.

Lemma transaction_record_sound st users t :
  ledger_row_ok st t ->
  exists r, transaction_record st users t = Some r /\
    length r = length transactions_header /\
    r !! 4%nat = Some (capitalize (t_type t)).
Proof.
  intros (Hin & _). destruct (get_In_Some _ _ _ Hin) as [p Hp].
  unfold transaction_record. rewrite Hp. cbn [mbind option_bind]. eexists.
  split; [reflexivity|]. split; reflexivity.
Qed.

Lemma export_records st users l :
  Forall (ledger_row_ok st) l ->
  exists records,
    mapM (transaction_record st users) l = Some records /\
    Forall2 (fun t r => length r = length transactions_header /\
                        r !! 4%nat = Some (capitalize (t_type t))) l records.
Proof.
  induction 1 as [|t l Ht _ (records & Hm & HF)]; [by exists []|].
  destruct (transaction_record_sound st users t Ht) as (r & Hr & Hlen & Hty).
  exists (r :: records). split; [|by constructor].
  cbn [mapM]. rewrite Hr. cbn [mbind option_bind]. by rewrite Hm.
Qed.

Lemma exported_transactions_elem st a t :
  t ∈ exported_transactions st a ->
  t ∈ all_transactions st /\
  (default "all" (a !! "type") = "purchase" -> t_type t = "purchase") /\
  (default "all" (a !! "type") = "sale" -> t_type t = "sale").
Proof.
  unfold exported_transactions. cbv zeta. rewrite <- order_by_perm.
  destruct (String.eqb (default "all" (a !! "type")) "purchase") eqn:E1.
  - apply String.eqb_eq in E1. rewrite list_elem_of_In, filter_In, <- list_elem_of_In.
    rewrite String.eqb_eq, E1. intuition discriminate.
  - apply String.eqb_neq in E1.
    destruct (String.eqb (default "all" (a !! "type")) "sale") eqn:E2.
    + apply String.eqb_eq in E2. rewrite list_elem_of_In, filter_In, <- list_elem_of_In.
      rewrite String.eqb_eq. intuition.
    + apply String.eqb_neq in E2. intuition.
Qed.

Lemma purchases_and_sales (l : list Transaction) :
  Forall (fun t => t_type t = "purchase" \/ t_type t = "sale") l ->
  length l
  = (length (List.filter (fun t => String.eqb (t_type t) "purchase") l)
     + length (List.filter (fun t => String.eqb (t_type t) "sale") l))%nat.
Proof.
  induction 1 as [|t l [Ht | Ht] _ IH]; [done| |];
    cbn [List.filter length]; rewrite Ht; cbn; lia.
Qed.

(** X23. The export of the ledger never fails on a reachable store. In
    every store reached from the empty one, and whoever the users are,
    [export_transactions] answers with the header and one record per
    transaction of the chosen type, of eight cells, whose Type is
    "Purchase" or "Sale"; and the export of everything has as many
    records as the export of the purchases and the export of the sales
    together. *)
Theorem export_transactions_of_reachable_store (rqs : list request) (users : list User) :
  let st := serve_all empty_store rqs in
  (forall a, exists records,
     export_transactions st users a = Some (transactions_header :: records) /\
     length records = length (exported_transactions st a) /\
     Forall (fun r => length r = 8%nat /\
                      (r !! 4%nat = Some "Purchase" \/ r !! 4%nat = Some "Sale")) records) /\
  (exists all purchases sales,
     export_transactions st users ∅ = Some (transactions_header :: all) /\
     export_transactions st users {[ "type" := "purchase" ]}
       = Some (transactions_header :: purchases) /\
     export_transactions st users {[ "type" := "sale" ]}
       = Some (transactions_header :: sales) /\
     length all = length (all_transactions st) /\
     length all = (length purchases + length sales)%nat /\
     Forall (fun r => r !! 4%nat = Some "Purchase") purchases /\
     Forall (fun r => r !! 4%nat = Some "Sale") sales).
Proof.
  cbn zeta. set (st := serve_all empty_store rqs).
  assert (HL : ledger_sound st) by (apply serve_all_sound; constructor).
  unfold ledger_sound in HL.
  assert (Hok : forall a, Forall (ledger_row_ok st) (exported_transactions st a)).
  { intros a. rewrite List.Forall_forall in *. intros t Ht. apply HL.
    apply list_elem_of_In. by apply list_elem_of_In, exported_transactions_elem in Ht as [? _]. }
  assert (Hexp : forall a, exists records,
            export_transactions st users a = Some (transactions_header :: records) /\
            Forall2 (fun t r => length r = 8%nat /\ r !! 4%nat = Some (capitalize (t_type t)))
              (exported_transactions st a) records).
  { intros a. destruct (export_records st users _ (Hok a)) as (records & Hm & HF).
    exists records. split; [|done]. unfold export_transactions. by rewrite Hm. }
  split.
  - intros a. destruct (Hexp a) as (records & He & HF). exists records.
    split; [done|]. split; [symmetry; by eapply Forall2_length|].
    specialize (Hok a). clear He. revert Hok. induction HF as [|t r l k [Hlen Hty] _ IH]; [done|].
    intros Hok. apply Forall_cons in Hok as [(_ & Ht & _) Hok].
    constructor; [|by apply IH]. split; [done|].
    rewrite Hty. by destruct Ht as [-> | ->]; [left|right].
  - destruct (Hexp ∅) as (all & Ha & Fa).
    destruct (Hexp {[ "type" := "purchase" ]}) as (pur & Hp & Fp).
    destruct (Hexp {[ "type" := "sale" ]}) as (sal & Hs & Fs).
    exists all, pur, sal. split; [done|]. split; [done|]. split; [done|].
    apply Forall2_length in Fa as La. apply Forall2_length in Fp as Lp.
    apply Forall2_length in Fs as Ls.
    assert (Ea : length (exported_transactions st ∅) = length (all_transactions st)).
    { unfold exported_transactions. symmetry. apply Permutation_length, order_by_perm. }
    assert (Ep : length (exported_transactions st {[ "type" := "purchase" ]})
                 = length (List.filter (fun t => String.eqb (t_type t) "purchase")
                             (all_transactions st))).
    { unfold exported_transactions. symmetry. apply Permutation_length, order_by_perm. }
    assert (Es : length (exported_transactions st {[ "type" := "sale" ]})
                 = length (List.filter (fun t => String.eqb (t_type t) "sale")
                             (all_transactions st))).
    { unfold exported_transactions. symmetry. apply Permutation_length, order_by_perm. }
    split; [lia|]. split.
    + rewrite <- La, <- Lp, <- Ls, Ea, Ep, Es. apply purchases_and_sales.
      revert HL. apply List.Forall_impl. by intros t (_ & Ht & _).
    + split.
      * assert (Hall : Forall (fun t => t_type t = "purchase")
                         (exported_transactions st {[ "type" := "purchase" ]})).
        { rewrite List.Forall_forall. intros t Ht.
          by apply list_elem_of_In, exported_transactions_elem in Ht as (_ & Ht & _); apply Ht. }
        clear Hp Lp Ep. induction Fp as [|t r l k [_ Hty] _ IH]; [done|].
        apply Forall_cons in Hall as [Ht Hall]. constructor; [|by apply IH].
        by rewrite Hty, Ht.
      * assert (Hall : Forall (fun t => t_type t = "sale")
                         (exported_transactions st {[ "type" := "sale" ]})).
        { rewrite List.Forall_forall. intros t Ht.
          by apply list_elem_of_In, exported_transactions_elem in Ht as (_ & _ & Ht); apply Ht. }
        clear Hs Ls Es. induction Fs as [|t r l k [_ Hty] _ IH]; [done|].
        apply Forall_cons in Hall as [Ht Hall]. constructor; [|by apply IH].
        by rewrite Hty, Ht.
Qed.

End Properties.

(** * Runs of the handlers on concrete requests *)

Module Runs.
Import Examples.
#[local] Existing Instance whole_floats.
#[local] Existing Instance table_order.
#[local] Existing Instance known_attributes.

(** Goals on tables are closed by conversion; [vm_compute] is kept for the
    goals whose value is a number, a text or a list of them. *)
Ltac run := first [reflexivity | vm_compute; first [reflexivity | discriminate | congruence]].

Example store_widget_products : all_products store_widget = [widget].
Proof. run. Qed.

Example store_widget_rows : length (rows_of store_widget 1) = 1%nat.
Proof. run. Qed.

Lemma purchase_3_succeeds : succeeds 1 store_widget purchase_3.
Proof.
  exists "purchase", 3, 5.
  split; [run|]. split; [run|]. split; [by left|]. split; [lia|discriminate].
Defined.

Lemma sale_2_succeeds : succeeds 1 (record_movement 1 store_widget purchase_3) sale_2.
Proof.
  exists "sale", 2, 8.
  split; [run|]. split; [run|]. split; [by right|]. split; [lia|intros _; lia].
Defined.

(** A purchase of 3 and a sale of 2 on the widget created with 5 in
    stock. *)
Lemma ledger_balance_witness :
  let rs := [purchase_3; sale_2] in
  let st' := record_movements 1 store_widget rs in
  stock st' 1 = Some (5 + total_of "purchase" rs - total_of "sale" rs) /\
  (exists added, rows_of st' 1 = rows_of store_widget 1 ++ added /\
                 length added = length rs) /\
  length (rows_of st' 1) = (length (rows_of store_widget 1) + length rs)%nat /\
  (rows_of store_widget 1 = [] -> length (rows_of st' 1) = length rs).
Proof.
  apply (ledger_balance 1 [purchase_3; sale_2] store_widget 5).
  - run.
  - simpl. split; [exact purchase_3_succeeds|]. split; [exact sale_2_succeeds|exact I].
Defined.

(** C1 as stated fails on a product created through the product form with
    an initial quantity: the creation has already written the "Initial
    stock" row, so after one successful movement two rows reference the
    product. *)
Lemma rows_exceed_calls :
  store_widget = r_store (add_product empty_store admin t0 POST widget_form) /\
  stock store_widget 1 = Some 5 /\
  all_succeed 1 store_widget [purchase_3] /\
  stock (record_movements 1 store_widget [purchase_3]) 1 = Some 8 /\
  length (rows_of (record_movements 1 store_widget [purchase_3]) 1) = 2%nat /\
  length (rows_of (record_movements 1 store_widget [purchase_3]) 1)
    <> length [purchase_3].
Proof.
  split; [reflexivity|]. split; [run|].
  split; [simpl; split; [exact purchase_3_succeeds|exact I]|].
  split; [run|]. split; [run|]. run.
Qed.

(** A sale of 9 on the widget with 5 in stock. *)
Lemma sale_beyond_stock_rejected_witness :
  update_stock store_widget staff t0 1 POST sale_9
    = mkResult store_widget [InsufficientStock] (Render "stock_form.html" (Some widget)).
Proof.
  apply (sale_beyond_stock_rejected store_widget staff t0 1 sale_9 widget 9).
  - run.
  - run.
  - run.
  - lia.
  - simpl. lia.
Defined.

(** C2 as stated fails where the stock is negative and the quantity sold is
    not positive: a sale of 0 exceeds a stock of -5, and the answer is the
    message for a non-positive quantity. *)
Lemma sale_of_zero_not_insufficient :
  store_owed = r_store (add_product empty_store admin t0 POST owed_form) /\
  stock store_owed 1 = Some (-5) /\
  sale_0 !! "action" = Some "sale" /\
  form_int sale_0 "quantity" 0 = Some 0 /\
  -5 < 0 /\
  r_flashes (update_stock store_owed staff t0 1 POST sale_0) = [InvalidQuantity] /\
  r_flashes (update_stock store_owed staff t0 1 POST sale_0) <> [InsufficientStock].
Proof. split; [reflexivity|]. repeat split; try run; lia. Qed.

(** The widget store, any movement and any creation. *)
Lemma quantity_nonneg_preserved_witness :
  (forall id f, f !! "action" = Some "purchase" \/ f !! "action" = Some "sale" ->
     nonneg (r_store (update_stock store_widget staff t0 id POST f))) /\
  (forall f q, form_int f "quantity" 0 = Some q -> 0 <= q ->
     nonneg (r_store (add_product store_widget staff t0 POST f))).
Proof.
  apply (quantity_nonneg_preserved store_widget staff t0 POST).
  unfold nonneg. rewrite store_widget_products.
  constructor; [simpl; lia|constructor].
Defined.

(** C3 as stated fails: the product form accepts a negative initial
    quantity, and a movement whose action is neither "purchase" nor "sale"
    is taken off the stock without a check. *)
Lemma quantity_can_go_negative :
  nonneg empty_store /\
  stock (r_store (add_product empty_store admin t0 POST owed_form)) 1 = Some (-5) /\
  ~ nonneg (r_store (add_product empty_store admin t0 POST owed_form)) /\
  nonneg store_widget /\
  stock (r_store (update_stock store_widget staff t0 1 POST adjust_9)) 1 = Some (-4) /\
  ~ nonneg (r_store (update_stock store_widget staff t0 1 POST adjust_9)).
Proof.
  split; [constructor|]. split; [run|]. split.
  { intros Hn. unfold nonneg in Hn. apply Forall_inv in Hn. vm_compute in Hn. by apply Hn. }
  split.
  { unfold nonneg. rewrite store_widget_products. constructor; [simpl; lia|constructor]. }
  split; [run|].
  intros Hn. unfold nonneg in Hn. apply Forall_inv in Hn. vm_compute in Hn. by apply Hn.
Qed.

(** The action "adjust" with quantity 9 on the widget with 5 in stock. *)
Lemma other_action_recorded_as_sale_witness :
  let r := update_stock store_widget staff t0 1 POST adjust_9 in
  ((adjust_9 !! "action" = Some "sale" -> 9 <= p_quantity widget) ->
     stock (r_store r) 1 = Some (p_quantity widget - 9) /\
     exists t, all_transactions (r_store r) = all_transactions store_widget ++ [t] /\
       t_type t = "sale" /\ t_quantity t = 9 /\ t_product_id t = 1) /\
  (adjust_9 !! "action" <> Some "sale" -> p_quantity widget < 9 ->
     exists left, stock (r_store r) 1 = Some left /\ left < 0) /\
  (adjust_9 !! "action" = Some "sale" -> p_quantity widget < 9 ->
     r = mkResult store_widget [InsufficientStock] (Render "stock_form.html" (Some widget))).
Proof.
  apply (other_action_recorded_as_sale store_widget staff t0 1 adjust_9 widget 9).
  - run.
  - run.
  - lia.
  - run.
Defined.

Example adjust_9_leaves_negative_stock :
  stock (r_store (update_stock store_widget staff t0 1 POST adjust_9)) 1 = Some (-4) /\
  t_type <$> all_transactions (r_store (update_stock store_widget staff t0 1 POST adjust_9))
    = ["purchase"; "sale"].
Proof. split; run. Qed.

Example strftime_ex : strftime_Ymd t0 = "2026-11-03" /\ strftime_bd t0 = "Nov 03"
  /\ strftime_YmdHMS t0 = "2026-11-03 10:00:00" /\ strftime_Ymd 0 = "1970-01-01"
  /\ strftime_Ymd (-1) = "1969-12-31" /\ strftime_Ymd (11016 * one_day) = "2000-02-29".
Proof. repeat split; run. Qed.

(** C5: the supplier "Acme" posted a second time. *)
Lemma add_supplier_duplicate_accepted_witness :
  let r := add_supplier store_acme POST acme_form in
  r_flashes r = [("Supplier added successfully!", "success")] /\
  exists added,
    all_suppliers (r_store r) = all_suppliers store_acme ++ [added] /\
    s_name added = "Acme" /\ s_name acme = "Acme" /\ In acme (all_suppliers store_acme).
Proof.
  apply (add_supplier_duplicate_accepted store_acme acme_form "Acme" acme).
  - run.
  - run.
Defined.

Example two_suppliers_named_acme :
  s_name <$> all_suppliers (r_store (add_supplier store_acme POST acme_form))
    = ["Acme"; "Acme"].
Proof. run. Qed.

(** C6: the widget renamed and moved onto the gadget's SKU. *)
Lemma edit_product_duplicate_sku_witness :
  edit_product store_two 1 POST rename_form
    = mkResult store_two [DuplicateSKU]
        (Render "product_form.html" (Some (set_name widget "Renamed"))).
Proof.
  apply (edit_product_duplicate_sku store_two 1 rename_form widget gadget
           "Renamed" "G1").
  - run.
  - run.
  - run.
  - simpl. discriminate.
  - run.
Defined.

Example rejected_edit_shows_new_name :
  p_name <$> get p_id (all_products store_two) 1 = Some "Widget" /\
  r_flashes (edit_product store_two 1 POST rename_form) = [DuplicateSKU] /\
  r_store (edit_product store_two 1 POST rename_form) = store_two /\
  (exists shown, r_response (edit_product store_two 1 POST rename_form)
                 = Render "product_form.html" (Some shown) /\
                 p_name shown = "Renamed" /\ p_name shown <> "Widget").
Proof.
  split; [run|]. split; [run|]. split; [run|].
  exists (set_name widget "Renamed"). split; [reflexivity|]. split; [reflexivity|discriminate].
Qed.



(** C4: the only transaction is the purchase of 5 recorded today; the
    statistics asked for later that day end with yesterday, and every
    total is 0. *)
Lemma dashboard_stats_misses_today :
  (t_type <$> all_transactions store_widget) = ["purchase"] /\
  (t_quantity <$> all_transactions store_widget) = [5] /\
  (strftime_Ymd <$> (t_created_at <$> all_transactions store_widget)) = ["2026-11-03"] /\
  strftime_Ymd t0_later = "2026-11-03" /\
  last (labels (dashboard_stats store_widget t0_later)) = Some "Nov 02" /\
  last (purchases (dashboard_stats store_widget t0_later)) = Some 0 /\
  purchases (dashboard_stats store_widget t0_later) = replicate 30 0.
Proof. repeat split; run. Qed.

(** C8: the new row followed by a row with the widget's SKU, imported
    into the store that holds the widget. *)
Lemma import_new_and_duplicate_witness :
  (exists s p,
     ir_loop (import_products store_widget admin t0 POST (Some file_new_and_dup)) = Some s /\
     r_store (ir_result (import_products store_widget admin t0 POST (Some file_new_and_dup)))
       = i_store s /\
     imported s = 1 /\ skipped s = 1 /\
     errors s = ["SKU '" +:+ "W1" +:+ "' already exists"] /\
     all_products (i_store s) = all_products store_widget ++ [p] /\
     p_sku p = "X1" /\ p_name p = "Widget" /\
     (exists c, In c (all_categories (i_store s)) /\ c_name c = "Tools" /\
                p_category_id p = Some (c_id c)) /\
     (first_by c_name (all_categories store_widget) "Tools" = None ->
        all_categories (i_store s)
          = all_categories store_widget
              ++ [mkCategory (next_id c_id (all_categories store_widget)) "Tools" None]) /\
     (is_Some (first_by c_name (all_categories store_widget) "Tools") ->
        all_categories (i_store s) = all_categories store_widget)) /\
  (forall s r, row_sku r = inr "" -> import_row t0 s r = skip s) /\
  (forall s r sku, row_sku r = inr sku -> sku <> "" ->
     first_by p_sku (all_products (i_store s)) sku = None ->
     row_name r = inr "" -> import_row t0 s r = skip s) /\
  (forall s r, row_get r "SKU" "sku" (PyStr "") = PyNone ->
     import_row t0 s r = skip_with s "'NoneType' object has no attribute 'strip'") /\
  (forall s r sku, row_sku r = inr sku -> sku <> "" ->
     first_by p_sku (all_products (i_store s)) sku = None ->
     row_get r "Name" "name" (PyStr "") = PyNone ->
     import_row t0 s r = skip_with s "'NoneType' object has no attribute 'strip'").
Proof.
  apply (import_new_and_duplicate store_widget admin t0 file_new_and_dup
           [import_header; x1_record; ["W1"; "Other"; ""]]
           (zip_row import_header x1_record ∅)
           (zip_row import_header ["W1"; "Other"; ""] ∅)
           "" "W1" 0 0 0 10 widget).
  - run.
  - discriminate.
  - run.
  - run.
  - vm_compute. reflexivity.
  - left. reflexivity.
  - run.
  - run.
  - run.
  - run.
  - repeat split; run.
  - run.
  - run.
  - discriminate.
  - run.
Defined.

(** C8 as stated fails twice. A row carrying a SKU of the catalog that
    ends in a space is looked up without the space, found new and
    imported: two products imported, none skipped. And a row with a blank
    Name whose SKU is in the catalog is skipped with the duplicate
    message. *)
Lemma import_duplicate_not_skipped :
  (p_sku <$> all_products store_spaced = ["A1 "] /\
   imported <$> ir_loop (import_products store_spaced admin t0 POST (Some file_new_and_spaced))
     = Some 2 /\
   skipped <$> ir_loop (import_products store_spaced admin t0 POST (Some file_new_and_spaced))
     = Some 0 /\
   errors <$> ir_loop (import_products store_spaced admin t0 POST (Some file_new_and_spaced))
     = Some [] /\
   p_sku <$> all_products
               (r_store (ir_result (import_products store_spaced admin t0 POST
                                      (Some file_new_and_spaced))))
     = ["A1 "; "X1"; "A1"]) /\
  (row_name nameless_dup_row = inr "" /\
   row_sku nameless_dup_row = inr "W1" /\
   errors (import_row t0 (loop_start store_widget) nameless_dup_row)
     = ["SKU 'W1' already exists"] /\
   errors (import_row t0 (loop_start store_widget) nameless_dup_row)
     <> errors (loop_start store_widget)).
Proof. repeat split; run. Qed.

(** The whole floats print and read back. *)
Lemma whole_floats_round_trip (x : Z) :
  float_of_string (PyFloat := whole_floats) (float_repr (PyFloat := whole_floats) x) = Some x.
Proof. apply int_str_of_int. Qed.

Lemma whole_floats_truthy (x : Z) :
  Py.truthy (float_repr (PyFloat := whole_floats) x) = true.
Proof. apply str_of_int_truthy. Qed.

(** C9: the store with the widget and the gadget, exported and imported
    into the empty store. *)
Lemma export_import_round_trip_witness :
  let res := import_products empty_store admin t0 POST
               (Some (mkUpload "products_export.csv" (Some (export_products store_two)))) in
  let after := all_products (r_store (ir_result res)) in
  Permutation (catalog_view after) (catalog_view (all_products store_two)) /\
  catalog_view after
    = catalog_view (order_by (asc (fun p => SqlText (p_name p))) (all_products store_two)) /\
  (exists s, ir_loop res = Some s /\
     imported s = Z.of_nat (length (all_products store_two)) /\ skipped s = 0 /\
     errors s = []).
Proof.
  assert (E : all_products store_two = [widget; gadget]) by reflexivity.
  apply (export_import_round_trip store_two empty_store admin t0 "products_export.csv").
  - rewrite E. repeat constructor; try reflexivity; discriminate.
  - rewrite E. repeat constructor; solve [apply whole_floats_truthy | apply whole_floats_round_trip].
  - vm_compute. reflexivity.
  - rewrite E. change (p_sku <$> [widget; gadget]) with ["W1"; "G1"].
    apply NoDup_cons. split; [|apply NoDup_singleton].
    rewrite not_elem_of_cons. split; [discriminate|apply not_elem_of_nil].
  - reflexivity.
  - reflexivity.
  - discriminate.
  - reflexivity.
Defined.

(** C9 as stated fails on two catalogs the product form can build. A SKU
    that ends in a space comes back without it, and a product with an
    empty name does not come back at all. *)
Lemma round_trip_loses_skus :
  (p_sku <$> all_products store_spaced = ["A1 "] /\
   p_sku <$> round_trip store_spaced = ["A1"] /\
   p_sku <$> round_trip store_spaced <> p_sku <$> all_products store_spaced) /\
  (p_sku <$> all_products store_nameless = ["B1"] /\
   p_quantity <$> all_products store_nameless = [3] /\
   p_sku <$> round_trip store_nameless = [] /\
   p_sku <$> round_trip store_nameless <> p_sku <$> all_products store_nameless).
Proof. repeat split; run. Qed.

Example round_trip_store_two :
  p_sku <$> round_trip store_two = ["G1"; "W1"] /\
  p_quantity <$> round_trip store_two = [0; 5].
Proof. split; run. Qed.

End Runs.

(** * Further runs of the handlers *)

Module MoreRuns.
Import Examples MoreExamples.
#[local] Existing Instance whole_floats.
#[local] Existing Instance table_order.
#[local] Existing Instance known_attributes.

Ltac run := first [reflexivity | vm_compute; first [reflexivity | discriminate | congruence]].

(** Dates read by [strptime_Ymd] and written by [strftime_Ymd]. *)
Example strptime_examples :
  strptime_Ymd "2026-11-03" = Some (20760 * one_day) /\
  strptime_Ymd "2026-1-3" = Some (20456 * one_day) /\
  strptime_Ymd "2024-02-29" = Some (19782 * one_day) /\
  strptime_Ymd "2023-02-29" = None /\ strptime_Ymd "2026-11-031" = None /\
  strptime_Ymd "2026-11-3x" = None /\ strptime_Ymd "2026-13-01" = None /\
  strptime_Ymd "2026-11- 3" = Some (20760 * one_day) /\ strptime_Ymd "0000-01-01" = None /\
  strptime_Ymd " 2026-11-03" = None /\ strptime_Ymd "2026-11-03 " = None /\
  strptime_Ymd "1970-01-01" = Some 0 /\
  strftime_Ymd (20456 * one_day) = "2026-01-03" /\ strftime_Ymd (19782 * one_day) = "2024-02-29".
Proof. repeat split; run. Qed.

Example store_hammer_tables :
  all_products store_hammer = [hammer] /\ all_categories store_hammer = [tools].
Proof. split; reflexivity. Qed.

(** The transaction list of the store with the widget: the day of the
    initial stock, and the last day of the calendar. *)
Example transactions_examples :
  (length <$> transactions store_widget on_nov_3) = Some 1%nat /\
  (length <$> transactions store_widget (to_form [("date_to", "2026-11-02")])) = Some 0%nat /\
  (length <$> transactions store_widget (to_form [("date_from", "2026-11-04")])) = Some 0%nat /\
  (length <$> transactions store_widget from_yesterday) = Some 1%nat /\
  transactions store_widget to_last_day = None.
Proof. repeat split; run. Qed.

(** The export of the ledger of the store with the widget, and of a
    ledger with a row whose product is not there. *)
Example export_transactions_examples :
  export_transactions store_widget [admin; staff] ∅
    = Some [transactions_header;
            ["1"; "2026-11-03 10:00:00"; "Widget"; "W1"; "Purchase"; "5"; "Initial stock";
             "admin"]] /\
  export_transactions store_widget [] ∅
    = Some [transactions_header;
            ["1"; "2026-11-03 10:00:00"; "Widget"; "W1"; "Purchase"; "5"; "Initial stock";
             "System"]] /\
  export_transactions store_widget [admin] {[ "type" := "sale" ]}
    = Some [transactions_header] /\
  export_transactions
    (mkStore [] [] [] [mkTransaction 1 7 "sale" 2 None None t0]) [admin] ∅ = None.
Proof. repeat split; run. Qed.

(** X2: a sale on the widget, seen from the gadget. *)
Lemma update_stock_other_products_witness :
  let st' := r_store (update_stock store_two staff t0 1 POST sale_2_form) in
  stock st' 2 = stock store_two 2 /\
  rows_of st' 2 = rows_of store_two 2 /\
  all_categories st' = all_categories store_two /\
  all_suppliers st' = all_suppliers store_two.
Proof.
  apply (update_stock_other_products store_two staff t0 1 2 POST sale_2_form).
  lia.
Defined.

(** X4: the widget deleted from the store with the widget and the
    gadget. *)
Lemma delete_product_removes_ledger_witness :
  let r := delete_product store_two admin 1 in
  (is_admin admin = false ->
     r = mkResult store_two [OnlyAdminsProducts] (Redirect "products")) /\
  (is_admin admin = true ->
     stock (r_store r) 1 = None /\ rows_of (r_store r) 1 = [] /\
     forall id', id' <> 1 ->
       stock (r_store r) id' = stock store_two id' /\
       rows_of (r_store r) id' = rows_of store_two id').
Proof.
  apply (delete_product_removes_ledger store_two admin 1 widget).
  reflexivity.
Defined.

(** X5: the category of the hammer. *)
Lemma delete_keeps_referenced_witness :
  (forall c, In c (all_categories store_hammer) -> p_category_id hammer = Some (c_id c) ->
     In c (all_categories (r_store (delete_category store_hammer admin 1))) /\
     all_products (r_store (delete_category store_hammer admin 1))
       = all_products store_hammer) /\
  (forall s, In s (all_suppliers store_hammer) -> p_supplier_id hammer = Some (s_id s) ->
     In s (all_suppliers (r_store (delete_supplier store_hammer admin 1))) /\
     all_products (r_store (delete_supplier store_hammer admin 1))
       = all_products store_hammer).
Proof.
  apply (delete_keeps_referenced store_hammer admin 1 hammer).
  left. reflexivity.
Defined.

(** X8: a creation, a sale, a second creation and a deletion. *)
Lemma ledger_accounts_for_stock_witness :
  let st := serve_all empty_store ledger_run in
  (forall p, p ∈ all_products st -> p_quantity p = ledger_sum st (p_id p)) /\
  (forall t, t ∈ all_transactions st ->
     exists p, p ∈ all_products st /\ p_id p = t_product_id t).
Proof.
  apply (ledger_accounts_for_stock ledger_run).
  vm_compute. reflexivity.
Defined.

(** X9: the widget created, and a second request with its SKU. *)
Lemma add_product_same_sku_rejected_witness :
  let st1 := r_store (add_product empty_store admin t0 POST widget_form) in
  let r := add_product st1 staff t0_later POST other_w1_form in
  r_store r = st1 /\
  (r = mkResult st1 [DuplicateSKU] (Render "product_form.html" None) \/ r = raised st1).
Proof.
  apply (add_product_same_sku_rejected empty_store admin staff t0 t0_later POST
           widget_form other_w1_form).
  - reflexivity.
  - vm_compute. reflexivity.
Defined.

(** X10: the list of the store with the widget and the gadget, with no
    parameter. *)
Lemma products_lists_the_catalog_witness :
  exists l, products store_two ∅ = Some l /\
    (forall p, p ∈ l -> p ∈ all_products store_two) /\
    (default "" ((∅ : args) !! "search") = "" ->
     args_int ∅ "category" = None \/ args_int ∅ "category" = Some 0 ->
     l ≡ₚ all_products store_two).
Proof.
  apply (products_lists_the_catalog store_two ∅).
  reflexivity.
Defined.


(** X12: "wid" for "WID". *)
Lemma search_ignores_case_witness :
  products store_two (<["search" := "wid"]> search_WID) = products store_two search_WID.
Proof.
  apply (search_ignores_case store_two search_WID "WID" "wid").
  - vm_compute. reflexivity.
  - reflexivity.
Defined.

(** X14: the dashboard of the store with the widget and the gadget. *)
Lemma dashboard_figures_witness :
  (out_of_stock_count (dashboard store_two) <= low_stock_count (dashboard store_two))%nat.
Proof.
  apply (dashboard_figures store_two).
  change (Forall (fun p => 0 <= p_reorder_level p) [widget; gadget]).
  repeat constructor; simpl; lia.
Defined.

(** X15: the file with a new row and a duplicate. *)
Lemma import_counts_every_row_witness :
  exists t, (Some file_new_and_dup ≫= records) = Some t /\
    imported after_import + skipped after_import = Z.of_nat (length (DictReader t)) /\
    0 <= imported after_import /\
    Z.of_nat (length (errors after_import)) <= skipped after_import /\
    Z.of_nat (length (all_products (i_store after_import)))
      = Z.of_nat (length (all_products store_widget)) + imported after_import.
Proof.
  apply (import_counts_every_row store_widget admin t0 POST (Some file_new_and_dup)
           after_import).
  reflexivity.
Defined.

(** X17: the same file, an hour later. *)
Lemma import_again_adds_nothing_witness :
  let again := import_products (i_store after_import) staff t0_later POST
                 (Some file_new_and_dup) in
  all_products (r_store (ir_result again)) = all_products (i_store after_import) /\
  (forall s', ir_loop again = Some s' -> imported s' = 0).
Proof.
  apply (import_again_adds_nothing store_widget admin staff t0 t0_later POST POST
           (Some file_new_and_dup) after_import).
  reflexivity.
Defined.

(** X18: "yesterday" is no date. *)
Lemma transactions_ignore_bad_dates_witness :
  transactions store_widget from_yesterday
  = transactions store_widget (delete "date_from" from_yesterday).
Proof.
  apply (proj1 (transactions_ignore_bad_dates store_widget from_yesterday)).
  vm_compute. reflexivity.
Defined.

(** X19: the third of November 2026, from and to. *)
Lemma transactions_between_dates_witness :
  exists l, transactions store_widget on_nov_3 = Some l /\
    (forall t, t ∈ l <->
       t ∈ all_transactions store_widget /\
       (default "all" (on_nov_3 !! "type") = "purchase" -> t_type t = "purchase") /\
       (default "all" (on_nov_3 !! "type") = "sale" -> t_type t = "sale") /\
       day_number (20760 * one_day) <= day_number (t_created_at t)
         <= day_number (20760 * one_day) /\
       (forall id, args_int on_nov_3 "product_id" = Some id -> id <> 0 ->
          t_product_id t = id)) /\
    Sorted newest_first l.
Proof.
  apply (transactions_between_dates store_widget on_nov_3 (20760 * one_day) (20760 * one_day)).
  - vm_compute. reflexivity.
  - vm_compute. reflexivity.
  - vm_compute. reflexivity.
Defined.

(** X20: the day of [t0]. *)
Lemma transactions_of_a_day_witness :
  exists l,
    transactions store_widget
      {[ "date_from" := strftime_Ymd t0; "date_to" := strftime_Ymd t0 ]} = Some l /\
    forall t, t ∈ l <->
      t ∈ all_transactions store_widget /\ day_number (t_created_at t) = day_number t0.
Proof.
  apply (transactions_of_a_day store_widget t0).
  - change (year_of t0) with 2026. lia.
  - vm_compute. reflexivity.
Defined.

(** X21: a deletion asked by a non-admin, a sale, an import and an edit. *)
Lemma rows_lost_only_to_admin_deletion_witness :
  keeps_rows store_two (serve_all store_two staff_run).
Proof.
  apply (rows_lost_only_to_admin_deletion store_two staff_run).
  vm_compute. reflexivity.
Defined.

(** X22: the row of the initial stock, after a creation, a sale, a
    second creation and a deletion. *)
Lemma ledger_rows_sound_in_every_reachable_store_witness :
  (exists p, p ∈ all_products (serve_all empty_store ledger_run) /\
             p_id p = t_product_id initial_stock_row) /\
  (t_type initial_stock_row = "purchase" \/ t_type initial_stock_row = "sale") /\
  0 < t_quantity initial_stock_row.
Proof.
  apply (ledger_rows_sound_in_every_reachable_store ledger_run initial_stock_row).
  apply list_elem_of_In. left. reflexivity.
Defined.

End MoreRuns.
